(** * Verification of [scripts/update_manifests.py]

    A shallow embedding of the manifest updater and the proofs of the
    properties its specification states.

    Modelling conventions.
    - A path is the list of its components below [REPO_ROOT]; the file
      system is a finite map from paths to nodes.  A directory node carries
      its listing, in the order [iterdir] yields it.
    - Names are byte strings, which the program reads as UTF-8; the
      regular expression class [\d] and [int] take every Unicode decimal
      digit.  A name is as short as a file system has it (255 bytes or
      characters), far below the 4300 digits at which [int] raises.
    - A Python exception is a value of [exn]; a function that may raise
      returns a [result].
    - A Python [dict] is an association list in insertion order. *)

From Stdlib Require Import NArith ZArith Ascii String.
From Stdlib.Strings Require Import Byte.
From stdpp Require Import base option list gmap strings sorting pretty.

Local Open Scope string_scope.
Local Open Scope list_scope.

(** ** Exceptions *)

Inductive exn : Set :=
  | FileNotFoundError
  | NotADirectoryError
  | IsADirectoryError
  | JSONDecodeError
  | AttributeError.

Inductive result (A : Type) : Type :=
  | Ok (a : A)
  | Raise (e : exn).
Arguments Ok {A} a.
Arguments Raise {A} e.

#[global] Instance result_ret : MRet result := fun _ a => Ok a.
#[global] Instance result_bind : MBind result := fun _ _ f m =>
  match m with
  | Ok a => f a
  | Raise e => Raise e
  end.

(** ** The file system *)

Inductive node : Type :=
  | File (data : list byte)
  | Dir (names : list string).

Abbreviation fs := (gmap (list string) node).

(** [p / name] of pathlib *)
Definition child (p : list string) (name : string) : list string := p ++ [name].

(** [Path.exists] *)
Definition path_exists (t : fs) (p : list string) : bool :=
  match t !! p with
  | Some _ => true
  | None => false
  end.

(** [Path.is_dir] *)
Definition is_dir (t : fs) (p : list string) : bool :=
  match t !! p with
  | Some (Dir _) => true
  | _ => false
  end.

(** [Path.iterdir], as the names of the entries *)
Definition iterdir (t : fs) (p : list string) : result (list string) :=
  match t !! p with
  | Some (Dir names) => Ok names
  | Some (File _) => Raise NotADirectoryError
  | None => Raise FileNotFoundError
  end.

(** [open(path, "rb").read()] and [open(path).read()] *)
Definition read_bytes (t : fs) (p : list string) : result (list byte) :=
  match t !! p with
  | Some (File data) => Ok data
  | Some (Dir _) => Raise IsADirectoryError
  | None => Raise FileNotFoundError
  end.

(** The parent directory and the last component of a path *)
Definition parent (p : list string) : list string := removelast p.

Definition basename (p : list string) : string := List.last p "".

(** [open(path, "w")] followed by a write of [data]: an existing file is
    replaced; a new file is entered in the listing of its directory, which
    has to exist. *)
Definition write_bytes (t : fs) (p : list string) (data : list byte) : result fs :=
  match t !! p with
  | Some (File _) => Ok (<[p := File data]> t)
  | Some (Dir _) => Raise IsADirectoryError
  | None =>
      match t !! parent p with
      | Some (Dir names) =>
          Ok (<[p := File data]> (<[parent p := Dir (names ++ [basename p])]> t))
      | Some (File _) => Raise NotADirectoryError
      | None => Raise FileNotFoundError
      end
  end.

(** ** Version directories *)

(** *** Decimal digits

    A name reaches the program as a [str]: its bytes decoded as UTF-8.
    [VERSION_RE] is a [str] pattern, in which [\d] matches every character
    of the Unicode category Nd, and [int] reads all of them.  The
    characters of that category come in runs of ten with the values 0 to
    9 in order; the table has the first code point of every run
    (Unicode 14.0.0, the data of Python 3.11). *)
Definition decimal_zeros : list N :=
  [0x30; 0x660; 0x6f0; 0x7c0; 0x966; 0x9e6; 0xa66; 0xae6; 0xb66; 0xbe6;
   0xc66; 0xce6; 0xd66; 0xde6; 0xe50; 0xed0; 0xf20; 0x1040; 0x1090; 0x17e0;
   0x1810; 0x1946; 0x19d0; 0x1a80; 0x1a90; 0x1b50; 0x1bb0; 0x1c40; 0x1c50;
   0xa620; 0xa8d0; 0xa900; 0xa9d0; 0xa9f0; 0xaa50; 0xabf0; 0xff10; 0x104a0;
   0x10d30; 0x11066; 0x110f0; 0x11136; 0x111d0; 0x112f0; 0x11450; 0x114d0;
   0x11650; 0x116c0; 0x11730; 0x118e0; 0x11950; 0x11c50; 0x11d50; 0x11da0;
   0x16a60; 0x16ac0; 0x16b50; 0x1d7ce; 0x1d7d8; 0x1d7e2; 0x1d7ec; 0x1d7f6;
   0x1e140; 0x1e2f0; 0x1e950; 0x1fbf0]%N.

Fixpoint decimal_in (zeros : list N) (cp : N) : option N :=
  match zeros with
  | z :: zeros' =>
      if ((z <=? cp) && (cp <? z + 10))%N then Some (cp - z)%N
      else decimal_in zeros' cp
  | [] => None
  end.

(** [unicodedata.decimal]: the value of a decimal digit, [None] for any
    other code point *)
Definition decimal_value (cp : N) : option N := decimal_in decimal_zeros cp.

(** The payload of a continuation byte [10xxxxxx] *)
Definition cont (c : ascii) : option N :=
  let b := N_of_ascii c in
  if ((0x80 <=? b) && (b <? 0xC0))%N then Some (b - 0x80)%N else None.

(** The character a string of bytes starts with, as the UTF-8 decoder
    reads it: its code point and the number of its bytes.  [None] at the
    end, and at a byte that does not start a well-formed sequence
    (a stray continuation byte, an overlong form, a surrogate, a code
    point above [0x10FFFF], a sequence cut short): such a byte is decoded
    by [surrogateescape] as a lone surrogate, which no part of the
    pattern matches. *)
Definition utf8_head (s : string) : option (N * nat) :=
  match s with
  | String c0 r =>
      let b0 := N_of_ascii c0 in
      if (b0 <? 0x80)%N then Some (b0, 1%nat)
      else if (b0 <? 0xC2)%N then None
      else if (b0 <? 0xE0)%N then
        match r with
        | String c1 _ =>
            x1 ← cont c1;
            Some (((b0 - 0xC0) * 64 + x1)%N, 2%nat)
        | _ => None
        end
      else if (b0 <? 0xF0)%N then
        match r with
        | String c1 (String c2 _) =>
            x1 ← cont c1;
            x2 ← cont c2;
            let cp := ((b0 - 0xE0) * 4096 + x1 * 64 + x2)%N in
            if ((cp <? 0x800) || ((0xD800 <=? cp) && (cp <? 0xE000)))%N then None
            else Some (cp, 3%nat)
        | _ => None
        end
      else if (b0 <? 0xF5)%N then
        match r with
        | String c1 (String c2 (String c3 _)) =>
            x1 ← cont c1;
            x2 ← cont c2;
            x3 ← cont c3;
            let cp := ((b0 - 0xF0) * 262144 + x1 * 4096 + x2 * 64 + x3)%N in
            if ((cp <? 0x10000) || (0x10FFFF <? cp))%N then None
            else Some (cp, 4%nat)
        | _ => None
        end
      else None
  | EmptyString => None
  end.

(** [\d] at the start of a string: the value of the digit and the number
    of its bytes *)
Definition digit_head (s : string) : option (N * nat) :=
  '(cp, w) ← utf8_head s;
  v ← decimal_value cp;
  Some (v, w).

(** The longest prefix of digits, and what follows it: a greedy [\d*] *)
Fixpoint span_digits (s : string) : string * string :=
  match digit_head s, s with
  | Some (_, 1%nat), String c0 r =>
      let '(d, t) := span_digits r in (String c0 d, t)
  | Some (_, 2%nat), String c0 (String c1 r) =>
      let '(d, t) := span_digits r in (String c0 (String c1 d), t)
  | Some (_, 3%nat), String c0 (String c1 (String c2 r)) =>
      let '(d, t) := span_digits r in (String c0 (String c1 (String c2 d)), t)
  | Some (_, 4%nat), String c0 (String c1 (String c2 (String c3 r))) =>
      let '(d, t) := span_digits r in
      (String c0 (String c1 (String c2 (String c3 d))), t)
  | _, _ => ("", s)
  end.

Definition newline : string := String (ascii_of_N 10) "".

(** [$] without [re.MULTILINE]: the end of the string, or just before a
    newline that ends the string. *)
Definition at_dollar (s : string) : bool :=
  match s with
  | EmptyString => true
  | String c EmptyString => (N_of_ascii c =? 10)%N
  | _ => false
  end.

(** A literal character of the pattern.  The literals are ASCII, and an
    ASCII byte is a character of its own wherever it stands. *)
Definition lit (c : ascii) (s : string) : option string :=
  match s with
  | String c' r => if Ascii.eqb c' c then Some r else None
  | EmptyString => None
  end.

(** [\d+]: greedy, and at least one digit *)
Definition digits1 (s : string) : option (string * string) :=
  match span_digits s with
  | (EmptyString, _) => None
  | (d, r) => Some (d, r)
  end.

(** [VERSION_RE.match(name)], as [m.group(1)] when there is a match.
    The pattern is [^v(\d+\.\d+\.\d+)$]; a digit is never a dot, so the
    greedy reading of each [\d+] is the only one that can succeed. *)
Definition VERSION_RE_match (name : string) : option string :=
  r ← lit "v" name;
  '(a, r) ← digits1 r;
  r ← lit "." r;
  '(b, r) ← digits1 r;
  r ← lit "." r;
  '(c, r) ← digits1 r;
  if at_dollar r then Some (a +:+ "." +:+ b +:+ "." +:+ c) else None.

(** [str.split(".")]; a dot is one byte, and no byte of another
    character equals it *)
Fixpoint split_dot_go (cur : string) (s : string) : list string :=
  match s with
  | EmptyString => [String.rev cur]
  | String c r =>
      if Ascii.eqb c "."
      then String.rev cur :: split_dot_go "" r
      else split_dot_go (String c cur) r
  end.

Definition split_dot (s : string) : list string := split_dot_go "" s.

(** [int(x)] on a run of decimal digits, as the pattern leaves them in
    the parts of a version: the digits are read from the left, each for
    its value *)
Fixpoint int_digits (acc : N) (s : string) : N :=
  match digit_head s, s with
  | Some (v, 1%nat), String _ r => int_digits (acc * 10 + v)%N r
  | Some (v, 2%nat), String _ (String _ r) => int_digits (acc * 10 + v)%N r
  | Some (v, 3%nat), String _ (String _ (String _ r)) =>
      int_digits (acc * 10 + v)%N r
  | Some (v, 4%nat), String _ (String _ (String _ (String _ r))) =>
      int_digits (acc * 10 + v)%N r
  | _, _ => acc
  end.

Definition int_of_digits (s : string) : N := int_digits 0 s.

(** [a > b] on tuples of integers *)
Fixpoint tuple_gtb (a b : list N) : bool :=
  match a, b with
  | x :: a', y :: b' => if (x =? y)%N then tuple_gtb a' b' else (y <? x)%N
  | _ :: _, [] => true
  | [], _ => false
  end.

Definition best_t : Type := list N * string * list string.

(** One turn of the loop of [latest_version_dir] *)
Definition latest_step (t : fs) (device_dir : list string)
    (best : option best_t) (name : string) : option best_t :=
  let entry := child device_dir name in
  if negb (is_dir t entry) then best
  else
    match VERSION_RE_match name with
    | None => best
    | Some g =>
        let ver_tuple := int_of_digits <$> split_dot g in
        match best with
        | None => Some (ver_tuple, g, entry)
        | Some (bt, _, _) =>
            if tuple_gtb ver_tuple bt then Some (ver_tuple, g, entry) else best
        end
    end.

Definition latest_version_dir (t : fs) (device_dir : list string)
    : result (option (string * list string)) :=
  names ← iterdir t device_dir;
  match fold_left (latest_step t device_dir) names None with
  | None => Ok None
  | Some (_, version, entry) => Ok (Some (version, entry))
  end.

(** ** SHA-256 (FIPS 180-4), the function behind [hashlib.sha256]

    Words are numbers below [2^32]; a message is a list of bytes. *)

Module SHA256.
Local Open Scope N_scope.

Definition w32 (x : N) : N := x mod 0x100000000.
Definition add32 (a b : N) : N := w32 (a + b).
Definition not32 (x : N) : N := N.lxor (w32 x) 0xffffffff.
Definition rotr (n x : N) : N :=
  N.lor (N.shiftr x n) (w32 (N.shiftl x (32 - n))).

Definition Ch (x y z : N) : N := N.lxor (N.land x y) (N.land (not32 x) z).
Definition Maj (x y z : N) : N :=
  N.lxor (N.land x y) (N.lxor (N.land x z) (N.land y z)).
Definition bsig0 (x : N) : N := N.lxor (rotr 2 x) (N.lxor (rotr 13 x) (rotr 22 x)).
Definition bsig1 (x : N) : N := N.lxor (rotr 6 x) (N.lxor (rotr 11 x) (rotr 25 x)).
Definition ssig0 (x : N) : N := N.lxor (rotr 7 x) (N.lxor (rotr 18 x) (N.shiftr x 3)).
Definition ssig1 (x : N) : N := N.lxor (rotr 17 x) (N.lxor (rotr 19 x) (N.shiftr x 10)).

(** The constants are defined as FIPS 180-4 defines them: the first
    thirty-two bits of the fractional parts of the cube roots of the first
    sixty-four primes, and, for the initial state, of the square roots of
    the first eight. *)
Definition is_prime (n : N) : bool :=
  (1 <? n) &&
  forallb (fun d => negb (n mod d =? 0)) (List.map N.of_nat (seq 2 (N.to_nat n - 2))).

Definition primes : list N :=
  Eval vm_compute in List.filter is_prime (List.map N.of_nat (seq 2 310)).

(** The integer cube root, one bit at a time *)
Definition cube_root (n : N) : N :=
  fold_left (fun x b => let y := x + N.shiftl 1 b in if y * y * y <=? n then y else x)
            (List.map N.of_nat (rev (seq 0 44))) 0.

Definition frac_cbrt (p : N) : N := w32 (cube_root (N.shiftl p 96)).
Definition frac_sqrt (p : N) : N := w32 (N.sqrt (N.shiftl p 64)).

Definition K : list N := Eval vm_compute in List.map frac_cbrt primes.

Record state : Set := State { sa : N; sb : N; sc : N; sd : N;
                             se : N; sf : N; sg : N; sh : N }.

Definition H0 : state :=
  Eval vm_compute in
    State (frac_sqrt 2) (frac_sqrt 3) (frac_sqrt 5) (frac_sqrt 7)
          (frac_sqrt 11) (frac_sqrt 13) (frac_sqrt 17) (frac_sqrt 19).

Definition round (s : state) (k w : N) : state :=
  let t1 := add32 (sh s) (add32 (bsig1 (se s))
              (add32 (Ch (se s) (sf s) (sg s)) (add32 k w))) in
  let t2 := add32 (bsig0 (sa s)) (Maj (sa s) (sb s) (sc s)) in
  State (add32 t1 t2) (sa s) (sb s) (sc s) (add32 (sd s) t1) (se s) (sf s) (sg s).

(** [win] holds the sixteen words of the schedule from the current round
    on; each round uses the first and appends the next. *)
Fixpoint rounds (ks : list N) (win : list N) (s : state) : state :=
  match ks, win with
  | k :: ks', w :: rest =>
      let next := add32 (ssig1 (nth 13 rest 0))
                    (add32 (nth 8 rest 0) (add32 (ssig0 (nth 0 rest 0)) w)) in
      rounds ks' (rest ++ [next]) (round s k w)
  | _, _ => s
  end.

Definition compress (h : state) (block : list N) : state :=
  let s := rounds K block h in
  State (add32 (sa h) (sa s)) (add32 (sb h) (sb s)) (add32 (sc h) (sc s))
        (add32 (sd h) (sd s)) (add32 (se h) (se s)) (add32 (sf h) (sf s))
        (add32 (sg h) (sg s)) (add32 (sh h) (sh s)).

(** Big-endian words of a run of bytes *)
Fixpoint words_of (bs : list N) : list N :=
  match bs with
  | b0 :: b1 :: b2 :: b3 :: r =>
      (b0 * 0x1000000 + b1 * 0x10000 + b2 * 0x100 + b3) :: words_of r
  | _ => []
  end.

Definition be64 (n : N) : list N :=
  List.map (fun i => (N.shiftr n (8 * i)) mod 256) [7; 6; 5; 4; 3; 2; 1; 0].

Definition pad (msg : list N) : list N :=
  let l := N.of_nat (length msg) in
  let k := (64 - (l + 9) mod 64) mod 64 in
  msg ++ [0x80] ++ repeat 0 (N.to_nat k) ++ be64 (8 * l).

Fixpoint blocks (n : nat) (ws : list N) (h : state) : state :=
  match n with
  | O => h
  | S n' =>
      match ws with
      | [] => h
      | _ => blocks n' (drop 16 ws) (compress h (take 16 ws))
      end
  end.

Definition digest (msg : list byte) : state :=
  let ws := words_of (pad (Byte.to_N <$> msg)) in
  blocks (length ws) ws H0.

Definition hex_digit (n : N) : ascii :=
  match n with
  | 0 => "0" | 1 => "1" | 2 => "2" | 3 => "3" | 4 => "4" | 5 => "5"
  | 6 => "6" | 7 => "7" | 8 => "8" | 9 => "9" | 10 => "a" | 11 => "b"
  | 12 => "c" | 13 => "d" | 14 => "e" | _ => "f"
  end%char.

(** The eight hexadecimal digits of a word, most significant first *)
Definition hex_word (w : N) : list ascii :=
  List.map (fun i => hex_digit ((N.shiftr w (4 * i)) mod 16)) [7; 6; 5; 4; 3; 2; 1; 0].

Definition hex (s : state) : string :=
  string_of_list_ascii
    (hex_word (sa s) ++ hex_word (sb s) ++ hex_word (sc s) ++ hex_word (sd s) ++
     hex_word (se s) ++ hex_word (sf s) ++ hex_word (sg s) ++ hex_word (sh s)).
End SHA256.

(** ** [hashlib] and [sha256_of]

    A hash object is modelled by the bytes it has absorbed: [update]
    appends, [hexdigest] hashes what was absorbed. *)

Record hash_obj : Set := Hash { absorbed : list byte }.

Definition hashlib_sha256 : hash_obj := Hash [].
Definition update (h : hash_obj) (chunk : list byte) : hash_obj :=
  Hash (absorbed h ++ chunk).
Definition hexdigest (h : hash_obj) : string := SHA256.hex (SHA256.digest (absorbed h)).

Definition chunk_size : nat := N.to_nat 65536.

(** [for chunk in iter(lambda: f.read(65536), b""): h.update(chunk)], the
    open file being what is left to read.  A turn consumes at least one
    byte, so [S (length rest)] turns are enough. *)
Fixpoint read_loop (fuel : nat) (rest : list byte) (h : hash_obj) : hash_obj :=
  match fuel with
  | O => h
  | S fuel' =>
      match take chunk_size rest with
      | [] => h
      | chunk => read_loop fuel' (drop chunk_size rest) (update h chunk)
      end
  end.

Definition sha256_of (t : fs) (p : list string) : result string :=
  data ← read_bytes t p;
  Ok (hexdigest (read_loop (S (length data)) data hashlib_sha256)).

(** [path.stat().st_size].  The size of a directory node depends on the
    file system; the program never asks for it, since [sha256_of] is
    called first and raises there. *)
Definition st_size (t : fs) (p : list string) : result Z :=
  match t !! p with
  | Some (File data) => Ok (Z.of_nat (length data))
  | Some (Dir _) => Ok 0%Z
  | None => Raise FileNotFoundError
  end.

(** ** JSON values and dictionaries *)

(** A float is carried by its [repr], which is all that [json.dump] uses. *)
#[local] Unset Elimination Schemes.
Inductive json : Type :=
  | JNull
  | JBool (b : bool)
  | JInt (n : Z)
  | JFloat (repr : string)
  | JStr (s : string)
  | JList (items : list json)
  | JDict (items : list (string * json)).
#[local] Set Elimination Schemes.

Abbreviation dict := (list (string * json)).

(** [d.get(k)] *)
Fixpoint dict_get (d : dict) (k : string) : option json :=
  match d with
  | [] => None
  | (k', v) :: d' => if decide (k' = k) then Some v else dict_get d' k
  end.

(** [d[k] = v]: a key that is present keeps its place *)
Fixpoint dict_set (d : dict) (k : string) (v : json) : dict :=
  match d with
  | [] => [(k, v)]
  | (k', v') :: d' =>
      if decide (k' = k) then (k', v) :: d' else (k', v') :: dict_set d' k v
  end.

(** [d.setdefault(k, v)] *)
Definition setdefault (d : dict) (k : string) (v : json) : dict :=
  match dict_get d k with
  | Some _ => d
  | None => dict_set d k v
  end.

(** ** The three artifact kinds *)

Definition REPO_URL_BASE : string :=
  "https://raw.githubusercontent.com/kubkpower/halloween_dmx_pub/main".

(** [f"{REPO_URL_BASE}/{rel.as_posix()}"] *)
Definition url_of (rel : list string) : string :=
  REPO_URL_BASE +:+ "/" +:+ String.concat "/" rel.

Definition process_firmware (t : fs) (manifest : dict) (device : string)
    (firmware_dir : list string) : result (dict * bool) :=
  result ← latest_version_dir t firmware_dir;
  match result with
  | None => Ok (manifest, false)
  | Some (version, vdir) =>
      let bin_path := child vdir "firmware.bin" in
      if negb (path_exists t bin_path) then Ok (manifest, false)
      else
        let manifest := dict_set manifest "version" (JStr version) in
        digest ← sha256_of t bin_path;
        size ← st_size t bin_path;
        Ok (dict_set manifest "firmware"
              (JDict [("url", JStr (url_of bin_path));
                      ("sha256", JStr digest);
                      ("size", JInt size)]), true)
  end.

Definition process_spiffs (t : fs) (manifest : dict) (device : string)
    (spiffs_dir : list string) : result dict :=
  result ← latest_version_dir t spiffs_dir;
  match result with
  | None => Ok manifest
  | Some (version, vdir) =>
      let bin_path := child vdir "spiffs.bin" in
      if negb (path_exists t bin_path) then Ok manifest
      else
        digest ← sha256_of t bin_path;
        size ← st_size t bin_path;
        Ok (dict_set manifest "spiffs"
              (JDict [("url", JStr (url_of bin_path));
                      ("sha256", JStr digest);
                      ("size", JInt size)]))
  end.

Definition process_config (t : fs) (manifest : dict) (device : string)
    (config_dir : list string) : result dict :=
  let cfg_path := child config_dir "config.yaml" in
  if negb (path_exists t cfg_path) then Ok manifest
  else
    digest ← sha256_of t cfg_path;
    Ok (dict_set manifest "config"
          (JDict [("url", JStr (url_of cfg_path)); ("sha256", JStr digest)])).

(** ** The run: a state and exception monad over the world

    The world is the file system and what was printed.  An exception
    leaves the world as it was when raised: nothing is rolled back.
    [saved] is a history variable: it records the calls of [save_manifest]
    that returned, and nothing reads it. *)

Record world : Type :=
  World { files : fs; stdout : list string; saved : list (list string * dict) }.

Definition M (A : Type) : Type := world → result A * world.

#[global] Instance M_ret : MRet M := fun _ a w => (Ok a, w).
#[global] Instance M_bind : MBind M := fun _ _ f m w =>
  match m w with
  | (Ok a, w') => f a w'
  | (Raise e, w') => (Raise e, w')
  end.

Definition print (line : string) : M unit :=
  fun w => (Ok tt, World (files w) (stdout w ++ [line]) (saved w)).

(** An operation that reads the file system *)
Definition io {A : Type} (f : fs → result A) : M A :=
  fun w => (f (files w), w).

Definition firmware_root : list string := ["firmware"].
Definition spiffs_root : list string := ["spiffs"].
Definition config_root : list string := ["config"].

(** One turn of [for entry in root.iterdir()] *)
Definition scan_step (t : fs) (root : list string) (devices : gset string)
    (name : string) : gset string :=
  if is_dir t (child root name) then devices ∪ {[name]} else devices.

(** One turn of [for root in (...)] in the collection of the devices *)
Definition scan_root (t : fs) (devices : gset string) (root : list string)
    : result (gset string) :=
  if path_exists t root then
    names ← iterdir t root;
    Ok (fold_left (scan_step t root) names devices)
  else Ok devices.

Definition discover_devices (t : fs) : result (gset string) :=
  d ← scan_root t ∅ firmware_root;
  d ← scan_root t d spiffs_root;
  scan_root t d config_root.

(** [sorted(devices)] *)
Definition sorted (devices : gset string) : list string :=
  merge_sort String.le (elements devices).

Definition manifest_name (device : string) : string := device +:+ ".manifest.json".
Definition manifest_path_of (device : string) : list string :=
  child firmware_root (manifest_name device).

Definition note_line (device : string) : string :=
  "  Note: no firmware binary found for " +:+ device +:+
  "; firmware section not updated.".

Definition nothing_line : string := "No device directories found; nothing to do.".

Section Updater.
(** [json.loads] on the text of a file ([None] when it raises) and
    [json.dumps(data, indent=2)]: the standard library's.  On text that
    is not JSON [json.load] raises [JSONDecodeError]; the model gives
    that name to each of its refusals, also to the [ValueError]s it has
    for bytes that are not UTF-8 and for an integer beyond the digit
    limit. *)
Variable json_loads : string → option json.
Variable json_dumps : json → string.

Definition load_manifest (t : fs) (p : list string) : result json :=
  if path_exists t p then
    data ← read_bytes t p;
    match json_loads (string_of_list_byte data) with
    | Some j => Ok j
    | None => Raise JSONDecodeError
    end
  else Ok (JDict []).

(** The bytes [save_manifest] leaves in the file *)
Definition manifest_bytes (data : dict) : list byte :=
  list_byte_of_string (json_dumps (JDict data) +:+ newline).

Definition save_manifest (p : list string) (data : dict) : M unit :=
  fun w =>
    match write_bytes (files w) p (manifest_bytes data) with
    | Ok t' => (Ok tt, World t' (stdout w) (saved w ++ [(p, data)]))
    | Raise e => (Raise e, w)
    end.

(** [manifest.setdefault] needs a dictionary *)
Definition as_dict (j : json) : result dict :=
  match j with
  | JDict d => Ok d
  | _ => Raise AttributeError
  end.

(** The body of [for device in sorted(devices)] *)
Definition device_body (device : string) : M string :=
  let manifest_path := manifest_path_of device in
  manifest ← io (fun t => load_manifest t manifest_path);
  manifest ← io (fun _ => as_dict manifest);
  let manifest := setdefault manifest "$schema"
                    (JStr (REPO_URL_BASE +:+ "/manifest.schema.json")) in
  let manifest := setdefault manifest "name" (JStr device) in
  let manifest := setdefault manifest "chip" (JStr "esp32") in
  let fw_dir := child firmware_root device in
  let sp_dir := child spiffs_root device in
  let cfg_dir := child config_root device in
  '(manifest, found_fw) ←
    io (fun t => if path_exists t fw_dir
                 then process_firmware t manifest device fw_dir
                 else Ok (manifest, false));
  _ ← (if negb found_fw then print (note_line device) else mret tt);
  manifest ← io (fun t => if path_exists t sp_dir
                          then process_spiffs t manifest device sp_dir
                          else Ok manifest);
  manifest ← io (fun t => if path_exists t cfg_dir
                          then process_config t manifest device cfg_dir
                          else Ok manifest);
  _ ← save_manifest manifest_path manifest;
  _ ← print ("Updated " +:+ manifest_name device);
  mret (manifest_name device).

Fixpoint for_devices (devices : list string) (updated : list string)
    : M (list string) :=
  match devices with
  | [] => mret updated
  | device :: rest =>
      name ← device_body device;
      for_devices rest (updated ++ [name])
  end.

Definition main : M unit :=
  devices ← io discover_devices;
  if decide (devices = ∅) then print nothing_line
  else
    updated ← for_devices (sorted devices) [];
    print (newline +:+ "Done. " +:+ pretty (length updated) +:+
           " manifest(s) updated.").

(** A run of the script on a tree *)
Definition run (t : fs) : result unit * world := main (World t [] []).

(** The exit status of the interpreter *)
Definition exit_code (r : result unit) : Z :=
  match r with
  | Ok _ => 0%Z
  | Raise _ => 1%Z
  end.

End Updater.

(** ** ASCII digits

    The digits of a JSON number, and of the integers in the words of the
    specification. *)
Definition ascii_digit (c : ascii) : bool :=
  ((48 <=? N_of_ascii c) && (N_of_ascii c <=? 57))%N.

Fixpoint span_ascii_digits (s : string) : string * string :=
  match s with
  | String c r =>
      if ascii_digit c then
        let '(d, t) := span_ascii_digits r in (String c d, t)
      else ("", s)
  | EmptyString => ("", "")
  end.

Definition int_of_ascii_digits (s : string) : N :=
  fold_left (fun acc c => (acc * 10 + (N_of_ascii c - 48))%N)
            (list_ascii_of_string s) 0%N.

(** ** A concrete [json.dumps(indent=2)] and [json.loads]

    Integers, strings, lists and dictionaries, with the escapes of
    [ensure_ascii]; text is read and written one byte per character, so
    it stands for the library on ASCII text only, which is what the
    example trees hold.  A number with a fraction or an exponent is
    refused by the reader. *)

Module JSONText.

Definition dquote : ascii := ascii_of_N 34.
Definition backslash : ascii := ascii_of_N 92.

Definition hex2 (n : N) : string :=
  String (SHA256.hex_digit (n / 16)) (String (SHA256.hex_digit (n mod 16)) "").

Definition escape_char (c : ascii) : string :=
  let n := N_of_ascii c in
  if (n =? 34)%N then String backslash (String dquote "")
  else if (n =? 92)%N then String backslash (String backslash "")
  else if (n =? 10)%N then String backslash "n"
  else if (n =? 13)%N then String backslash "r"
  else if (n =? 9)%N then String backslash "t"
  else if (n =? 8)%N then String backslash "b"
  else if (n =? 12)%N then String backslash "f"
  else if ((32 <=? n) && (n <=? 126))%N then String c ""
  else String backslash ("u00" +:+ hex2 n).

Fixpoint escape (s : string) : string :=
  match s with
  | EmptyString => ""
  | String c r => escape_char c +:+ escape r
  end.

Definition quote (s : string) : string :=
  String dquote (escape s +:+ String dquote "").

Fixpoint spaces (n : nat) : string :=
  match n with
  | O => ""
  | S n' => " " +:+ spaces n'
  end.

Definition nl_indent (level : nat) : string := newline +:+ spaces (2 * level).

Fixpoint dumps_at (level : nat) (j : json) {struct j} : string :=
  match j with
  | JNull => "null"
  | JBool true => "true"
  | JBool false => "false"
  | JInt n => pretty n
  | JFloat r => r
  | JStr s => quote s
  | JList [] => "[]"
  | JList items =>
      "[" +:+ nl_indent (S level) +:+
      String.concat ("," +:+ nl_indent (S level))
        (List.map (dumps_at (S level)) items) +:+
      nl_indent level +:+ "]"
  | JDict [] => "{}"
  | JDict items =>
      "{" +:+ nl_indent (S level) +:+
      String.concat ("," +:+ nl_indent (S level))
        (List.map (fun '(k, v) => quote k +:+ ": " +:+ dumps_at (S level) v) items) +:+
      nl_indent level +:+ "}"
  end.

Definition dumps (j : json) : string := dumps_at 0 j.

Definition is_ws (c : ascii) : bool :=
  let n := N_of_ascii c in
  ((n =? 32) || (n =? 10) || (n =? 13) || (n =? 9))%N.

Fixpoint skip_ws (s : string) : string :=
  match s with
  | String c r => if is_ws c then skip_ws r else s
  | EmptyString => ""
  end.

Definition hex_value (c : ascii) : option N :=
  let n := N_of_ascii c in
  if ((48 <=? n) && (n <=? 57))%N then Some (n - 48)%N
  else if ((97 <=? n) && (n <=? 102))%N then Some (n - 87)%N
  else if ((65 <=? n) && (n <=? 70))%N then Some (n - 55)%N
  else None.

(** The characters of a string literal after its opening quote, in
    reverse in [acc] *)
Fixpoint parse_chars (s : string) (acc : string) : option (string * string) :=
  match s with
  | EmptyString => None
  | String c r =>
      if Ascii.eqb c dquote then Some (String.rev acc, r)
      else if Ascii.eqb c backslash then
        match r with
        | String e r' =>
            let n := N_of_ascii e in
            if (n =? 34)%N then parse_chars r' (String dquote acc)
            else if (n =? 92)%N then parse_chars r' (String backslash acc)
            else if (n =? 47)%N then parse_chars r' (String "/" acc)
            else if (n =? 110)%N then parse_chars r' (String (ascii_of_N 10) acc)
            else if (n =? 114)%N then parse_chars r' (String (ascii_of_N 13) acc)
            else if (n =? 116)%N then parse_chars r' (String (ascii_of_N 9) acc)
            else if (n =? 98)%N then parse_chars r' (String (ascii_of_N 8) acc)
            else if (n =? 102)%N then parse_chars r' (String (ascii_of_N 12) acc)
            else if (n =? 117)%N then
              match r' with
              | String "0" (String "0" (String h (String l r''))) =>
                  match hex_value h, hex_value l with
                  | Some a, Some b =>
                      parse_chars r'' (String (ascii_of_N (16 * a + b)) acc)
                  | _, _ => None
                  end
              | _ => None
              end
            else None
        | EmptyString => None
        end
      else if (N_of_ascii c <? 32)%N then None
      else parse_chars r (String c acc)
  end.

Definition parse_int (s : string) : option (json * string) :=
  let '(neg, s) :=
    match s with
    | String "-" r => (true, r)
    | _ => (false, s)
    end in
  match span_ascii_digits s with
  | (EmptyString, _) => None
  | (ds, r) =>
      match r with
      | String "." _ | String "e" _ | String "E" _ => None
      | _ =>
          match ds with
          | String "0" (String _ _) => None
          | _ =>
              let n := Z.of_N (int_of_ascii_digits ds) in
              Some (JInt (if neg then (- n)%Z else n), r)
          end
      end
  end.

Definition keyword (k : string) (j : json) (s : string) : option (json * string) :=
  if String.prefix k s
  then Some (j, String.substring (String.length k) (String.length s - String.length k) s)
  else None.

Fixpoint parse_value (fuel : nat) (s : string) : option (json * string) :=
  match fuel with
  | O => None
  | S fuel' =>
      match skip_ws s with
      | EmptyString => None
      | String c r =>
          if Ascii.eqb c "{" then
            match skip_ws r with
            | String "}" r' => Some (JDict [], r')
            | r' => parse_members fuel' r' []
            end
          else if Ascii.eqb c "[" then
            match skip_ws r with
            | String "]" r' => Some (JList [], r')
            | r' => parse_elements fuel' r' []
            end
          else if Ascii.eqb c dquote then
            '(str, r') ← parse_chars r ""; Some (JStr str, r')
          else if Ascii.eqb c "t" then keyword "true" (JBool true) (String c r)
          else if Ascii.eqb c "f" then keyword "false" (JBool false) (String c r)
          else if Ascii.eqb c "n" then keyword "null" JNull (String c r)
          else parse_int (String c r)
      end
  end
with parse_members (fuel : nat) (s : string) (acc : dict) : option (json * string) :=
  match fuel with
  | O => None
  | S fuel' =>
      r ← lit dquote (skip_ws s);
      '(k, r) ← parse_chars r "";
      r ← lit ":" (skip_ws r);
      '(v, r) ← parse_value fuel' r;
      let acc := dict_set acc k v in
      match skip_ws r with
      | String "," r' => parse_members fuel' r' acc
      | String "}" r' => Some (JDict acc, r')
      | _ => None
      end
  end
with parse_elements (fuel : nat) (s : string) (acc : list json) : option (json * string) :=
  match fuel with
  | O => None
  | S fuel' =>
      '(v, r) ← parse_value fuel' s;
      match skip_ws r with
      | String "," r' => parse_elements fuel' r' (acc ++ [v])
      | String "]" r' => Some (JList (acc ++ [v]), r')
      | _ => None
      end
  end.

Definition loads (s : string) : option json :=
  match parse_value (S (String.length s)) s with
  | Some (j, r) =>
      match skip_ws r with
      | EmptyString => Some j
      | _ => None
      end
  | None => None
  end.

End JSONText.

(** ** Example trees *)

Definition bytes_of (s : string) : list byte := list_byte_of_string s.

Definition run_c : fs → result unit * world := run JSONText.loads JSONText.dumps.

(** The manifest [lamp] has before the run *)
Definition lamp_manifest : dict := [("custom", JInt 7); ("chip", JStr "esp8266")].

Definition tree_lamp : fs :=
  list_to_map
    [([], Dir ["firmware"; "spiffs"; "config"]);
     (["firmware"], Dir ["lamp"; "lamp.manifest.json"]);
     (["firmware"; "lamp.manifest.json"],
        File (bytes_of (JSONText.dumps (JDict lamp_manifest))));
     (["firmware"; "lamp"], Dir ["v1.0.0"; "v1.2.0"; "v2.0.0-nonmatching"; "v10.0.0"]);
     (["firmware"; "lamp"; "v1.0.0"], Dir ["firmware.bin"]);
     (["firmware"; "lamp"; "v1.0.0"; "firmware.bin"], File (bytes_of "old"));
     (["firmware"; "lamp"; "v1.2.0"], Dir []);
     (["firmware"; "lamp"; "v2.0.0-nonmatching"], Dir ["firmware.bin"]);
     (["firmware"; "lamp"; "v2.0.0-nonmatching"; "firmware.bin"], File (bytes_of "no"));
     (["firmware"; "lamp"; "v10.0.0"], Dir ["firmware.bin"]);
     (["firmware"; "lamp"; "v10.0.0"; "firmware.bin"], File (bytes_of "abc"));
     (["spiffs"], Dir ["lamp"]);
     (["spiffs"; "lamp"], Dir ["v11.0.0"]);
     (["spiffs"; "lamp"; "v11.0.0"], Dir ["spiffs.bin"]);
     (["spiffs"; "lamp"; "v11.0.0"; "spiffs.bin"], File (bytes_of "image"));
     (["config"], Dir ["lamp"; "ghost"]);
     (["config"; "lamp"], Dir []);
     (["config"; "ghost"], Dir ["config.yaml"]);
     (["config"; "ghost"; "config.yaml"], File (bytes_of "a: 1"))].

(** No tree at all below the root *)
Definition tree_empty : fs := list_to_map [([], Dir [])].

(** A device under [config/] only, and no [firmware/] *)
Definition tree_nofw : fs :=
  list_to_map
    [([], Dir ["config"]);
     (["config"], Dir ["ghost"]);
     (["config"; "ghost"], Dir ["config.yaml"]);
     (["config"; "ghost"; "config.yaml"], File (bytes_of "a: 1"))].

(** [bare] has a firmware directory without a version directory; [ghost]
    has no firmware directory. *)
Definition tree_bare : fs :=
  list_to_map
    [([], Dir ["firmware"; "config"]);
     (["firmware"], Dir ["bare"]);
     (["firmware"; "bare"], Dir ["docs"]);
     (["firmware"; "bare"; "docs"], Dir []);
     (["config"], Dir ["ghost"]);
     (["config"; "ghost"], Dir ["config.yaml"]);
     (["config"; "ghost"; "config.yaml"], File (bytes_of "a: 1"))].

(** The manifest of [b] is not JSON. *)
Definition tree_bad : fs :=
  list_to_map
    [([], Dir ["firmware"]);
     (["firmware"], Dir ["a"; "b"; "b.manifest.json"]);
     (["firmware"; "a"], Dir []);
     (["firmware"; "b"], Dir []);
     (["firmware"; "b.manifest.json"], File (bytes_of "{"))].

Definition nl_name : string := "v2.0.0" +:+ newline.

(** A version directory, and a directory whose name is a version followed
    by a newline *)
Definition tree_newline : fs :=
  list_to_map
    [([], Dir ["firmware"]);
     (["firmware"], Dir ["lamp"]);
     (["firmware"; "lamp"], Dir ["v1.0.0"; nl_name]);
     (["firmware"; "lamp"; "v1.0.0"], Dir ["firmware.bin"]);
     (["firmware"; "lamp"; "v1.0.0"; "firmware.bin"], File (bytes_of "old"));
     (["firmware"; "lamp"; nl_name], Dir ["firmware.bin"]);
     (["firmware"; "lamp"; nl_name; "firmware.bin"], File (bytes_of "new"))].

(** [٣], the Arabic-Indic digit three (U+0663), in UTF-8; a version
    directory named with it, beside an older one in ASCII digits *)
Definition arabic_three : string :=
  String (ascii_of_N 0xD9) (String (ascii_of_N 0xA3) "").

Definition arabic_name : string := "v" +:+ arabic_three +:+ ".0.0".

Definition tree_arabic : fs :=
  list_to_map
    [([], Dir ["firmware"]);
     (["firmware"], Dir ["lamp"]);
     (["firmware"; "lamp"], Dir ["v1.0.0"; arabic_name]);
     (["firmware"; "lamp"; "v1.0.0"], Dir ["firmware.bin"]);
     (["firmware"; "lamp"; "v1.0.0"; "firmware.bin"], File (bytes_of "old"));
     (["firmware"; "lamp"; arabic_name], Dir ["firmware.bin"]);
     (["firmware"; "lamp"; arabic_name; "firmware.bin"], File (bytes_of "new"))].

(** *** Trees for the further properties *)

(** Two directories of the same version, of which the first has no
    binary, after an older one that has *)
Definition tree_ties : fs :=
  list_to_map
    [([], Dir ["firmware"]);
     (["firmware"], Dir ["fog"]);
     (["firmware"; "fog"], Dir ["v1.1.0"; "v01.2.0"; "notes.txt"; "v1.2.0"]);
     (["firmware"; "fog"; "v1.1.0"], Dir ["firmware.bin"]);
     (["firmware"; "fog"; "v1.1.0"; "firmware.bin"], File (bytes_of "old"));
     (["firmware"; "fog"; "v01.2.0"], Dir []);
     (["firmware"; "fog"; "notes.txt"], File (bytes_of "v9.9.9"));
     (["firmware"; "fog"; "v1.2.0"], Dir ["firmware.bin"]);
     (["firmware"; "fog"; "v1.2.0"; "firmware.bin"], File (bytes_of "new"))].

(** [x] and [x.manifest.json] are both devices; the second one as a file
    in [firmware/] would be the manifest of the first *)
Definition tree_clash : fs :=
  list_to_map
    [([], Dir ["firmware"; "config"]);
     (["firmware"], Dir ["x"]);
     (["firmware"; "x"], Dir []);
     (["config"], Dir ["x.manifest.json"]);
     (["config"; "x.manifest.json"], Dir [])].

(** [spiffs] is a regular file *)
Definition tree_rootfile : fs :=
  list_to_map
    [([], Dir ["firmware"; "spiffs"]);
     (["firmware"], Dir ["lamp"]);
     (["firmware"; "lamp"], Dir []);
     (["spiffs"], File (bytes_of "image"))].

(** The manifest of [lamp] is a JSON list *)
Definition tree_list : fs :=
  list_to_map
    [([], Dir ["firmware"]);
     (["firmware"], Dir ["lamp"; "lamp.manifest.json"]);
     (["firmware"; "lamp"], Dir []);
     (["firmware"; "lamp.manifest.json"], File (bytes_of "[1, 2]"))].

(** ** The pattern in the words of the specification

    Modelled on the spec: a version directory is named
    [v<int>.<int>.<int>], three integers in digits separated by dots. *)

Definition all_digits (s : string) : bool :=
  match s with
  | EmptyString => false
  | _ => forallb ascii_digit (list_ascii_of_string s)
  end.

Definition spec_version_name (name : string) : Prop :=
  ∃ a b c,
    all_digits a = true ∧ all_digits b = true ∧ all_digits c = true ∧
    name = "v" +:+ a +:+ "." +:+ b +:+ "." +:+ c.

(** * Definitions for the statements *)

(** ** Version tuples and the loop of [latest_version_dir] *)

Definition ver_tuple (g : string) : list N := int_of_digits <$> split_dot g.

(** ** What [VERSION_RE] matches *)

(** One decimal digit: the bytes of one character that [\d] matches *)
Definition decimal_char (u : string) : Prop :=
  ∃ v, digit_head u = Some (v, String.length u).

(** A non-empty run of decimal digits: what [\d+] matches *)
Inductive decimal_run : string → Prop :=
  | decimal_run_one u : decimal_char u → decimal_run u
  | decimal_run_more u d : decimal_char u → decimal_run d → decimal_run (u +:+ d).

(** Three runs of decimal digits separated by dots *)
Definition version_text (g : string) : Prop :=
  ∃ a b c,
    decimal_run a ∧ decimal_run b ∧ decimal_run c ∧
    g = a +:+ "." +:+ b +:+ "." +:+ c.

(** A byte of a character that is not ASCII *)
Definition high (c : ascii) : bool := (0x80 <=? N_of_ascii c)%N.

(** What an entry contributes to the loop: nothing, or its tuple and
    version string. *)
Definition candidate (t : fs) (device_dir : list string) (name : string)
    : option (list N * string) :=
  if is_dir t (child device_dir name)
  then g ← VERSION_RE_match name; Some (ver_tuple g, g)
  else None.

(** The invariant of the loop: [best] comes from an entry seen so far and
    no entry seen so far beats it. *)
Definition from_entry (t : fs) (d : list string) (names : list string)
    (b : best_t) : Prop :=
  ∃ n, n ∈ names ∧ candidate t d n = Some (b.1.1, b.1.2) ∧ b.2 = child d n.

Definition unbeaten (t : fs) (d : list string) (names : list string)
    (b : best_t) : Prop :=
  ∀ n vt g, n ∈ names → candidate t d n = Some (vt, g) → tuple_gtb vt b.1.1 = false.

(** A device without a firmware binary the program can use: no firmware
    directory, or no directory in it whose name matches [VERSION_RE], or
    no [firmware.bin] in the latest one. *)
Definition no_firmware_binary (t : fs) (device : string) : Prop :=
  let fw_dir := child firmware_root device in
  path_exists t fw_dir = false ∨
  (∃ names, iterdir t fw_dir = Ok names ∧
            ∀ n, n ∈ names → is_dir t (child fw_dir n) = true →
                 VERSION_RE_match n = None) ∨
  (∃ version vdir, latest_version_dir t fw_dir = Ok (Some (version, vdir)) ∧
                   path_exists t (child vdir "firmware.bin") = false).

(** ** Digests, records and exceptions *)

Definition is_lower_hex (c : ascii) : bool :=
  let n := N_of_ascii c in
  (((48 <=? n) && (n <=? 57)) || ((97 <=? n) && (n <=? 102)))%N.

(** What [process_firmware] and [process_spiffs] store for a file, and
    what [process_config] stores *)
Definition binary_record (p : list string) (data : list byte) : json :=
  JDict [("url", JStr (url_of p));
         ("sha256", JStr (SHA256.hex (SHA256.digest data)));
         ("size", JInt (Z.of_nat (length data)))].

Definition config_record (p : list string) (data : list byte) : json :=
  JDict [("url", JStr (url_of p));
         ("sha256", JStr (SHA256.hex (SHA256.digest data)))].

(** The exceptions that are [OSError]s *)
Definition is_os_error (e : exn) : bool :=
  match e with
  | FileNotFoundError | NotADirectoryError | IsADirectoryError => true
  | JSONDecodeError | AttributeError => false
  end.

(** Two results that raise alike, or return related values *)
Definition result_rel {A : Type} (R : A → A → Prop) (x y : result A) : Prop :=
  match x, y with
  | Ok a, Ok b => R a b
  | Raise e, Raise e' => e = e'
  | _, _ => False
  end.

(** Two results that both return, or raise the same exception *)
Definition same_status {A B : Type} (r : result A) (r' : result B) : Prop :=
  match r, r' with
  | Ok _, Ok _ => True
  | Raise e, Raise e' => e = e'
  | _, _ => False
  end.

(** ** How two trees have to agree for the program to behave alike

    At a path the program looks at, two trees are [tight] when they hold
    the same node, and [loose] when they hold the same node or two files:
    the shape is the same, the content of a file may differ. *)

Definition tight (t t' : fs) (p : list string) : Prop := t !! p = t' !! p.

Definition loose (t t' : fs) (p : list string) : Prop :=
  t !! p = t' !! p ∨
  ∃ b b', t !! p = Some (File b) ∧ t' !! p = Some (File b').

(** The same nodes below the first level of the directories of a device *)
Definition deep_tight (t t' : fs) (device : string) : Prop :=
  ∀ r x rest, tight t t' (r :: device :: x :: rest).

(** What the program may look at for a device: its manifest and what lies
    under its directory in a tree. *)
Definition reads (device : string) (p : list string) : Prop :=
  p = manifest_path_of device ∨ ∃ r rest, p = r :: device :: rest.

(** Trees that differ by saved manifests.  [extends t t1]: the
    directories of [t1] are those of [t]; the listing of [firmware/] may
    have grown by names that are not directories. *)
Definition firmware_ext (t t1 : fs) : Prop :=
  t1 !! firmware_root = t !! firmware_root ∨
  ∃ names extra,
    t !! firmware_root = Some (Dir names) ∧
    t1 !! firmware_root = Some (Dir (names ++ extra)) ∧
    Forall (λ n, is_dir t1 (child firmware_root n) = false) extra.

Definition extends (t t1 : fs) : Prop :=
  (∀ q, is_dir t1 q = is_dir t q) ∧
  tight t t1 spiffs_root ∧ tight t t1 config_root ∧
  firmware_ext t t1.

(** ** The body of the loop in parts *)

(** A list of updates, applied as the program stores them *)
Definition apply_updates (us : dict) (m : dict) : dict :=
  fold_left (λ d kv, dict_set d kv.1 kv.2) us m.

Definition schema_url : string := REPO_URL_BASE +:+ "/manifest.schema.json".

(** The three [setdefault] calls *)
Definition defaults (device : string) (manifest : dict) : dict :=
  setdefault
    (setdefault
       (setdefault manifest "$schema" (JStr (REPO_URL_BASE +:+ "/manifest.schema.json")))
       "name" (JStr device))
    "chip" (JStr "esp32").

(** The firmware part of the body, and the two parts after the note *)
Definition fw_part (t : fs) (device : string) (manifest : dict) : result (dict * bool) :=
  if path_exists t (child firmware_root device)
  then process_firmware t manifest device (child firmware_root device)
  else Ok (manifest, false).

Definition rest_part (t : fs) (device : string) (manifest : dict) : result dict :=
  manifest ← (if path_exists t (child spiffs_root device)
              then process_spiffs t manifest device (child spiffs_root device)
              else Ok manifest);
  if path_exists t (child config_root device)
  then process_config t manifest device (child config_root device)
  else Ok manifest.

(** Up to the note: load, defaults, firmware *)
Definition stage1 (json_loads : string → option json) (t : fs) (device : string)
    : result (dict * bool) :=
  manifest ← load_manifest json_loads t (manifest_path_of device);
  manifest ← as_dict manifest;
  fw_part t device (defaults device manifest).

(** What is printed up to the note *)
Definition noted (device : string) (found : bool) (out : list string) : list string :=
  if found then out else out ++ [note_line device].

Definition done_line (n : nat) : string :=
  newline +:+ "Done. " +:+ pretty n +:+ " manifest(s) updated.".

(** The two outcomes of the body of the loop for a device, from a world
    [w]: it raises, and the files are as they were; or it saves the
    manifest it computed. *)
Inductive body_outcome (json_loads : string → option json) (json_dumps : json → string)
    (device : string) (w : world) : result string → world → Prop :=
  | body_raised e w' :
      files w' = files w → saved w' = saved w →
      (stdout w' = stdout w ∨ stdout w' = stdout w ++ [note_line device]) →
      body_outcome json_loads json_dumps device w (Raise e) w'
  | body_saved m found m' w' :
      stage1 json_loads (files w) device = Ok (m, found) →
      rest_part (files w) device m = Ok m' →
      write_bytes (files w) (manifest_path_of device)
        (manifest_bytes json_dumps m') = Ok (files w') →
      stdout w' = noted device found (stdout w) ++
                  ["Updated " +:+ manifest_name device] →
      saved w' = saved w ++ [(manifest_path_of device, m')] →
      body_outcome json_loads json_dumps device w (Ok (manifest_name device)) w'.

(** The text of a saved manifest reads back as the dictionary saved *)
Definition reads_back (json_loads : string → option json) (json_dumps : json → string)
    (m : dict) : Prop :=
  json_loads (string_of_list_byte (manifest_bytes json_dumps m)) = Some (JDict m).

(** Every manifest recorded as saved is the manifest of a device that is
    not in [devs], and is in its file. *)
Definition saved_ok (json_dumps : json → string) (devs : list string) (w : world) : Prop :=
  ∀ p m, (p, m) ∈ saved w →
    (∃ d, p = manifest_path_of d ∧ d ∉ devs) ∧
    files w !! p = Some (File (manifest_bytes json_dumps m)).

(** ** Manifests that differ in a digest and a size *)

(** Two records of a binary with the same [url]: they differ at most in
    [sha256] and [size]. *)
Definition same_but_digest (v1 v2 : json) : Prop :=
  ∃ url s1 n1 s2 n2,
    v1 = JDict [("url", JStr url); ("sha256", JStr s1); ("size", JInt n1)] ∧
    v2 = JDict [("url", JStr url); ("sha256", JStr s2); ("size", JInt n2)].

(** Two entries with the same key, and the same value or, under [key],
    two such records *)
Definition entry_alike (key : string) (kv1 kv2 : string * json) : Prop :=
  kv1.1 = kv2.1 ∧ (kv1.2 = kv2.2 ∨ (kv1.1 = key ∧ same_but_digest kv1.2 kv2.2)).

(** Two dictionaries with the same keys in the same order and the same
    values, but for the [sha256] and the [size] of the record under
    [key] *)
Definition digest_only (key : string) (m1 m2 : dict) : Prop :=
  Forall2 (entry_alike key) m1 m2.

(** ** Definitions for the further properties *)

(** A string without a dot *)
Definition no_dot (s : string) : Prop :=
  Forall (λ c, Ascii.eqb c "." = false) (list_ascii_of_string s).

(** The three roots, in the order [main] scans them *)
Definition roots : list (list string) := [firmware_root; spiffs_root; config_root].

(** A device found under a root: an entry of its listing that is a
    directory *)
Definition device_under (t : fs) (root : list string) (d : string) : Prop :=
  ∃ names, iterdir t root = Ok names ∧ d ∈ names ∧ is_dir t (child root d) = true.

(** The keys the program may add to a manifest, in the order it adds them *)
Definition managed_keys : list string :=
  ["$schema"; "name"; "chip"; "version"; "firmware"; "spiffs"; "config"].

(** The first character of a line *)
Definition first_char (s : string) : option ascii :=
  match s with
  | String c _ => Some c
  | EmptyString => None
  end.

(** A device without a file-system image the program can use: no
    directory under [spiffs/], or no directory in it whose name matches, or
    no [spiffs.bin] in the latest one. *)
Definition no_spiffs_binary (t : fs) (device : string) : Prop :=
  let sp_dir := child spiffs_root device in
  path_exists t sp_dir = false ∨
  latest_version_dir t sp_dir = Ok None ∨
  (∃ version vdir, latest_version_dir t sp_dir = Ok (Some (version, vdir)) ∧
                   path_exists t (child vdir "spiffs.bin") = false).

(** ** A tactic for the comparisons of words *)

Ltac order_cases :=
  repeat match goal with
         | H : context [N.eqb ?a ?b] |- _ => destruct (N.eqb_spec a b); subst
         | |- context [N.eqb ?a ?b] => destruct (N.eqb_spec a b); subst
         end;
  rewrite ?N.ltb_ge, ?N.ltb_lt in *.

(** * Properties *)

(** ** SHA-256 on the test vectors of the standard *)

Example sha256_constants :
  length SHA256.primes = 64 ∧ last SHA256.primes = Some 311%N ∧
  head SHA256.K = Some 0x428a2f98%N ∧ last SHA256.K = Some 0xc67178f2%N ∧
  SHA256.sa SHA256.H0 = 0x6a09e667%N ∧ SHA256.sh SHA256.H0 = 0x5be0cd19%N.
Proof. vm_compute. repeat split; reflexivity. Qed.

Example sha256_empty :
  SHA256.hex (SHA256.digest []) =
  "e3b0c44298fc1c149afbf4c8996fb92427ae41e4649b934ca495991b7852b855".
Proof. vm_compute. reflexivity. Qed.

Example sha256_abc :
  SHA256.hex (SHA256.digest (list_byte_of_string "abc")) =
  "ba7816bf8f01cfea414140de5dae2223b00361a396177a9cb410ff61f20015ad".
Proof. vm_compute. reflexivity. Qed.

Example sha256_two_blocks :
  SHA256.hex (SHA256.digest (list_byte_of_string
    "abcdbcdecdefdefgefghfghighijhijkijkljklmklmnlmnomnopnopq")) =
  "248d6a61d20638b8e5c026930c3e6039a33ce45964ff2167f6ecedd419db06c1".
Proof. vm_compute. reflexivity. Qed.

(** ** [VERSION_RE] *)

Example VERSION_RE_plain : VERSION_RE_match "v1.0.0" = Some "1.0.0".
Proof. reflexivity. Qed.

Example VERSION_RE_suffix : VERSION_RE_match "v2.0.0-nonmatching" = None.
Proof. reflexivity. Qed.

Example VERSION_RE_zeros : VERSION_RE_match "v10.02.3" = Some "10.02.3".
Proof. reflexivity. Qed.

Example VERSION_RE_two_parts : VERSION_RE_match "v1.0" = None.
Proof. reflexivity. Qed.

Example VERSION_RE_no_v : VERSION_RE_match "1.0.0" = None.
Proof. reflexivity. Qed.

Example VERSION_RE_newline : VERSION_RE_match nl_name = Some "2.0.0".
Proof. reflexivity. Qed.

(** Decimal digits that are not ASCII: two, three and four bytes *)
Example VERSION_RE_arabic :
  VERSION_RE_match arabic_name = Some (arabic_three +:+ ".0.0").
Proof. reflexivity. Qed.

Example VERSION_RE_fullwidth :
  VERSION_RE_match
    ("v" +:+ String (ascii_of_N 0xEF) (String (ascii_of_N 0xBC) (String (ascii_of_N 0x91) ""))
         +:+ ".0.0") =
    Some (String (ascii_of_N 0xEF) (String (ascii_of_N 0xBC) (String (ascii_of_N 0x91) ""))
            +:+ ".0.0").
Proof. reflexivity. Qed.

Example VERSION_RE_double_struck :
  VERSION_RE_match
    ("v" +:+ String (ascii_of_N 0xF0) (String (ascii_of_N 0x9D) (String (ascii_of_N 0x9F)
               (String (ascii_of_N 0x99) ""))) +:+ ".2.3") =
    Some (String (ascii_of_N 0xF0) (String (ascii_of_N 0x9D) (String (ascii_of_N 0x9F)
               (String (ascii_of_N 0x99) ""))) +:+ ".2.3").
Proof. reflexivity. Qed.

(** A superscript two (U+00B2) is a digit and no decimal digit; an
    overlong form of [1] is no character. *)
Example VERSION_RE_superscript :
  VERSION_RE_match
    ("v" +:+ String (ascii_of_N 0xC2) (String (ascii_of_N 0xB2) "") +:+ ".0.0") = None.
Proof. reflexivity. Qed.

Example VERSION_RE_overlong :
  VERSION_RE_match
    ("v" +:+ String (ascii_of_N 0xC0) (String (ascii_of_N 0xB1) "") +:+ ".0.0") = None.
Proof. reflexivity. Qed.

Example ver_tuple_arabic :
  ver_tuple ("1" +:+ arabic_three +:+ ".0.0") = [13; 0; 0]%N.
Proof. reflexivity. Qed.

Example latest_version_dir_arabic :
  latest_version_dir tree_arabic ["firmware"; "lamp"] =
    Ok (Some (arabic_three +:+ ".0.0", ["firmware"; "lamp"; arabic_name])).
Proof. vm_compute; reflexivity. Qed.

Example process_firmware_arabic :
  process_firmware tree_arabic [] "lamp" ["firmware"; "lamp"] =
    Ok ([("version", JStr (arabic_three +:+ ".0.0"));
         ("firmware",
          binary_record ["firmware"; "lamp"; arabic_name; "firmware.bin"]
            (bytes_of "new"))], true).
Proof. vm_compute; reflexivity. Qed.

Example ver_tuple_numeric : int_of_digits <$> split_dot "10.02.3" = [10; 2; 3]%N.
Proof. reflexivity. Qed.

Lemma string_app_assoc (a b c : string) : (a +:+ b) +:+ c = a +:+ b +:+ c.
Proof.
  induction a as [|x a IH]; [done|].
  change (String x ((a +:+ b) +:+ c) = String x (a +:+ b +:+ c)). by rewrite IH.
Qed.

Lemma string_app_nil_r (a : string) : a +:+ "" = a.
Proof.
  induction a as [|x a IH]; [done|].
  change (String x (a +:+ "") = String x a). by rewrite IH.
Qed.

Lemma cont_high c x : cont c = Some x → high c = true.
Proof.
  unfold cont, high. destruct (0x80 <=? N_of_ascii c)%N; [done|]. by simpl.
Qed.

Lemma high_not_dot c : high c = true → Ascii.eqb c "." = false.
Proof.
  intros H. destruct (Ascii.eqb_spec c ".") as [->|]; [|done].
  vm_compute in H. discriminate H.
Qed.

(** The shape of a well-formed sequence: one ASCII byte, or a lead byte
    and one to three continuation bytes; what follows it has no part in
    how it is read. *)
Lemma utf8_head_shape s cp w :
  utf8_head s = Some (cp, w) →
  (∃ c0 r, s = String c0 r ∧ w = 1%nat ∧ cp = N_of_ascii c0 ∧
           ∀ r', utf8_head (String c0 r') = Some (cp, w)) ∨
  (∃ c0 c1 r, s = String c0 (String c1 r) ∧ w = 2%nat ∧
              high c0 = true ∧ high c1 = true ∧
              ∀ r', utf8_head (String c0 (String c1 r')) = Some (cp, w)) ∨
  (∃ c0 c1 c2 r, s = String c0 (String c1 (String c2 r)) ∧ w = 3%nat ∧
                 high c0 = true ∧ high c1 = true ∧ high c2 = true ∧
                 ∀ r', utf8_head (String c0 (String c1 (String c2 r'))) = Some (cp, w)) ∨
  (∃ c0 c1 c2 c3 r, s = String c0 (String c1 (String c2 (String c3 r))) ∧ w = 4%nat ∧
                    high c0 = true ∧ high c1 = true ∧ high c2 = true ∧ high c3 = true ∧
                    ∀ r', utf8_head (String c0 (String c1 (String c2 (String c3 r')))) =
                          Some (cp, w)).
Proof.
  destruct s as [|c0 r]; [done|]. intros H.
  unfold utf8_head in H. cbv zeta in H.
  assert (∀ b, (b <? 0x80)%N = false → (0x80 <=? b)%N = true) as Hhigh.
  { intros b Hb. apply N.leb_le. apply N.ltb_ge in Hb. exact Hb. }
  destruct (N_of_ascii c0 <? 0x80)%N eqn:H0.
  { injection H as <- <-. left. exists c0, r.
    split; [done|]. split; [done|]. split; [done|].
    intros r'. unfold utf8_head. cbv zeta. by rewrite H0. }
  apply Hhigh in H0 as Hc0. right.
  destruct (N_of_ascii c0 <? 0xC2)%N eqn:H1; [done|].
  destruct (N_of_ascii c0 <? 0xE0)%N eqn:H2.
  { destruct r as [|c1 r]; [done|].
    destruct (cont c1) as [x1|] eqn:Hx1; [|done]. cbn [mbind option_bind] in H.
    injection H as <- <-. left. exists c0, c1, r.
    split; [done|]. split; [done|]. split; [done|].
    split; [by apply cont_high in Hx1|].
    intros r'. unfold utf8_head. cbv zeta. by rewrite H0, H1, H2, Hx1. }
  right.
  destruct (N_of_ascii c0 <? 0xF0)%N eqn:H3.
  { destruct r as [|c1 [|c2 r]]; [done..|].
    destruct (cont c1) as [x1|] eqn:Hx1; [|done]. cbn [mbind option_bind] in H.
    destruct (cont c2) as [x2|] eqn:Hx2; [|done]. cbn [mbind option_bind] in H.
    destruct (_ || _) eqn:Hr in H; [done|].
    injection H as <- <-. left. exists c0, c1, c2, r.
    split; [done|]. split; [done|]. split; [done|].
    split; [by apply cont_high in Hx1|]. split; [by apply cont_high in Hx2|].
    intros r'. unfold utf8_head. cbv zeta. rewrite H0, H1, H2, H3, Hx1, Hx2.
    cbn [mbind option_bind]. by rewrite Hr. }
  right.
  destruct (N_of_ascii c0 <? 0xF5)%N eqn:H4; [|done].
  destruct r as [|c1 [|c2 [|c3 r]]]; [done..|].
  destruct (cont c1) as [x1|] eqn:Hx1; [|done]. cbn [mbind option_bind] in H.
  destruct (cont c2) as [x2|] eqn:Hx2; [|done]. cbn [mbind option_bind] in H.
  destruct (cont c3) as [x3|] eqn:Hx3; [|done]. cbn [mbind option_bind] in H.
  destruct (_ || _) eqn:Hr in H; [done|].
  injection H as <- <-. exists c0, c1, c2, c3, r.
  split; [done|]. split; [done|]. split; [done|].
  split; [by apply cont_high in Hx1|]. split; [by apply cont_high in Hx2|].
  split; [by apply cont_high in Hx3|].
  intros r'. unfold utf8_head. cbv zeta. rewrite H0, H1, H2, H3, H4, Hx1, Hx2, Hx3.
  cbn [mbind option_bind]. by rewrite Hr.
Qed.

Lemma span_digits_eq s :
  span_digits s =
    match digit_head s, s with
    | Some (_, 1%nat), String c0 r =>
        let '(d, t) := span_digits r in (String c0 d, t)
    | Some (_, 2%nat), String c0 (String c1 r) =>
        let '(d, t) := span_digits r in (String c0 (String c1 d), t)
    | Some (_, 3%nat), String c0 (String c1 (String c2 r)) =>
        let '(d, t) := span_digits r in (String c0 (String c1 (String c2 d)), t)
    | Some (_, 4%nat), String c0 (String c1 (String c2 (String c3 r))) =>
        let '(d, t) := span_digits r in
        (String c0 (String c1 (String c2 (String c3 d))), t)
    | _, _ => ("", s)
    end.
Proof. by destruct s. Qed.

Lemma int_digits_eq acc s :
  int_digits acc s =
    match digit_head s, s with
    | Some (v, 1%nat), String _ r => int_digits (acc * 10 + v)%N r
    | Some (v, 2%nat), String _ (String _ r) => int_digits (acc * 10 + v)%N r
    | Some (v, 3%nat), String _ (String _ (String _ r)) =>
        int_digits (acc * 10 + v)%N r
    | Some (v, 4%nat), String _ (String _ (String _ (String _ r))) =>
        int_digits (acc * 10 + v)%N r
    | _, _ => acc
    end.
Proof. by destruct s. Qed.

Lemma span_digits_none s : digit_head s = None → span_digits s = ("", s).
Proof. intros H. rewrite span_digits_eq, H. by destruct s. Qed.

Lemma dot_not_decimal : decimal_value (N_of_ascii ".") = None.
Proof. reflexivity. Qed.

(** A digit at the head of a string: its bytes [u], none of them a dot,
    are read the same before any other string, and a greedy run and
    [int] go on behind them. *)
Lemma digit_head_shape s v w :
  digit_head s = Some (v, w) →
  ∃ u r,
    s = u +:+ r ∧ String.length u = w ∧ u ≠ "" ∧ no_dot u ∧
    (∀ r', digit_head (u +:+ r') = Some (v, w)) ∧
    (∀ r', span_digits (u +:+ r') = (u +:+ (span_digits r').1, (span_digits r').2)) ∧
    (∀ acc r', int_digits acc (u +:+ r') = int_digits (acc * 10 + v)%N r').
Proof.
  unfold digit_head.
  destruct (utf8_head s) as [[cp w']|] eqn:Hu; [|done]. cbn [mbind option_bind].
  destruct (decimal_value cp) as [v'|] eqn:Hv; [|done]. cbn [mbind option_bind].
  intros [= -> ->].
  assert (∀ u, (∀ r', utf8_head (u +:+ r') = Some (cp, w)) →
               ∀ r', digit_head (u +:+ r') = Some (v, w)) as Hd.
  { intros u H r'. unfold digit_head. rewrite H. cbn [mbind option_bind].
    by rewrite Hv. }
  destruct (utf8_head_shape _ _ _ Hu)
    as [(c0 & r & -> & -> & Hcp & Hi)
       |[(c0 & c1 & r & -> & -> & h0 & h1 & Hi)
        |[(c0 & c1 & c2 & r & -> & -> & h0 & h1 & h2 & Hi)
         |(c0 & c1 & c2 & c3 & r & -> & -> & h0 & h1 & h2 & h3 & Hi)]]].
  - exists (String c0 ""), r. split; [done|]. split; [done|]. split; [done|].
    specialize (Hd (String c0 "") Hi). split; [|split; [done|split]].
    + apply Forall_cons. split; [|by apply Forall_nil].
      destruct (Ascii.eqb_spec c0 ".") as [->|]; [|done].
      subst cp. by rewrite dot_not_decimal in Hv.
    + intros r'. rewrite span_digits_eq, (Hd r').
      change (String c0 "" +:+ r') with (String c0 r').
      cbv beta iota. by destruct (span_digits r').
    + intros acc r'. rewrite int_digits_eq, (Hd r'). done.
  - exists (String c0 (String c1 "")), r. split; [done|]. split; [done|]. split; [done|].
    specialize (Hd (String c0 (String c1 "")) Hi). split; [|split; [done|split]].
    + repeat (apply Forall_cons; split; [by apply high_not_dot|]). by apply Forall_nil.
    + intros r'. rewrite span_digits_eq, (Hd r').
      change (String c0 (String c1 "") +:+ r') with (String c0 (String c1 r')).
      cbv beta iota. by destruct (span_digits r').
    + intros acc r'. rewrite int_digits_eq, (Hd r'). done.
  - exists (String c0 (String c1 (String c2 ""))), r.
    split; [done|]. split; [done|]. split; [done|].
    specialize (Hd (String c0 (String c1 (String c2 ""))) Hi).
    split; [|split; [done|split]].
    + repeat (apply Forall_cons; split; [by apply high_not_dot|]). by apply Forall_nil.
    + intros r'. rewrite span_digits_eq, (Hd r').
      change (String c0 (String c1 (String c2 "")) +:+ r')
        with (String c0 (String c1 (String c2 r'))).
      cbv beta iota. by destruct (span_digits r').
    + intros acc r'. rewrite int_digits_eq, (Hd r'). done.
  - exists (String c0 (String c1 (String c2 (String c3 "")))), r.
    split; [done|]. split; [done|]. split; [done|].
    specialize (Hd (String c0 (String c1 (String c2 (String c3 "")))) Hi).
    split; [|split; [done|split]].
    + repeat (apply Forall_cons; split; [by apply high_not_dot|]). by apply Forall_nil.
    + intros r'. rewrite span_digits_eq, (Hd r').
      change (String c0 (String c1 (String c2 (String c3 ""))) +:+ r')
        with (String c0 (String c1 (String c2 (String c3 r')))).
      cbv beta iota. by destruct (span_digits r').
    + intros acc r'. rewrite int_digits_eq, (Hd r'). done.
Qed.

Lemma string_length_app (a b : string) :
  String.length (a +:+ b) = (String.length a + String.length b)%nat.
Proof.
  induction a as [|x a IH]; [done|].
  change (S (String.length (a +:+ b)) = S (String.length a + String.length b)).
  by rewrite IH.
Qed.

Lemma string_length_nil (a : string) : String.length a = 0%nat → a = "".
Proof. by destruct a. Qed.

(** One digit, alone and before any string *)
Lemma decimal_char_shape u :
  decimal_char u →
  u ≠ "" ∧ no_dot u ∧
  ∃ v,
    (∀ r', digit_head (u +:+ r') = Some (v, String.length u)) ∧
    (∀ r', span_digits (u +:+ r') = (u +:+ (span_digits r').1, (span_digits r').2)) ∧
    (∀ acc r', int_digits acc (u +:+ r') = int_digits (acc * 10 + v)%N r').
Proof.
  intros [v Hv].
  destruct (digit_head_shape _ _ _ Hv) as (u' & r & Hu & Hlen & Hne & Hdot & H1 & H2 & H3).
  assert (r = "") as ->.
  { apply string_length_nil. rewrite Hu, string_length_app in Hlen. lia. }
  rewrite string_app_nil_r in Hu. subst u'.
  split; [done|]. split; [done|]. by exists v.
Qed.

Lemma digit_head_char s v w :
  digit_head s = Some (v, w) →
  ∃ u r, s = u +:+ r ∧ decimal_char u.
Proof.
  intros H.
  destruct (digit_head_shape _ _ _ H) as (u & r & Hu & Hlen & _ & _ & H1 & _).
  exists u, r. split; [done|]. exists v.
  specialize (H1 ""). by rewrite string_app_nil_r, <- Hlen in H1.
Qed.

Lemma decimal_run_nonempty d : decimal_run d → d ≠ "".
Proof.
  intros [u Hu|u d' Hu _].
  - by apply decimal_char_shape in Hu as [? _].
  - apply decimal_char_shape in Hu as [Hne _]. by destruct u.
Qed.

Lemma no_dot_app a b : no_dot a → no_dot b → no_dot (a +:+ b).
Proof.
  unfold no_dot. intros Ha Hb. induction a as [|x a IH]; [done|].
  apply Forall_cons in Ha as [Hx Ha].
  change (String x a +:+ b) with (String x (a +:+ b)).
  apply Forall_cons. split; [done|]. by apply IH.
Qed.

Lemma decimal_run_no_dot d : decimal_run d → no_dot d.
Proof.
  induction 1 as [u Hu|u d Hu _ IH].
  - by apply decimal_char_shape in Hu as (_ & ? & _).
  - apply decimal_char_shape in Hu as (_ & ? & _). by apply no_dot_app.
Qed.

(** A run of digits followed by something that does not start with a
    digit is what [span_digits] takes. *)
Lemma span_digits_app d r :
  decimal_run d → digit_head r = None → span_digits (d +:+ r) = (d, r).
Proof.
  intros Hd Hr. induction Hd as [u Hu|u d Hu _ IH].
  - apply decimal_char_shape in Hu as (_ & _ & v & _ & H & _).
    by rewrite H, span_digits_none, string_app_nil_r.
  - apply decimal_char_shape in Hu as (_ & _ & v & _ & H & _).
    by rewrite string_app_assoc, H, IH.
Qed.

Lemma span_digits_spec s d r :
  span_digits s = (d, r) →
  s = d +:+ r ∧ (d = "" ∨ decimal_run d) ∧ digit_head r = None.
Proof.
  remember (String.length s) as n eqn:Hn. revert s d r Hn.
  induction n as [n IH] using lt_wf_ind. intros s d r Hn Hs.
  destruct (digit_head s) as [[v w]|] eqn:Hh.
  - destruct (digit_head_shape _ _ _ Hh) as (u & r0 & Hu & Hlen & Hne & _ & H1 & H2 & _).
    assert (decimal_char u) as Hchar.
    { exists v. specialize (H1 ""). by rewrite string_app_nil_r, <- Hlen in H1. }
    subst s. rewrite H2 in Hs. injection Hs as <- <-.
    destruct (span_digits r0) as [d' r'] eqn:Hr0.
    assert (String.length r0 < n)%nat as Hlt.
    { rewrite Hn, string_length_app. destruct u; [done|]. simpl. lia. }
    destruct (IH _ Hlt r0 d' r' eq_refl Hr0) as (-> & Hd' & Hnone).
    cbn [fst snd]. split; [by rewrite string_app_assoc|]. split; [|done].
    right. destruct Hd' as [->|Hd'].
    + rewrite string_app_nil_r. by apply decimal_run_one.
    + by apply decimal_run_more.
  - rewrite span_digits_none in Hs by done. injection Hs as <- <-.
    split; [done|]. split; [by left|done].
Qed.

Lemma digits1_spec s d r :
  digits1 s = Some (d, r) → s = d +:+ r ∧ decimal_run d ∧ digit_head r = None.
Proof.
  unfold digits1. destruct (span_digits s) as [d' r'] eqn:Hs.
  destruct d' as [|c d']; [done|]. intros [= <- <-].
  apply span_digits_spec in Hs as (? & [?|?] & ?); done.
Qed.

Lemma digits1_app d r :
  decimal_run d → digit_head r = None → digits1 (d +:+ r) = Some (d, r).
Proof.
  intros Hd Hr. unfold digits1. rewrite span_digits_app by done.
  apply decimal_run_nonempty in Hd. by destruct d.
Qed.

Lemma digit_head_dot r : digit_head ("." +:+ r) = None.
Proof. reflexivity. Qed.

Lemma digit_head_newline : digit_head newline = None.
Proof. reflexivity. Qed.

(** An ASCII digit is a decimal digit, of the value its place after [0]
    gives. *)
Lemma digit_head_ascii c r :
  ascii_digit c = true →
  digit_head (String c r) = Some ((N_of_ascii c - 48)%N, 1%nat).
Proof.
  unfold ascii_digit. intros [H1 H2]%andb_prop.
  assert ((N_of_ascii c <? 0x80)%N = true) as H3.
  { apply N.ltb_lt. apply N.leb_le in H2. lia. }
  assert ((N_of_ascii c <? 48 + 10)%N = true) as H4.
  { apply N.ltb_lt. apply N.leb_le in H2. lia. }
  unfold digit_head, utf8_head. cbv zeta. rewrite H3. cbn [mbind option_bind].
  unfold decimal_value, decimal_zeros. cbn [decimal_in]. by rewrite H1, H4.
Qed.

Lemma all_digits_run a : all_digits a = true → decimal_run a.
Proof.
  unfold all_digits. destruct a as [|c a]; [done|]. revert c.
  induction a as [|c' a IH]; intros c H; cbn [list_ascii_of_string forallb] in H;
    apply andb_prop in H as [Hc H].
  - apply decimal_run_one. exists (N_of_ascii c - 48)%N. by apply digit_head_ascii.
  - change (String c (String c' a)) with (String c "" +:+ String c' a).
    apply decimal_run_more; [|by apply IH].
    exists (N_of_ascii c - 48)%N. by apply digit_head_ascii.
Qed.

Lemma lit_spec c s r : lit c s = Some r → s = String c r.
Proof.
  destruct s as [|c' s]; [done|]. simpl.
  destruct (Ascii.eqb_spec c' c) as [->|]; [|done]. by intros [= ->].
Qed.

Lemma at_dollar_spec s : at_dollar s = true → s = "" ∨ s = newline.
Proof.
  destruct s as [|c [|c' s]]; simpl; [by left| |done].
  intros H%N.eqb_eq. right. unfold newline. f_equal.
  by rewrite <- (ascii_N_embedding c), H.
Qed.

(** What [VERSION_RE] matches: a [v], three runs of decimal digits
    separated by dots, and the end of the name or one newline that ends
    it. *)
Lemma VERSION_RE_match_inv name g :
  VERSION_RE_match name = Some g →
  version_text g ∧ (name = "v" +:+ g ∨ name = "v" +:+ g +:+ newline).
Proof.
  unfold VERSION_RE_match. intros H.
  destruct (lit "v" name) as [r0|] eqn:H0; [|done]. simpl in H.
  destruct (digits1 r0) as [[a r1]|] eqn:Ha; [|done]. simpl in H.
  destruct (lit "." r1) as [r2|] eqn:H1; [|done]. simpl in H.
  destruct (digits1 r2) as [[b r3]|] eqn:Hb; [|done]. simpl in H.
  destruct (lit "." r3) as [r4|] eqn:H2; [|done]. simpl in H.
  destruct (digits1 r4) as [[c r5]|] eqn:Hc; [|done]. simpl in H.
  destruct (at_dollar r5) eqn:H5; [|done]. injection H as <-.
  apply lit_spec in H0 as ->, H1 as ->, H2 as ->.
  apply digits1_spec in Ha as (-> & Hda & _), Hb as (-> & Hdb & _), Hc as (-> & Hdc & _).
  split; [by exists a, b, c|].
  change (String "v" (a +:+ String "." (b +:+ String "." (c +:+ r5))))
    with ("v" +:+ a +:+ "." +:+ b +:+ "." +:+ c +:+ r5).
  destruct (at_dollar_spec _ H5) as [->| ->].
  - left. by rewrite string_app_nil_r.
  - right. by rewrite !string_app_assoc.
Qed.

Lemma VERSION_RE_match_tail a b c r :
  decimal_run a → decimal_run b → decimal_run c → digit_head r = None →
  VERSION_RE_match ("v" +:+ (a +:+ "." +:+ b +:+ "." +:+ c) +:+ r) =
    if at_dollar r then Some (a +:+ "." +:+ b +:+ "." +:+ c) else None.
Proof.
  intros Ha Hb Hc Hr. rewrite !string_app_assoc. unfold VERSION_RE_match.
  change (lit "v" ("v" +:+ a +:+ "." +:+ b +:+ "." +:+ c +:+ r))
    with (Some (a +:+ "." +:+ b +:+ "." +:+ c +:+ r)). cbn [mbind option_bind].
  rewrite (digits1_app a) by (done || apply digit_head_dot). cbn [mbind option_bind].
  change (lit "." ("." +:+ b +:+ "." +:+ c +:+ r)) with (Some (b +:+ "." +:+ c +:+ r)).
  cbn [mbind option_bind].
  rewrite (digits1_app b) by (done || apply digit_head_dot). cbn [mbind option_bind].
  change (lit "." ("." +:+ c +:+ r)) with (Some (c +:+ r)). cbn [mbind option_bind].
  by rewrite (digits1_app c r Hc Hr).
Qed.

Lemma VERSION_RE_match_spec name :
  spec_version_name name →
  ∃ g, name = "v" +:+ g ∧ VERSION_RE_match name = Some g.
Proof.
  intros (a & b & c & Ha%all_digits_run & Hb%all_digits_run & Hc%all_digits_run & ->).
  exists (a +:+ "." +:+ b +:+ "." +:+ c). split; [done|].
  pose proof (VERSION_RE_match_tail a b c "" Ha Hb Hc eq_refl) as H.
  by rewrite string_app_nil_r in H.
Qed.

(** A name the specification describes is matched with itself as the
    version; so a name that is matched with another version is none. *)
Lemma not_spec_version_name name g :
  VERSION_RE_match name = Some g → name ≠ "v" +:+ g → ¬ spec_version_name name.
Proof.
  intros Hm Hne (g' & -> & Hm')%VERSION_RE_match_spec. congruence.
Qed.

(** ** The order on version tuples *)

Lemma tuple_gtb_irrefl (a : list N) : tuple_gtb a a = false.
Proof.
  induction a as [|x a IH]; simpl; [done|].
  by rewrite N.eqb_refl.
Qed.

Lemma tuple_gtb_asym (a b : list N) :
  tuple_gtb a b = true → tuple_gtb b a = false.
Proof.
  revert b. induction a as [|x a IH]; intros [|y b]; simpl; try done.
  intros H. order_cases; try lia; auto.
Qed.

Lemma tuple_leb_trans (a b c : list N) :
  tuple_gtb a b = false → tuple_gtb b c = false → tuple_gtb a c = false.
Proof.
  revert b c. induction a as [|x a IH]; intros [|y b] [|z c]; simpl; try done.
  intros H1 H2. order_cases; try lia; eauto.
Qed.

(** ** [latest_version_dir] returns a greatest matching directory *)

Lemma latest_step_candidate t d best name :
  latest_step t d best name =
    match candidate t d name with
    | None => best
    | Some (vt, g) =>
        match best with
        | None => Some (vt, g, child d name)
        | Some (bt, _, _) =>
            if tuple_gtb vt bt then Some (vt, g, child d name) else best
        end
    end.
Proof.
  unfold latest_step, candidate.
  destruct (is_dir t (child d name)); simpl; [|done].
  by destruct (VERSION_RE_match name).
Qed.

Lemma latest_fold_none t d names best :
  fold_left (latest_step t d) names best = None ↔
  best = None ∧ Forall (λ n, candidate t d n = None) names.
Proof.
  revert best. induction names as [|n names IH]; intros best; simpl.
  - split; [intros ->; by split|by intros [-> _]].
  - rewrite IH, Forall_cons, latest_step_candidate.
    destruct (candidate t d n) as [[vt g]|].
    + split; [|intros (_ & [=] & _)].
      intros [Hb _]. destruct best as [[[bt ?] ?]|]; [|done].
      by destruct (tuple_gtb vt bt).
    + tauto.
Qed.

Lemma latest_fold_some t d names best b :
  fold_left (latest_step t d) names best = Some b →
  (best = Some b ∨ from_entry t d names b) ∧
  unbeaten t d names b ∧
  (∀ b0, best = Some b0 → tuple_gtb b0.1.1 b.1.1 = false).
Proof.
  revert best. induction names as [|n names IH]; intros best; simpl.
  - intros ->. split; [by left|]. split.
    + intros ??? Hin. by apply elem_of_nil in Hin.
    + intros ? [= ->]. apply tuple_gtb_irrefl.
  - intros Hf. apply IH in Hf as (Hfrom & Hall & Hprev).
    assert (from_entry t d names b → from_entry t d (n :: names) b) as Hmono.
    { intros (n' & ? & ? & ?). exists n'. split; [by right|done]. }
    rewrite latest_step_candidate in Hfrom, Hprev.
    destruct (candidate t d n) as [[vt g1]|] eqn:Hc.
    + assert (tuple_gtb vt b.1.1 = false ∧
              (best = Some b ∨ from_entry t d (n :: names) b) ∧
              (∀ b0, best = Some b0 → tuple_gtb b0.1.1 b.1.1 = false))
        as (Hn & Hfrom' & Hprev').
      { destruct best as [[[b0 g0] e0]|].
        - destruct (tuple_gtb vt b0) eqn:Hgt.
          + split; [by apply (Hprev (vt, g1, child d n))|]. split.
            * right. destruct Hfrom as [[= <-]|?]; [|by auto].
              exists n. split; [by left|done].
            * intros ? [= <-]. simpl.
              eapply tuple_leb_trans; [by apply tuple_gtb_asym|].
              by apply (Hprev (vt, g1, child d n)).
          + split; [|split].
            * eapply tuple_leb_trans; [exact Hgt|]. by apply (Hprev (b0, g0, e0)).
            * destruct Hfrom as [?|?]; [by left|by auto].
            * done.
        - split; [by apply (Hprev (vt, g1, child d n))|]. split; [|done].
          right. destruct Hfrom as [[= <-]|?]; [|by auto].
          exists n. split; [by left|done]. }
      split; [done|]. split; [|done].
      intros n' vt' g' [->|Hin]%elem_of_cons Hc'.
      * rewrite Hc in Hc'. by injection Hc' as <- <-.
      * by eapply Hall.
    + split; [|split]; [|  |done].
      * destruct Hfrom as [?|?]; [by left|by auto].
      * intros n' vt' g' [->|Hin]%elem_of_cons Hc'; [congruence|by eapply Hall].
Qed.

(** [latest_version_dir] on a directory with listing [names]: it does not
    raise; it returns nothing exactly when no entry is a directory with a
    matching name; what it returns is such an entry, with the version
    string of its name, and no such entry has a greater tuple. *)
Lemma latest_version_dir_spec t d names :
  iterdir t d = Ok names →
  match latest_version_dir t d with
  | Ok None => ∀ n, n ∈ names → candidate t d n = None
  | Ok (Some (version, entry)) =>
      (∃ n, n ∈ names ∧ entry = child d n ∧ is_dir t entry = true ∧
            VERSION_RE_match n = Some version) ∧
      (∀ n g, n ∈ names → is_dir t (child d n) = true →
              VERSION_RE_match n = Some g →
              tuple_gtb (ver_tuple g) (ver_tuple version) = false)
  | Raise _ => False
  end.
Proof.
  intros Hit. unfold latest_version_dir. rewrite Hit. simpl.
  destruct (fold_left (latest_step t d) names None) as [[[bt g] e]|] eqn:Hf.
  - apply latest_fold_some in Hf as ([[=]|(n & Hin & Hc & He)] & Hall & _).
    simpl in *. unfold candidate in Hc.
    destruct (is_dir t (child d n)) eqn:Hd; [|done].
    destruct (VERSION_RE_match n) as [g'|] eqn:Hm; [|done].
    simpl in Hc. injection Hc as <- <-. split.
    + exists n. by rewrite He.
    + intros n' g'' Hin' Hd' Hm'. apply (Hall n' _ g'' Hin').
      unfold candidate. by rewrite Hd', Hm'.
  - apply latest_fold_none in Hf as [_ Hf].
    intros n Hin. by eapply Forall_forall in Hf.
Qed.

(** ** Hashing a file in chunks *)

Lemma chunk_size_pos : 0 < chunk_size.
Proof. unfold chunk_size. lia. Qed.

#[global] Opaque chunk_size.

Lemma read_loop_all fuel rest h :
  length rest < fuel → read_loop fuel rest h = update h rest.
Proof.
  revert rest h. induction fuel as [|fuel IH]; intros rest h Hlen; [lia|].
  simpl. pose proof chunk_size_pos as Hpos.
  destruct (take chunk_size rest) as [|c cs] eqn:Htake.
  - destruct rest as [|x rest].
    + unfold update. by rewrite app_nil_r; destruct h.
    + destruct chunk_size; [lia|done].
  - rewrite IH.
    + unfold update. simpl. f_equal.
      rewrite <- (take_drop chunk_size rest) at 2.
      by rewrite Htake, <- app_assoc.
    + rewrite length_drop. destruct rest as [|x rest]; [done|].
      rewrite length_cons in *. lia.
Qed.

(** The digest of a file is the SHA-256 of its whole content. *)
Lemma sha256_of_content t p data :
  t !! p = Some (File data) →
  sha256_of t p = Ok (SHA256.hex (SHA256.digest data)).
Proof.
  intros Hp. unfold sha256_of, read_bytes. rewrite Hp.
  unfold mbind, result_bind. rewrite read_loop_all by lia. done.
Qed.

Lemma sha256_of_inv t p s :
  sha256_of t p = Ok s →
  ∃ data, t !! p = Some (File data) ∧ s = SHA256.hex (SHA256.digest data).
Proof.
  intros H. destruct (t !! p) as [[data|names]|] eqn:Hp.
  - rewrite (sha256_of_content t p data Hp) in H. injection H as <-. by exists data.
  - unfold sha256_of, read_bytes in H. by rewrite Hp in H.
  - unfold sha256_of, read_bytes in H. by rewrite Hp in H.
Qed.

Lemma hex_digit_lower n : is_lower_hex (SHA256.hex_digit n) = true.
Proof.
  unfold SHA256.hex_digit.
  repeat match goal with
         | |- context [match ?x with _ => _ end] => destruct x
         end; reflexivity.
Qed.

Lemma hex_word_lower w : Forall (λ c, is_lower_hex c = true) (SHA256.hex_word w).
Proof.
  unfold SHA256.hex_word. apply Forall_forall. intros c Hc.
  apply list_elem_of_In, in_map_iff in Hc as (i & <- & _). apply hex_digit_lower.
Qed.

(** A digest is written as sixty-four lower-case hexadecimal digits. *)
Lemma hex_shape s :
  String.length (SHA256.hex s) = 64 ∧
  Forall (λ c, is_lower_hex c = true) (list_ascii_of_string (SHA256.hex s)).
Proof.
  split; [reflexivity|].
  unfold SHA256.hex. rewrite list_ascii_of_string_of_list_ascii.
  repeat (apply Forall_app; split); apply hex_word_lower.
Qed.

(** ** Dictionaries *)

Lemma dict_get_set_eq (d : dict) k v : dict_get (dict_set d k v) k = Some v.
Proof.
  induction d as [|[k' v'] d IH]; simpl.
  - by rewrite decide_True.
  - destruct (decide (k' = k)) as [->|Hne]; simpl.
    + by rewrite decide_True.
    + by rewrite decide_False.
Qed.

Lemma dict_get_set_ne (d : dict) k k' v :
  k ≠ k' → dict_get (dict_set d k v) k' = dict_get d k'.
Proof.
  intros Hne. induction d as [|[k0 v0] d IH]; simpl.
  - by rewrite decide_False.
  - destruct (decide (k0 = k)) as [->|Hne0]; simpl.
    + by rewrite !decide_False.
    + by rewrite IH.
Qed.

(** Storing the value a key has changes nothing, not even the order. *)
Lemma dict_set_same (d : dict) k v : dict_get d k = Some v → dict_set d k v = d.
Proof.
  induction d as [|[k0 v0] d IH]; simpl; [done|].
  destruct (decide (k0 = k)) as [->|Hne]; [by intros [= ->]|].
  intros H. by rewrite IH.
Qed.

Lemma setdefault_get_eq (d : dict) k v :
  dict_get (setdefault d k v) k =
    match dict_get d k with
    | Some v0 => Some v0
    | None => Some v
    end.
Proof.
  unfold setdefault. destruct (dict_get d k) eqn:H; [done|].
  apply dict_get_set_eq.
Qed.

Lemma setdefault_get_ne (d : dict) k k' v :
  k ≠ k' → dict_get (setdefault d k v) k' = dict_get d k'.
Proof.
  intros Hne. unfold setdefault. destruct (dict_get d k); [done|].
  by apply dict_get_set_ne.
Qed.

Lemma setdefault_present (d : dict) k v :
  is_Some (dict_get d k) → setdefault d k v = d.
Proof. intros [v0 H]. unfold setdefault. by rewrite H. Qed.


(** ** What the program reads alike in two trees that agree *)

Lemma tight_loose t t' p : tight t t' p → loose t t' p.
Proof. by left. Qed.

Lemma bind_Ok {A B : Type} (a : A) (f : A → result B) : Ok a ≫= f = f a.
Proof. done. Qed.

Lemma bind_Raise {A B : Type} (e : exn) (f : A → result B) : Raise e ≫= f = Raise e.
Proof. done. Qed.

Lemma result_rel_eq {A : Type} (x y : result A) : result_rel eq x y → x = y.
Proof. destruct x, y; simpl; intros; by subst. Qed.

Lemma result_rel_mono {A : Type} (R R' : A → A → Prop) (x y : result A) :
  (∀ a b, R a b → R' a b) → result_rel R x y → result_rel R' x y.
Proof. intros H. destruct x, y; simpl; auto. Qed.

Lemma result_rel_bind {A B : Type} (R : A → A → Prop) (R' : B → B → Prop)
    (x y : result A) (f g : A → result B) :
  result_rel R x y →
  (∀ a b, R a b → result_rel R' (f a) (g b)) →
  result_rel R' (x ≫= f) (y ≫= g).
Proof.
  intros Hxy Hfg. unfold mbind, result_bind.
  destruct x, y; simpl in *; try done. by apply Hfg.
Qed.

Section agree.
Context (t t' : fs).

Lemma path_exists_loose p : loose t t' p → path_exists t p = path_exists t' p.
Proof.
  unfold path_exists. intros [->|(b & b' & -> & ->)]; done.
Qed.

Lemma is_dir_loose p : loose t t' p → is_dir t p = is_dir t' p.
Proof.
  unfold is_dir. intros [->|(b & b' & -> & ->)]; done.
Qed.

Lemma iterdir_loose p : loose t t' p → iterdir t p = iterdir t' p.
Proof.
  unfold iterdir. intros [->|(b & b' & -> & ->)]; done.
Qed.

Lemma sha256_of_loose p :
  loose t t' p →
  result_rel (λ a b, tight t t' p → a = b) (sha256_of t p) (sha256_of t' p).
Proof.
  intros [H|(b & b' & H & H')].
  - unfold sha256_of, read_bytes. rewrite <- H.
    destruct (t !! p) as [[?|?]|]; simpl; done.
  - rewrite (sha256_of_content _ _ _ H), (sha256_of_content _ _ _ H'). simpl.
    unfold tight. rewrite H, H'. by intros [= ->].
Qed.

Lemma st_size_loose p :
  loose t t' p →
  result_rel (λ a b, tight t t' p → a = b) (st_size t p) (st_size t' p).
Proof.
  unfold st_size, tight. intros [<-|(b & b' & -> & ->)].
  - destruct (t !! p) as [[?|?]|]; simpl; done.
  - simpl. by intros [= ->].
Qed.

Lemma latest_fold_loose d names best :
  (∀ n, loose t t' (child d n)) →
  fold_left (latest_step t d) names best = fold_left (latest_step t' d) names best.
Proof.
  intros H. revert best. induction names as [|n names IH]; intros best; simpl; [done|].
  rewrite IH. f_equal. unfold latest_step. by rewrite (is_dir_loose _ (H n)).
Qed.

Lemma latest_version_dir_loose d :
  loose t t' d → (∀ n, loose t t' (child d n)) →
  latest_version_dir t d = latest_version_dir t' d.
Proof.
  intros Hd Hn. unfold latest_version_dir.
  rewrite (iterdir_loose _ Hd). destruct (iterdir t' d); simpl; [|done].
  by rewrite latest_fold_loose.
Qed.
End agree.


Lemma latest_version_dir_inv t d version entry :
  latest_version_dir t d = Ok (Some (version, entry)) →
  ∃ names n, iterdir t d = Ok names ∧ n ∈ names ∧ entry = child d n ∧
             is_dir t entry = true ∧ VERSION_RE_match n = Some version.
Proof.
  intros H. destruct (iterdir t d) as [names|e] eqn:Hit.
  - pose proof (latest_version_dir_spec t d names Hit) as Hs.
    rewrite H in Hs. destruct Hs as [(n & ? & ? & ? & ?) _]. by exists names, n.
  - unfold latest_version_dir in H. by rewrite Hit in H.
Qed.

Lemma child_child d n f : child (child d n) f = d ++ [n; f].
Proof. unfold child. by rewrite <- app_assoc. Qed.

Section agree_process.
Context (t t' : fs).

Lemma latest_version_dir_under dir :
  (∀ rest, loose t t' (dir ++ rest)) →
  latest_version_dir t dir = latest_version_dir t' dir.
Proof.
  intros H. apply latest_version_dir_loose.
  - specialize (H []). by rewrite app_nil_r in H.
  - intros n. apply H.
Qed.

Lemma process_firmware_loose m m' dev dir :
  (∀ rest, loose t t' (dir ++ rest)) →
  result_rel
    (λ x y, x.2 = y.2 ∧
            (m = m' → (∀ n, tight t t' (dir ++ [n; "firmware.bin"])) → x = y))
    (process_firmware t m dev dir) (process_firmware t' m' dev dir).
Proof.
  intros H. unfold process_firmware.
  rewrite (latest_version_dir_under _ H).
  destruct (latest_version_dir t' dir) as [[[version vdir]|]|e] eqn:Hr;
    rewrite ?bind_Ok, ?bind_Raise; [| |done].
  - apply latest_version_dir_inv in Hr as (names & n & _ & _ & -> & _ & _).
    rewrite child_child.
    rewrite (path_exists_loose t t' _ (H [n; "firmware.bin"])).
    destruct (path_exists t' (dir ++ [n; "firmware.bin"])); cbn [negb].
    + eapply result_rel_bind; [apply sha256_of_loose, H|]. intros d d' Hd.
      eapply result_rel_bind; [apply st_size_loose, H|]. intros s s' Hs.
      simpl. split; [done|]. intros -> Ht. by rewrite (Hd (Ht n)), (Hs (Ht n)).
    + split; [done|]. by intros ->.
  - simpl. split; [done|]. by intros ->.
Qed.

Lemma process_spiffs_loose m m' dev dir :
  (∀ rest, loose t t' (dir ++ rest)) →
  result_rel
    (λ x y, m = m' → (∀ n, tight t t' (dir ++ [n; "spiffs.bin"])) → x = y)
    (process_spiffs t m dev dir) (process_spiffs t' m' dev dir).
Proof.
  intros H. unfold process_spiffs.
  rewrite (latest_version_dir_under _ H).
  destruct (latest_version_dir t' dir) as [[[version vdir]|]|e] eqn:Hr;
    rewrite ?bind_Ok, ?bind_Raise; [| |done].
  - apply latest_version_dir_inv in Hr as (names & n & _ & _ & -> & _ & _).
    rewrite child_child.
    rewrite (path_exists_loose t t' _ (H [n; "spiffs.bin"])).
    destruct (path_exists t' (dir ++ [n; "spiffs.bin"])); cbn [negb].
    + eapply result_rel_bind; [apply sha256_of_loose, H|]. intros d d' Hd.
      eapply result_rel_bind; [apply st_size_loose, H|]. intros s s' Hs.
      simpl. intros -> Ht. by rewrite (Hd (Ht n)), (Hs (Ht n)).
    + by intros ->.
  - simpl. by intros ->.
Qed.

Lemma process_config_loose m m' dev dir :
  (∀ rest, loose t t' (dir ++ rest)) →
  result_rel
    (λ x y, m = m' → tight t t' (dir ++ ["config.yaml"]) → x = y)
    (process_config t m dev dir) (process_config t' m' dev dir).
Proof.
  intros H. unfold process_config, child.
  rewrite (path_exists_loose t t' _ (H ["config.yaml"])).
  destruct (path_exists t' (dir ++ ["config.yaml"])); cbn [negb].
  - eapply result_rel_bind; [apply sha256_of_loose, H|]. intros d d' Hd.
    simpl. intros -> Ht. by rewrite (Hd Ht).
  - by intros ->.
Qed.
End agree_process.

(** ** The three artifact functions as lists of updates

    Each function stores values that depend on the tree alone; run on the
    empty dictionary it returns the list of what it stores. *)

Lemma apply_updates_app us us' m :
  apply_updates (us ++ us') m = apply_updates us' (apply_updates us m).
Proof. apply fold_left_app. Qed.

Lemma apply_updates_get_other us m k :
  k ∉ us.*1 → dict_get (apply_updates us m) k = dict_get m k.
Proof.
  revert m. induction us as [|[k' v'] us IH]; intros m Hk; simpl; [done|].
  rewrite fmap_cons, not_elem_of_cons in Hk. destruct Hk as [Hne Hk].
  rewrite IH by done. apply dict_get_set_ne. by intros ->.
Qed.

Lemma apply_updates_get us m k v :
  NoDup us.*1 → (k, v) ∈ us → dict_get (apply_updates us m) k = Some v.
Proof.
  revert m. induction us as [|[k' v'] us IH]; intros m Hnd Hin.
  - by apply elem_of_nil in Hin.
  - rewrite fmap_cons in Hnd. apply NoDup_cons in Hnd as [Hk' Hnd].
    apply elem_of_cons in Hin as [[= -> ->]|Hin]; simpl.
    + rewrite apply_updates_get_other by done. apply dict_get_set_eq.
    + by apply IH.
Qed.

(** Updates that already hold change nothing. *)
Lemma apply_updates_hold us m :
  (∀ k v, (k, v) ∈ us → dict_get m k = Some v) → apply_updates us m = m.
Proof.
  revert m. induction us as [|[k v] us IH]; intros m H; simpl; [done|].
  rewrite dict_set_same by (apply H; by left).
  apply IH. intros k' v' Hin. apply H. by right.
Qed.

Lemma apply_updates_idemp us m :
  NoDup us.*1 → apply_updates us (apply_updates us m) = apply_updates us m.
Proof.
  intros Hnd. apply apply_updates_hold. intros k v Hin.
  by apply apply_updates_get.
Qed.

Lemma dict_set_keeps (d : dict) k v k' :
  is_Some (dict_get d k') → is_Some (dict_get (dict_set d k v) k').
Proof.
  intros H. destruct (decide (k = k')) as [->|Hne].
  - rewrite dict_get_set_eq. eauto.
  - by rewrite dict_get_set_ne.
Qed.

Lemma apply_updates_keeps us m k :
  is_Some (dict_get m k) → is_Some (dict_get (apply_updates us m) k).
Proof.
  revert m. induction us as [|[k' v'] us IH]; intros m H; simpl; [done|].
  by apply IH, dict_set_keeps.
Qed.

Lemma process_firmware_updates t m dev dir :
  process_firmware t m dev dir =
    '(us, found) ← process_firmware t [] dev dir; Ok (apply_updates us m, found).
Proof.
  unfold process_firmware.
  destruct (latest_version_dir t dir) as [[[version vdir]|]|e];
    rewrite ?bind_Ok, ?bind_Raise; [| done | done].
  destruct (path_exists t (child vdir "firmware.bin")); cbn [negb]; [|done].
  destruct (sha256_of t (child vdir "firmware.bin")) as [digest|e];
    rewrite ?bind_Ok, ?bind_Raise; [|done].
  destruct (st_size t (child vdir "firmware.bin")) as [size|e];
    rewrite ?bind_Ok, ?bind_Raise; [|done].
  done.
Qed.

Lemma process_firmware_keys t dev dir us found :
  process_firmware t [] dev dir = Ok (us, found) →
  us.*1 = if found then ["version"; "firmware"] else [].
Proof.
  unfold process_firmware.
  destruct (latest_version_dir t dir) as [[[version vdir]|]|e];
    rewrite ?bind_Ok, ?bind_Raise; [| by intros [= <- <-] | done].
  destruct (path_exists t (child vdir "firmware.bin")); cbn [negb];
    [|by intros [= <- <-]].
  destruct (sha256_of t (child vdir "firmware.bin")) as [digest|e];
    rewrite ?bind_Ok, ?bind_Raise; [|done].
  destruct (st_size t (child vdir "firmware.bin")) as [size|e];
    rewrite ?bind_Ok, ?bind_Raise; [|done].
  by intros [= <- <-].
Qed.

Lemma process_spiffs_updates t m dev dir :
  process_spiffs t m dev dir =
    us ← process_spiffs t [] dev dir; Ok (apply_updates us m).
Proof.
  unfold process_spiffs.
  destruct (latest_version_dir t dir) as [[[version vdir]|]|e];
    rewrite ?bind_Ok, ?bind_Raise; [| done | done].
  destruct (path_exists t (child vdir "spiffs.bin")); cbn [negb]; [|done].
  destruct (sha256_of t (child vdir "spiffs.bin")) as [digest|e];
    rewrite ?bind_Ok, ?bind_Raise; [|done].
  destruct (st_size t (child vdir "spiffs.bin")) as [size|e];
    rewrite ?bind_Ok, ?bind_Raise; [|done].
  done.
Qed.

Lemma process_spiffs_keys t dev dir us :
  process_spiffs t [] dev dir = Ok us → us.*1 = [] ∨ us.*1 = ["spiffs"].
Proof.
  unfold process_spiffs.
  destruct (latest_version_dir t dir) as [[[version vdir]|]|e];
    rewrite ?bind_Ok, ?bind_Raise; [| intros [= <-]; by left | done].
  destruct (path_exists t (child vdir "spiffs.bin")); cbn [negb];
    [|intros [= <-]; by left].
  destruct (sha256_of t (child vdir "spiffs.bin")) as [digest|e];
    rewrite ?bind_Ok, ?bind_Raise; [|done].
  destruct (st_size t (child vdir "spiffs.bin")) as [size|e];
    rewrite ?bind_Ok, ?bind_Raise; [|done].
  intros [= <-]. by right.
Qed.

Lemma process_config_updates t m dev dir :
  process_config t m dev dir =
    us ← process_config t [] dev dir; Ok (apply_updates us m).
Proof.
  unfold process_config.
  destruct (path_exists t (child dir "config.yaml")); cbn [negb]; [|done].
  destruct (sha256_of t (child dir "config.yaml")) as [digest|e];
    rewrite ?bind_Ok, ?bind_Raise; done.
Qed.

Lemma process_config_keys t dev dir us :
  process_config t [] dev dir = Ok us → us.*1 = [] ∨ us.*1 = ["config"].
Proof.
  unfold process_config.
  destruct (path_exists t (child dir "config.yaml")); cbn [negb];
    [|intros [= <-]; by left].
  destruct (sha256_of t (child dir "config.yaml")) as [digest|e];
    rewrite ?bind_Ok, ?bind_Raise; [|done].
  intros [= <-]. by right.
Qed.

(** ** Manifests that differ in a digest and a size *)

Lemma digest_only_refl key m : digest_only key m m.
Proof. apply Forall2_same_length_lookup_2; [done|]. intros i x y H1 H2.
  assert (x = y) as -> by congruence. split; [done|by left]. Qed.

Lemma dict_set_alike key m1 m2 k v1 v2 :
  digest_only key m1 m2 →
  v1 = v2 ∨ (k = key ∧ same_but_digest v1 v2) →
  digest_only key (dict_set m1 k v1) (dict_set m2 k v2).
Proof.
  intros Hm Hv. induction Hm as [|[k1 x1] [k2 x2] m1 m2 [Hk Hx] Hm IH]; cbn [dict_set].
  - apply Forall2_cons. split; [|apply Forall2_nil_2]. done.
  - cbn in Hk, Hx. subst k2. destruct (decide (k1 = k)) as [->|Hne].
    + apply Forall2_cons. split; [|done]. done.
    + apply Forall2_cons. split; [|done]. done.
Qed.

Lemma apply_updates_alike key us1 us2 :
  digest_only key us1 us2 →
  ∀ m1 m2, digest_only key m1 m2 →
           digest_only key (apply_updates us1 m1) (apply_updates us2 m2).
Proof.
  induction 1 as [|[k1 x1] [k2 x2] us1 us2 [Hk Hx] Hus IH]; intros m1 m2 Hm; [done|].
  cbn in Hk, Hx. subst k2. unfold apply_updates. cbn [fold_left fst snd].
  apply IH. by apply dict_set_alike.
Qed.

Lemma digest_only_keys key m1 m2 : digest_only key m1 m2 → m1.*1 = m2.*1.
Proof.
  induction 1 as [|[k1 x1] [k2 x2] m1 m2 [Hk Hx] Hm IH]; [done|].
  cbn in *. by rewrite Hk, IH.
Qed.

Lemma digest_only_get key m1 m2 k :
  digest_only key m1 m2 →
  match dict_get m1 k, dict_get m2 k with
  | Some v1, Some v2 => v1 = v2 ∨ (k = key ∧ same_but_digest v1 v2)
  | None, None => True
  | _, _ => False
  end.
Proof.
  induction 1 as [|[k1 x1] [k2 x2] m1 m2 [Hk Hx] Hm IH]; [done|].
  cbn in Hk, Hx. subst k2. cbn [dict_get].
  destruct (decide (k1 = k)) as [->|Hne]; done.
Qed.

Section alike.
Context (t t' : fs).

Lemma process_firmware_alike m dev dir :
  (∀ rest, loose t t' (dir ++ rest)) →
  result_rel (λ x y, x.2 = y.2 ∧ digest_only "firmware" x.1 y.1)
    (process_firmware t m dev dir) (process_firmware t' m dev dir).
Proof.
  intros H. unfold process_firmware.
  rewrite (latest_version_dir_under _ _ _ H).
  destruct (latest_version_dir t' dir) as [[[version vdir]|]|e] eqn:Hr;
    rewrite ?bind_Ok, ?bind_Raise; [| |done].
  - apply latest_version_dir_inv in Hr as (names & n & _ & _ & -> & _ & _).
    rewrite child_child.
    rewrite (path_exists_loose t t' _ (H [n; "firmware.bin"])).
    destruct (path_exists t' (dir ++ [n; "firmware.bin"])); cbn [negb].
    + eapply result_rel_bind; [apply sha256_of_loose, H|]. intros d d' _.
      eapply result_rel_bind; [apply st_size_loose, H|]. intros s s' _.
      simpl. split; [done|]. apply dict_set_alike; [apply digest_only_refl|].
      right. split; [done|]. by eexists _, _, _, _, _.
    + split; [done|apply digest_only_refl].
  - simpl. split; [done|apply digest_only_refl].
Qed.

Lemma process_spiffs_alike m dev dir :
  (∀ rest, loose t t' (dir ++ rest)) →
  result_rel (digest_only "spiffs")
    (process_spiffs t m dev dir) (process_spiffs t' m dev dir).
Proof.
  intros H. unfold process_spiffs.
  rewrite (latest_version_dir_under _ _ _ H).
  destruct (latest_version_dir t' dir) as [[[version vdir]|]|e] eqn:Hr;
    rewrite ?bind_Ok, ?bind_Raise; [| |done].
  - apply latest_version_dir_inv in Hr as (names & n & _ & _ & -> & _ & _).
    rewrite child_child.
    rewrite (path_exists_loose t t' _ (H [n; "spiffs.bin"])).
    destruct (path_exists t' (dir ++ [n; "spiffs.bin"])); cbn [negb].
    + eapply result_rel_bind; [apply sha256_of_loose, H|]. intros d d' _.
      eapply result_rel_bind; [apply st_size_loose, H|]. intros s s' _.
      simpl. apply dict_set_alike; [apply digest_only_refl|].
      right. split; [done|]. by eexists _, _, _, _, _.
    + apply digest_only_refl.
  - simpl. apply digest_only_refl.
Qed.

Context (device : string).
Hypothesis Hunder : ∀ r rest, loose t t' (r :: device :: rest).

(** What the firmware step stores, in two trees of the same shape *)
Lemma fw_part_alike key :
  (key ≠ "firmware" → ∀ n, tight t t' ["firmware"; device; n; "firmware.bin"]) →
  result_rel (λ x y, x.2 = y.2 ∧ digest_only key x.1 y.1)
    (fw_part t device []) (fw_part t' device []).
Proof.
  intros Hkey. unfold fw_part, firmware_root.
  change (child ["firmware"] device) with ["firmware"; device].
  rewrite (path_exists_loose _ _ _ (Hunder "firmware" [])).
  destruct (path_exists t' ["firmware"; device]);
    [|simpl; split; [done|apply digest_only_refl]].
  destruct (decide (key = "firmware")) as [->|Hne].
  - apply process_firmware_alike. intros rest. apply Hunder.
  - eapply result_rel_mono;
      [|apply process_firmware_loose; intros rest; apply Hunder].
    intros x y [Hf Heq]. split; [done|].
    rewrite (Heq eq_refl (Hkey Hne)). apply digest_only_refl.
Qed.

(** What the two later steps store *)
Lemma rest_part_alike key :
  (key ≠ "spiffs" → ∀ n, tight t t' ["spiffs"; device; n; "spiffs.bin"]) →
  tight t t' ["config"; device; "config.yaml"] →
  result_rel (digest_only key) (rest_part t device []) (rest_part t' device []).
Proof.
  intros Hkey Hcfg. unfold rest_part.
  eapply result_rel_bind with (R := digest_only key).
  - unfold spiffs_root.
    change (child ["spiffs"] device) with ["spiffs"; device].
    rewrite (path_exists_loose _ _ _ (Hunder "spiffs" [])).
    destruct (path_exists t' ["spiffs"; device]); [|apply digest_only_refl].
    destruct (decide (key = "spiffs")) as [->|Hne].
    + apply process_spiffs_alike. intros rest. apply Hunder.
    + eapply result_rel_mono;
        [|apply process_spiffs_loose; intros rest; apply Hunder].
      intros x y Heq. rewrite (Heq eq_refl (Hkey Hne)). apply digest_only_refl.
  - intros m m2 Hm. unfold config_root.
    change (child ["config"] device) with ["config"; device].
    rewrite (path_exists_loose _ _ _ (Hunder "config" [])).
    destruct (path_exists t' ["config"; device]); [|done].
    rewrite (process_config_updates t m), (process_config_updates t' m2).
    assert (process_config t [] device ["config"; device] =
            process_config t' [] device ["config"; device]) as ->.
    { apply result_rel_eq. eapply result_rel_mono;
        [|apply (process_config_loose t t' [] []); intros rest; apply Hunder].
      intros x y Heq. by apply Heq. }
    destruct (process_config t' [] device ["config"; device]) as [us|e];
      rewrite ?bind_Ok, ?bind_Raise; [|done].
    simpl. apply apply_updates_alike; [apply digest_only_refl|done].
Qed.

End alike.

(** ** Names and paths of manifests *)

Lemma string_app_cons c s x : String c s +:+ x = String c (s +:+ x).
Proof. done. Qed.

Lemma string_app_nil x : "" +:+ x = x.
Proof. done. Qed.

Lemma string_app_inj_r s s' x : s +:+ x = s' +:+ x → s = s'.
Proof.
  revert s'. induction s as [|c s IH]; intros [|c' s'] H.
  - done.
  - apply (f_equal String.length) in H.
    rewrite !string_length_app in H. simpl in H. lia.
  - apply (f_equal String.length) in H.
    rewrite !string_length_app in H. simpl in H. lia.
  - rewrite !string_app_cons in H. injection H as -> H. f_equal. by apply IH.
Qed.

(** A string is not above what extends it. *)
Lemma string_le_app s x : String.le s (s +:+ x).
Proof.
  unfold String.le, String.leb.
  assert ((s ?= s +:+ x)%string ≠ Gt) as H; [|by destruct (s ?= s +:+ x)%string].
  induction s as [|c s IH].
  - rewrite string_app_nil. by destruct x.
  - rewrite string_app_cons. simpl.
    unfold Ascii.compare. by rewrite N.compare_refl.
Qed.

Lemma manifest_name_inj d d' : manifest_name d = manifest_name d' → d = d'.
Proof. apply string_app_inj_r. Qed.

Lemma manifest_name_ne d : manifest_name d ≠ d.
Proof.
  intros H. apply (f_equal String.length) in H.
  unfold manifest_name in H. rewrite string_length_app in H. simpl in H. lia.
Qed.

Lemma manifest_path_inj d d' : manifest_path_of d = manifest_path_of d' → d = d'.
Proof. intros [= H]. by apply manifest_name_inj. Qed.

(** In a sorted list of distinct devices, no device is named as the
    manifest of a later one. *)
Lemma sorted_not_manifest_of_later d rest d' :
  Forall (String.le d) rest → d ∉ rest → d' ∈ rest → d ≠ manifest_name d'.
Proof.
  intros Hle Hnin Hin ->.
  assert (String.le (manifest_name d') d') as H1.
  { by eapply Forall_forall in Hle. }
  assert (String.le d' (manifest_name d')) as H2 by apply string_le_app.
  assert (manifest_name d' = d') as H by (by apply (anti_symm String.le)).
  by apply manifest_name_ne in H.
Qed.

(** ** Writing a manifest *)

Lemma write_manifest_unfold t d data :
  write_bytes t (manifest_path_of d) data =
    match t !! manifest_path_of d with
    | Some (File _) => Ok (<[manifest_path_of d := File data]> t)
    | Some (Dir _) => Raise IsADirectoryError
    | None =>
        match t !! firmware_root with
        | Some (Dir names) =>
            Ok (<[manifest_path_of d := File data]>
                  (<[firmware_root := Dir (names ++ [manifest_name d])]> t))
        | Some (File _) => Raise NotADirectoryError
        | None => Raise FileNotFoundError
        end
    end.
Proof. done. Qed.

Lemma manifest_path_ne_root d : manifest_path_of d ≠ firmware_root.
Proof. done. Qed.

(** What a successful write changes: the manifest, and the listing of
    [firmware/] when the manifest is new. *)
Lemma write_manifest_ok t d data t' :
  write_bytes t (manifest_path_of d) data = Ok t' →
  t' !! manifest_path_of d = Some (File data) ∧
  (∀ q, q ≠ manifest_path_of d → q ≠ firmware_root → t' !! q = t !! q) ∧
  is_dir t (manifest_path_of d) = false ∧
  (t' !! firmware_root = t !! firmware_root ∨
   ∃ names, t !! firmware_root = Some (Dir names) ∧
            t' !! firmware_root = Some (Dir (names ++ [manifest_name d]))).
Proof.
  rewrite write_manifest_unfold. unfold is_dir.
  destruct (t !! manifest_path_of d) as [[b|names]|] eqn:Hp; [| done |].
  - intros [= <-]. rewrite lookup_insert_eq. split; [done|]. split; [|split; [done|]].
    + intros q Hq _. by rewrite lookup_insert_ne.
    + left. by rewrite lookup_insert_ne.
  - destruct (t !! firmware_root) as [[b|names]|] eqn:Hr; try done.
    intros [= <-]. rewrite lookup_insert_eq. split; [done|]. split; [|split; [done|]].
    + intros q Hq Hq'. by rewrite !lookup_insert_ne.
    + right. exists names. split; [done|].
      rewrite lookup_insert_ne by done. by rewrite lookup_insert_eq.
Qed.

(** Writing to a file what it holds changes nothing. *)
Lemma write_bytes_same t p data :
  t !! p = Some (File data) → write_bytes t p data = Ok t.
Proof.
  intros H. unfold write_bytes. rewrite H. by rewrite insert_id.
Qed.

(** ** What the three functions store *)

Lemma st_size_content t p data :
  t !! p = Some (File data) → st_size t p = Ok (Z.of_nat (length data)).
Proof. intros H. unfold st_size. by rewrite H. Qed.

Lemma path_exists_file t p data : t !! p = Some (File data) → path_exists t p = true.
Proof. intros H. unfold path_exists. by rewrite H. Qed.

Lemma process_firmware_found t m dev dir version vdir data :
  latest_version_dir t dir = Ok (Some (version, vdir)) →
  t !! child vdir "firmware.bin" = Some (File data) →
  process_firmware t m dev dir =
    Ok (dict_set (dict_set m "version" (JStr version)) "firmware"
          (binary_record (child vdir "firmware.bin") data), true).
Proof.
  intros Hl Hf. unfold process_firmware. rewrite Hl, bind_Ok.
  rewrite (path_exists_file _ _ _ Hf). cbn [negb].
  by rewrite (sha256_of_content _ _ _ Hf), bind_Ok, (st_size_content _ _ _ Hf), bind_Ok.
Qed.

(** No matching directory, or no [firmware.bin] in the latest one: nothing
    is stored. *)
Lemma process_firmware_missing t m dev dir :
  latest_version_dir t dir = Ok None ∨
  (∃ version vdir, latest_version_dir t dir = Ok (Some (version, vdir)) ∧
                   path_exists t (child vdir "firmware.bin") = false) →
  process_firmware t m dev dir = Ok (m, false).
Proof.
  unfold process_firmware. intros [->|(version & vdir & -> & Hp)]; [done|].
  by rewrite bind_Ok, Hp.
Qed.

Lemma process_spiffs_found t m dev dir version vdir data :
  latest_version_dir t dir = Ok (Some (version, vdir)) →
  t !! child vdir "spiffs.bin" = Some (File data) →
  process_spiffs t m dev dir =
    Ok (dict_set m "spiffs" (binary_record (child vdir "spiffs.bin") data)).
Proof.
  intros Hl Hf. unfold process_spiffs. rewrite Hl, bind_Ok.
  rewrite (path_exists_file _ _ _ Hf). cbn [negb].
  by rewrite (sha256_of_content _ _ _ Hf), bind_Ok, (st_size_content _ _ _ Hf), bind_Ok.
Qed.

Lemma process_config_found t m dev dir data :
  t !! child dir "config.yaml" = Some (File data) →
  process_config t m dev dir =
    Ok (dict_set m "config" (config_record (child dir "config.yaml") data)).
Proof.
  intros Hf. unfold process_config.
  rewrite (path_exists_file _ _ _ Hf). cbn [negb].
  by rewrite (sha256_of_content _ _ _ Hf), bind_Ok.
Qed.

(** [process_spiffs] and [process_config] store under their own key only. *)
Lemma process_spiffs_frame t m dev dir m' k :
  process_spiffs t m dev dir = Ok m' → k ≠ "spiffs" → dict_get m' k = dict_get m k.
Proof.
  rewrite process_spiffs_updates.
  destruct (process_spiffs t [] dev dir) as [us|e] eqn:Hus;
    rewrite ?bind_Ok, ?bind_Raise; [|done].
  intros [= <-] Hk. apply apply_updates_get_other.
  apply process_spiffs_keys in Hus as [->| ->]; [apply not_elem_of_nil|].
  by intros ->%list_elem_of_singleton.
Qed.

Lemma process_config_frame t m dev dir m' k :
  process_config t m dev dir = Ok m' → k ≠ "config" → dict_get m' k = dict_get m k.
Proof.
  rewrite process_config_updates.
  destruct (process_config t [] dev dir) as [us|e] eqn:Hus;
    rewrite ?bind_Ok, ?bind_Raise; [|done].
  intros [= <-] Hk. apply apply_updates_get_other.
  apply process_config_keys in Hus as [->| ->]; [apply not_elem_of_nil|].
  by intros ->%list_elem_of_singleton.
Qed.

Lemma process_firmware_frame t m dev dir m' found k :
  process_firmware t m dev dir = Ok (m', found) →
  k ≠ "version" → k ≠ "firmware" → dict_get m' k = dict_get m k.
Proof.
  rewrite process_firmware_updates.
  destruct (process_firmware t [] dev dir) as [[us f]|e] eqn:Hus;
    rewrite ?bind_Ok, ?bind_Raise; [|done].
  intros [= <- <-] Hk Hk'. apply apply_updates_get_other.
  apply process_firmware_keys in Hus as ->.
  destruct f; [|apply not_elem_of_nil].
  intros [->| ->%list_elem_of_singleton]%elem_of_cons; done.
Qed.

Lemma fw_part_updates t device m :
  fw_part t device m =
    '(us, found) ← fw_part t device []; Ok (apply_updates us m, found).
Proof.
  unfold fw_part. destruct (path_exists t (child firmware_root device)); [|done].
  rewrite process_firmware_updates.
  by destruct (process_firmware t [] device (child firmware_root device)) as [[??]|].
Qed.

Lemma fw_part_keys t device us found :
  fw_part t device [] = Ok (us, found) →
  us.*1 = if found then ["version"; "firmware"] else [].
Proof.
  unfold fw_part. destruct (path_exists t (child firmware_root device)).
  - apply process_firmware_keys.
  - by intros [= <- <-].
Qed.

Lemma keys_nil (us : dict) : us.*1 = [] → us = [].
Proof. by destruct us. Qed.

Lemma keys_one (us : dict) k : us.*1 = [k] → ∃ v, us = [(k, v)].
Proof. destruct us as [|[k' v] [|??]]; try done. intros [= ->]. by exists v. Qed.

Lemma rest_part_updates t device m :
  rest_part t device m = us ← rest_part t device []; Ok (apply_updates us m).
Proof.
  unfold rest_part.
  assert (∀ m0, (if path_exists t (child spiffs_root device)
                 then process_spiffs t m0 device (child spiffs_root device)
                 else Ok m0) =
                us ← (if path_exists t (child spiffs_root device)
                      then process_spiffs t [] device (child spiffs_root device)
                      else Ok []); Ok (apply_updates us m0)) as Hs.
  { intros m0. destruct (path_exists t (child spiffs_root device)); [|done].
    apply process_spiffs_updates. }
  assert (∀ m0, (if path_exists t (child config_root device)
                 then process_config t m0 device (child config_root device)
                 else Ok m0) =
                us ← (if path_exists t (child config_root device)
                      then process_config t [] device (child config_root device)
                      else Ok []); Ok (apply_updates us m0)) as Hc.
  { intros m0. destruct (path_exists t (child config_root device)); [|done].
    apply process_config_updates. }
  assert (∀ us2, (if path_exists t (child spiffs_root device)
                  then process_spiffs t [] device (child spiffs_root device)
                  else Ok []) = Ok us2 → us2.*1 = [] ∨ us2.*1 = ["spiffs"]) as Hk2.
  { intros us2. destruct (path_exists t (child spiffs_root device)).
    - apply process_spiffs_keys.
    - intros [= <-]. by left. }
  assert (∀ us3, (if path_exists t (child config_root device)
                  then process_config t [] device (child config_root device)
                  else Ok []) = Ok us3 → us3.*1 = [] ∨ us3.*1 = ["config"]) as Hk3.
  { intros us3. destruct (path_exists t (child config_root device)).
    - apply process_config_keys.
    - intros [= <-]. by left. }
  rewrite (Hs m).
  destruct (if path_exists t (child spiffs_root device)
            then process_spiffs t [] device (child spiffs_root device)
            else Ok []) as [us2|e] eqn:H2; rewrite ?bind_Ok, ?bind_Raise; [|done].
  rewrite (Hc (apply_updates us2 m)), (Hc us2).
  destruct (if path_exists t (child config_root device)
            then process_config t [] device (child config_root device)
            else Ok []) as [us3|e] eqn:H3; rewrite ?bind_Ok, ?bind_Raise; [|done].
  f_equal.
  destruct (Hk2 _ eq_refl) as [->%keys_nil|[v2 ->]%keys_one];
    destruct (Hk3 _ eq_refl) as [->%keys_nil|[v3 ->]%keys_one]; done.
Qed.

Lemma rest_part_keys t device us :
  rest_part t device [] = Ok us →
  NoDup us.*1 ∧ ∀ k, k ∈ us.*1 → k = "spiffs" ∨ k = "config".
Proof.
  unfold rest_part.
  destruct (if path_exists t (child spiffs_root device)
            then process_spiffs t [] device (child spiffs_root device)
            else Ok []) as [us2|e] eqn:H2; rewrite ?bind_Ok, ?bind_Raise; [|done].
  assert (us2.*1 = [] ∨ us2.*1 = ["spiffs"]) as Hk2.
  { destruct (path_exists t (child spiffs_root device)).
    - by eapply process_spiffs_keys.
    - injection H2 as <-. by left. }
  destruct (path_exists t (child config_root device)).
  - rewrite process_config_updates.
    destruct (process_config t [] device (child config_root device)) as [us3|e] eqn:H3;
      rewrite ?bind_Ok, ?bind_Raise; [|done].
    intros [= <-]. apply process_config_keys in H3.
    destruct Hk2 as [->%keys_nil|[v2 ->]%keys_one];
      destruct H3 as [->%keys_nil|[v3 ->]%keys_one]; simpl.
    + split; [constructor|]. by intros k ?%elem_of_nil.
    + split; [apply NoDup_singleton|]. intros k ->%list_elem_of_singleton. by right.
    + split; [apply NoDup_singleton|]. intros k ->%list_elem_of_singleton. by left.
    + split.
      * apply NoDup_cons. split; [|apply NoDup_singleton].
        by intros [=]%list_elem_of_singleton.
      * intros k [-> | ->%list_elem_of_singleton]%elem_of_cons; auto.
  - intros [= <-]. destruct Hk2 as [->%keys_nil|[v2 ->]%keys_one]; simpl.
    + split; [constructor|]. by intros k ?%elem_of_nil.
    + split; [apply NoDup_singleton|]. intros k ->%list_elem_of_singleton. by left.
Qed.

(** Two writes of a manifest in trees of the same shape *)
Lemma write_manifest_loose t t2 d data data2 :
  loose t t2 (manifest_path_of d) → tight t t2 firmware_root →
  result_rel
    (λ a b, (∀ q, loose t t2 q → loose a b q) ∧
            (∀ q, q ≠ manifest_path_of d → tight t t2 q → tight a b q) ∧
            (data = data2 → tight a b (manifest_path_of d)))
    (write_bytes t (manifest_path_of d) data)
    (write_bytes t2 (manifest_path_of d) data2).
Proof.
  intros Hmp Hroot. rewrite !write_manifest_unfold. unfold tight in Hroot.
  assert (∀ a b : fs,
    a !! manifest_path_of d = Some (File data) →
    b !! manifest_path_of d = Some (File data2) →
    (∀ q, q ≠ manifest_path_of d →
          (loose t t2 q → loose a b q) ∧ (tight t t2 q → tight a b q)) →
    (∀ q, loose t t2 q → loose a b q) ∧
    (∀ q, q ≠ manifest_path_of d → tight t t2 q → tight a b q) ∧
    (data = data2 → tight a b (manifest_path_of d))) as Hgoal.
  { intros a b Ha Hb Hq. split; [|split].
    - intros q Hl. destruct (decide (q = manifest_path_of d)) as [->|Hne].
      + right. eauto.
      + by apply Hq.
    - intros q Hne. by apply Hq.
    - intros ->. unfold tight. by rewrite Ha, Hb. }
  destruct Hmp as [Heq|(b & b' & Hb & Hb')].
  - rewrite <- Heq. destruct (t !! manifest_path_of d) as [[b|names]|] eqn:Ht;
      [| done |].
    + simpl. apply Hgoal; [by rewrite lookup_insert_eq..|].
      intros q Hne. unfold loose, tight. by rewrite !lookup_insert_ne.
    + rewrite <- Hroot. destruct (t !! firmware_root) as [[b|names]|] eqn:Hr; try done.
      simpl. apply Hgoal; [by rewrite lookup_insert_eq..|].
      intros q Hne. unfold loose, tight. rewrite !(lookup_insert_ne _ (manifest_path_of d))
        by done.
      destruct (decide (q = firmware_root)) as [->|Hne'].
      * rewrite !lookup_insert_eq. split; [by left|done].
      * by rewrite !lookup_insert_ne.
  - rewrite Hb, Hb'. simpl. apply Hgoal; [by rewrite lookup_insert_eq..|].
    intros q Hne. unfold loose, tight. by rewrite !lookup_insert_ne.
Qed.

(** ** Trees that differ by saved manifests *)

Lemma extends_refl t : extends t t.
Proof. repeat split. by left. Qed.

Lemma extends_trans t t1 t2 : extends t t1 → extends t1 t2 → extends t t2.
Proof.
  intros (Hd & Hs & Hc & Hf) (Hd' & Hs' & Hc' & Hf'). repeat split.
  - intros q. by rewrite Hd', Hd.
  - unfold tight in *. congruence.
  - unfold tight in *. congruence.
  - destruct Hf as [Hf|(names & extra & H0 & H1 & Hex)];
      destruct Hf' as [Hf'|(names' & extra' & H0' & H1' & Hex')].
    + left. congruence.
    + right. exists names', extra'. rewrite <- Hf. done.
    + right. exists names, extra. repeat split; [done|congruence|].
      eapply Forall_impl; [exact Hex|]. intros n Hn. by rewrite Hd'.
    + right. rewrite H1 in H0'. injection H0' as <-.
      exists names, (extra ++ extra'). repeat split; [done|by rewrite app_assoc|].
      apply Forall_app. split; [|done].
      eapply Forall_impl; [exact Hex|]. intros n Hn. by rewrite Hd'.
Qed.

Lemma write_manifest_extends t d data t' :
  write_bytes t (manifest_path_of d) data = Ok t' → extends t t'.
Proof.
  intros (Hmp & Hother & Hnd & Hfr)%write_manifest_ok.
  assert (is_dir t' (manifest_path_of d) = false) as Hnd'.
  { unfold is_dir. by rewrite Hmp. }
  repeat split.
  - intros q. destruct (decide (q = manifest_path_of d)) as [->|Hq]; [congruence|].
    destruct (decide (q = firmware_root)) as [->|Hq'].
    + unfold is_dir.
      destruct Hfr as [->|(names & -> & ->)]; done.
    + unfold is_dir. by rewrite Hother.
  - unfold tight. by rewrite Hother.
  - unfold tight. by rewrite Hother.
  - destruct Hfr as [?|(names & ? & ?)]; [by left|right].
    exists names, [manifest_name d]. repeat split; [done..|].
    by apply Forall_singleton.
Qed.

Lemma scan_fold_ext t t1 root names (acc : gset string) :
  (∀ q, is_dir t1 q = is_dir t q) →
  fold_left (scan_step t1 root) names acc = fold_left (scan_step t root) names acc.
Proof.
  intros H. revert acc. induction names as [|n names IH]; intros acc; simpl; [done|].
  unfold scan_step at 2 4. by rewrite H, IH.
Qed.

Lemma scan_fold_files t root names (acc : gset string) :
  Forall (λ n, is_dir t (child root n) = false) names →
  fold_left (scan_step t root) names acc = acc.
Proof.
  intros H. revert acc. induction H as [|n names Hn H IH]; intros acc; simpl; [done|].
  unfold scan_step at 2. by rewrite Hn, IH.
Qed.

Lemma scan_root_tight t t1 devices root :
  (∀ q, is_dir t1 q = is_dir t q) → tight t t1 root →
  scan_root t1 devices root = scan_root t devices root.
Proof.
  unfold tight. intros Hd Hr. unfold scan_root, path_exists, iterdir. rewrite <- Hr.
  destruct (t !! root) as [[b|names]|]; try done.
  rewrite !bind_Ok. by rewrite (scan_fold_ext t t1).
Qed.

Lemma discover_devices_extends t t1 :
  extends t t1 → discover_devices t1 = discover_devices t.
Proof.
  intros (Hd & Hs & Hc & Hf). unfold discover_devices.
  assert (∀ devices, scan_root t1 devices firmware_root = scan_root t devices firmware_root)
    as ->.
  { intros devices. destruct Hf as [Hf|(names & extra & H0 & H1 & Hex)].
    - by apply scan_root_tight.
    - unfold scan_root, path_exists, iterdir. rewrite H0, H1, !bind_Ok.
      rewrite fold_left_app, scan_fold_files by done. by rewrite (scan_fold_ext t t1). }
  destruct (scan_root t ∅ firmware_root) as [d1|e]; rewrite ?bind_Ok, ?bind_Raise; [|done].
  rewrite (scan_root_tight t t1 d1 spiffs_root) by done.
  destruct (scan_root t d1 spiffs_root) as [d2|e]; rewrite ?bind_Ok, ?bind_Raise; [|done].
  by apply scan_root_tight.
Qed.

(** Trees of the same shape have the same devices. *)
Lemma discover_devices_loose t t2 :
  (∀ q, loose t t2 q) → discover_devices t = discover_devices t2.
Proof.
  intros H.
  assert (∀ devices root, scan_root t devices root = scan_root t2 devices root) as Hs.
  { intros devices root. unfold scan_root.
    rewrite (path_exists_loose t t2 root), (iterdir_loose t t2 root) by done.
    destruct (path_exists t2 root); [|done].
    destruct (iterdir t2 root) as [names|e]; rewrite ?bind_Ok, ?bind_Raise; [|done].
    f_equal. revert devices.
    induction names as [|n names IH]; intros devices; simpl; [done|].
    unfold scan_step at 2 4. by rewrite (is_dir_loose t t2 (child root n)), IH. }
  unfold discover_devices. rewrite Hs.
  destruct (scan_root t2 ∅ firmware_root) as [d1|e]; rewrite ?bind_Ok, ?bind_Raise; [|done].
  rewrite Hs.
  destruct (scan_root t2 d1 spiffs_root) as [d2|e]; rewrite ?bind_Ok, ?bind_Raise; [|done].
  apply Hs.
Qed.

(** ** [sorted] *)

Lemma sorted_strongly (devices : gset string) : StronglySorted String.le (sorted devices).
Proof. apply StronglySorted_merge_sort; apply _. Qed.

Lemma sorted_NoDup (devices : gset string) : NoDup (sorted devices).
Proof.
  unfold sorted. rewrite merge_sort_Permutation. apply NoDup_elements.
Qed.

Lemma sorted_elem (devices : gset string) d : d ∈ sorted devices ↔ d ∈ devices.
Proof.
  unfold sorted. rewrite merge_sort_Permutation. apply elem_of_elements.
Qed.

Lemma rest_part_frame t device m m' k :
  rest_part t device m = Ok m' → k ≠ "spiffs" → k ≠ "config" →
  dict_get m' k = dict_get m k.
Proof.
  rewrite rest_part_updates.
  destruct (rest_part t device []) as [us|e] eqn:Hus;
    rewrite ?bind_Ok, ?bind_Raise; [|done].
  intros [= <-] Hk Hk'. apply apply_updates_get_other.
  apply rest_part_keys in Hus as [_ Hus]. intros Hin. by destruct (Hus k Hin).
Qed.

Lemma fw_part_frame t device m m' found k :
  fw_part t device m = Ok (m', found) → k ≠ "version" → k ≠ "firmware" →
  dict_get m' k = dict_get m k.
Proof.
  unfold fw_part. destruct (path_exists t (child firmware_root device)).
  - apply process_firmware_frame.
  - by intros [= <- <-].
Qed.

Lemma defaults_get_other device m k :
  k ≠ "$schema" → k ≠ "name" → k ≠ "chip" →
  dict_get (defaults device m) k = dict_get m k.
Proof.
  intros H1 H2 H3. unfold defaults. by rewrite !setdefault_get_ne.
Qed.

Lemma latest_version_dir_none t d names :
  iterdir t d = Ok names →
  (∀ n, n ∈ names → is_dir t (child d n) = true → VERSION_RE_match n = None) →
  latest_version_dir t d = Ok None.
Proof.
  intros Hit Hn. unfold latest_version_dir. rewrite Hit, bind_Ok.
  assert (fold_left (latest_step t d) names None = None) as ->; [|done].
  apply latest_fold_none. split; [done|]. apply Forall_forall. intros n Hin.
  unfold candidate. destruct (is_dir t (child d n)) eqn:Hd; [|done].
  by rewrite (Hn n Hin Hd).
Qed.

Lemma fw_part_missing t device m :
  no_firmware_binary t device → fw_part t device m = Ok (m, false).
Proof.
  unfold no_firmware_binary, fw_part.
  intros [->|[(names & Hit & Hn)|Hlate]]; [done| |].
  - destruct (path_exists t (child firmware_root device)); [|done].
    apply process_firmware_missing. left. by eapply latest_version_dir_none.
  - destruct (path_exists t (child firmware_root device)); [|done].
    apply process_firmware_missing. by right.
Qed.

(** ** The exceptions of the artifact functions are [OSError]s *)

Lemma latest_version_dir_os t d e :
  latest_version_dir t d = Raise e → is_os_error e = true.
Proof.
  unfold latest_version_dir, iterdir.
  destruct (t !! d) as [[b|names]|]; rewrite ?bind_Ok, ?bind_Raise.
  - by intros [= <-].
  - by destruct (fold_left _ _ _) as [[[??]?]|].
  - by intros [= <-].
Qed.

Lemma sha256_of_os t p e : sha256_of t p = Raise e → is_os_error e = true.
Proof.
  unfold sha256_of, read_bytes.
  destruct (t !! p) as [[b|names]|]; rewrite ?bind_Ok, ?bind_Raise; try done;
    by intros [= <-].
Qed.

Lemma st_size_os t p e : st_size t p = Raise e → is_os_error e = true.
Proof.
  unfold st_size. destruct (t !! p) as [[b|names]|]; try done. by intros [= <-].
Qed.

Lemma process_spiffs_os t m dev dir e :
  process_spiffs t m dev dir = Raise e → is_os_error e = true.
Proof.
  unfold process_spiffs.
  destruct (latest_version_dir t dir) as [[[version vdir]|]|e0] eqn:Hl;
    rewrite ?bind_Ok, ?bind_Raise; [| done |].
  - destruct (path_exists t (child vdir "spiffs.bin")); cbn [negb]; [|done].
    destruct (sha256_of t (child vdir "spiffs.bin")) as [digest|e1] eqn:Hs;
      rewrite ?bind_Ok, ?bind_Raise.
    + destruct (st_size t (child vdir "spiffs.bin")) as [size|e2] eqn:Hz;
        rewrite ?bind_Ok, ?bind_Raise; [done|].
      intros [= <-]. by eapply st_size_os.
    + intros [= <-]. by eapply sha256_of_os.
  - intros [= <-]. by eapply latest_version_dir_os.
Qed.

Lemma process_config_os t m dev dir e :
  process_config t m dev dir = Raise e → is_os_error e = true.
Proof.
  unfold process_config.
  destruct (path_exists t (child dir "config.yaml")); cbn [negb]; [|done].
  destruct (sha256_of t (child dir "config.yaml")) as [digest|e1] eqn:Hs;
    rewrite ?bind_Ok, ?bind_Raise; [done|].
  intros [= <-]. by eapply sha256_of_os.
Qed.

Lemma rest_part_os t device m e :
  rest_part t device m = Raise e → is_os_error e = true.
Proof.
  unfold rest_part.
  destruct (if path_exists t (child spiffs_root device)
            then process_spiffs t m device (child spiffs_root device)
            else Ok m) as [m2|e2] eqn:H2; rewrite ?bind_Ok, ?bind_Raise.
  - destruct (path_exists t (child config_root device)); [|done].
    apply process_config_os.
  - intros [= <-]. destruct (path_exists t (child spiffs_root device)); [|done].
    by eapply process_spiffs_os.
Qed.

Lemma M_bind_io {A B : Type} (f : fs → result A) (k : A → M B) w :
  (io f ≫= k) w =
    match f (files w) with
    | Ok a => k a w
    | Raise e => (Raise e, w)
    end.
Proof. done. Qed.

Lemma M_bind_ret {A B : Type} (a : A) (k : A → M B) w : (mret a ≫= k) w = k a w.
Proof. done. Qed.

Lemma M_bind_print {B : Type} (line : string) (k : unit → M B) w :
  (print line ≫= k) w = k tt (World (files w) (stdout w ++ [line]) (saved w)).
Proof. done. Qed.

(** ** The body of the loop, in two pure stages and a write

    From here on [json.loads] and [json.dumps] are any two functions. *)

Section Run.
Variable json_loads : string → option json.
Variable json_dumps : json → string.

Lemma M_bind_save {B : Type} p data (k : unit → M B) w :
  (save_manifest json_dumps p data ≫= k) w =
    match write_bytes (files w) p (manifest_bytes json_dumps data) with
    | Ok t' => k tt (World t' (stdout w) (saved w ++ [(p, data)]))
    | Raise e => (Raise e, w)
    end.
Proof.
  unfold mbind, M_bind, save_manifest.
  by destruct (write_bytes (files w) p (manifest_bytes json_dumps data)).
Qed.

Lemma device_body_eq device w :
  device_body json_loads json_dumps device w =
  match stage1 json_loads (files w) device with
  | Raise e => (Raise e, w)
  | Ok (m, found) =>
      let w1 := World (files w) (noted device found (stdout w)) (saved w) in
      match rest_part (files w) device m with
      | Raise e => (Raise e, w1)
      | Ok m' =>
          match write_bytes (files w) (manifest_path_of device)
                  (manifest_bytes json_dumps m') with
          | Raise e => (Raise e, w1)
          | Ok t' =>
              (Ok (manifest_name device),
               World t' (noted device found (stdout w) ++
                         ["Updated " +:+ manifest_name device])
                     (saved w ++ [(manifest_path_of device, m')]))
          end
      end
  end.
Proof.
  destruct w as [t out sv]. unfold device_body, stage1, fw_part, rest_part.
  rewrite M_bind_io. cbn [files stdout saved].
  destruct (load_manifest json_loads t (manifest_path_of device)) as [j|e];
    rewrite ?bind_Ok, ?bind_Raise; [|done].
  rewrite M_bind_io.
  destruct (as_dict j) as [m0|e]; rewrite ?bind_Ok, ?bind_Raise; [|done].
  fold (defaults device m0).
  rewrite M_bind_io. cbn [files stdout saved].
  destruct (if path_exists t (child firmware_root device)
            then process_firmware t (defaults device m0) device
                   (child firmware_root device)
            else Ok (defaults device m0, false)) as [[m found]|e]; [|done].
  assert (∀ w' : world,
    files w' = t → saved w' = sv →
    (io (λ t0, if path_exists t0 (child spiffs_root device)
               then process_spiffs t0 m device (child spiffs_root device)
               else Ok m)
     ≫= λ manifest1,
          io (λ t0, if path_exists t0 (child config_root device)
                    then process_config t0 manifest1 device (child config_root device)
                    else Ok manifest1)
          ≫= λ manifest2,
               save_manifest json_dumps (manifest_path_of device) manifest2
               ≫= λ _, print ("Updated " +:+ manifest_name device)
                       ≫= λ _, mret (manifest_name device)) w' =
    match
      (if path_exists t (child spiffs_root device)
       then process_spiffs t m device (child spiffs_root device)
       else Ok m)
      ≫= λ manifest,
           if path_exists t (child config_root device)
           then process_config t manifest device (child config_root device)
           else Ok manifest
    with
    | Ok m' =>
        match write_bytes t (manifest_path_of device) (manifest_bytes json_dumps m') with
        | Ok t' =>
            (Ok (manifest_name device),
             World t' (stdout w' ++ ["Updated " +:+ manifest_name device])
                   (sv ++ [(manifest_path_of device, m')]))
        | Raise e => (Raise e, w')
        end
    | Raise e => (Raise e, w')
    end) as Hrest.
  { intros w' Hf Hs. rewrite M_bind_io, Hf.
    destruct (if path_exists t (child spiffs_root device)
              then process_spiffs t m device (child spiffs_root device)
              else Ok m) as [m2|e]; rewrite ?bind_Ok, ?bind_Raise; [|done].
    rewrite M_bind_io, Hf.
    destruct (if path_exists t (child config_root device)
              then process_config t m2 device (child config_root device)
              else Ok m2) as [m3|e]; [|done].
    rewrite M_bind_save, Hf, Hs.
    by destruct (write_bytes t (manifest_path_of device) (manifest_bytes json_dumps m3)). }
  destruct found; cbn [negb noted].
  - rewrite M_bind_ret. by rewrite Hrest.
  - rewrite M_bind_print. by rewrite Hrest.
Qed.

Lemma load_manifest_tight t t' p :
  tight t t' p → load_manifest json_loads t p = load_manifest json_loads t' p.
Proof.
  unfold tight. intros H. unfold load_manifest, path_exists, read_bytes. by rewrite H.
Qed.

Section stages.
Context (t t' : fs) (device : string).
Hypothesis Hunder : ∀ r rest, loose t t' (r :: device :: rest).

Lemma fw_part_loose m m' :
  result_rel (λ x y, x.2 = y.2 ∧ (m = m' → deep_tight t t' device → x = y))
    (fw_part t device m) (fw_part t' device m').
Proof.
  unfold fw_part, firmware_root.
  change (child ["firmware"] device) with ["firmware"; device].
  rewrite (path_exists_loose _ _ _ (Hunder "firmware" [])).
  destruct (path_exists t' ["firmware"; device]);
    [|simpl; split; [done|by intros ->]].
  eapply result_rel_mono; [|apply process_firmware_loose; intros rest; apply Hunder].
  intros x y [Hf Heq]. split; [done|]. intros Hm Hc. apply Heq; [done|].
  intros n. apply Hc.
Qed.

Lemma rest_part_loose m m' :
  result_rel (λ x y, m = m' → deep_tight t t' device → x = y)
    (rest_part t device m) (rest_part t' device m').
Proof.
  unfold rest_part.
  eapply result_rel_bind with (R := λ x y, m = m' → deep_tight t t' device → x = y).
  - unfold spiffs_root.
    change (child ["spiffs"] device) with ["spiffs"; device].
    rewrite (path_exists_loose _ _ _ (Hunder "spiffs" [])).
    destruct (path_exists t' ["spiffs"; device]); [|by simpl].
    eapply result_rel_mono; [|apply process_spiffs_loose; intros rest; apply Hunder].
    intros x y Heq Hm Hc. apply Heq; [done|]. intros n. apply Hc.
  - intros m2 m2' H2.
    unfold config_root.
    change (child ["config"] device) with ["config"; device].
    rewrite (path_exists_loose _ _ _ (Hunder "config" [])).
    destruct (path_exists t' ["config"; device]); [|simpl; auto].
    eapply result_rel_mono; [|apply process_config_loose; intros rest; apply Hunder].
    intros x y Heq Hm Hc. apply Heq; [by apply H2|]. apply Hc.
Qed.

Lemma stage1_loose :
  tight t t' (manifest_path_of device) →
  result_rel (λ x y, x.2 = y.2 ∧ (deep_tight t t' device → x = y))
    (stage1 json_loads t device) (stage1 json_loads t' device).
Proof.
  intros Hm. unfold stage1. rewrite (load_manifest_tight _ _ _ Hm).
  destruct (load_manifest json_loads t' (manifest_path_of device)) as [j|e];
    rewrite ?bind_Ok, ?bind_Raise; [|done].
  destruct (as_dict j) as [m0|e]; rewrite ?bind_Ok, ?bind_Raise; [|done].
  eapply result_rel_mono; [|apply fw_part_loose].
  intros x y [Hf Heq]. split; [done|]. by apply Heq.
Qed.
End stages.

(** *** The outcomes of the body *)

Lemma for_devices_cons d rest upd w :
  for_devices json_loads json_dumps (d :: rest) upd w =
  match device_body json_loads json_dumps d w with
  | (Ok name, w') => for_devices json_loads json_dumps rest (upd ++ [name]) w'
  | (Raise e, w') => (Raise e, w')
  end.
Proof. done. Qed.

Lemma noted_cases device found out :
  noted device found out = out ∨ noted device found out = out ++ [note_line device].
Proof. destruct found; [by left|by right]. Qed.

Lemma device_body_outcome device w r w' :
  device_body json_loads json_dumps device w = (r, w') →
  body_outcome json_loads json_dumps device w r w'.
Proof.
  rewrite device_body_eq.
  destruct (stage1 json_loads (files w) device) as [[m found]|e] eqn:H1.
  - cbv zeta.
    destruct (rest_part (files w) device m) as [m'|e] eqn:H2.
    + destruct (write_bytes (files w) (manifest_path_of device)
                  (manifest_bytes json_dumps m')) as [t'|e] eqn:H3.
      * intros [= <- <-]. by eapply body_saved.
      * intros [= <- <-]. apply body_raised; [done..|apply noted_cases].
    + intros [= <- <-]. apply body_raised; [done..|apply noted_cases].
  - intros [= <- <-]. apply body_raised; [done..|by left].
Qed.

Lemma fw_part_tight t t' device m :
  (∀ r rest, tight t t' (r :: device :: rest)) →
  fw_part t device m = fw_part t' device m.
Proof.
  intros H. apply result_rel_eq.
  eapply result_rel_mono; [|apply (fw_part_loose t t' device)].
  - intros [x1 x2] [y1 y2] [Hf Heq]. apply Heq; [done|]. intros r x rest. apply H.
  - intros r rest. apply tight_loose, H.
Qed.

Lemma rest_part_tight t t' device m :
  (∀ r rest, tight t t' (r :: device :: rest)) →
  rest_part t device m = rest_part t' device m.
Proof.
  intros H. apply result_rel_eq.
  eapply result_rel_mono; [|apply (rest_part_loose t t' device)].
  - intros x y Heq. apply Heq; [done|]. intros r x' rest. apply H.
  - intros r rest. apply tight_loose, H.
Qed.

(** *** What the body computes for a device *)

Lemma stages_merge t device m found m' :
  stage1 json_loads t device = Ok (m, found) →
  rest_part t device m = Ok m' →
  ∃ m0 us1 us2,
    load_manifest json_loads t (manifest_path_of device) = Ok (JDict m0) ∧
    fw_part t device [] = Ok (us1, found) ∧
    rest_part t device [] = Ok us2 ∧
    m = apply_updates us1 (defaults device m0) ∧
    m' = apply_updates us2 m ∧
    NoDup (us1 ++ us2).*1.
Proof.
  unfold stage1. intros H1 H2.
  destruct (load_manifest json_loads t (manifest_path_of device)) as [j|e];
    rewrite ?bind_Ok, ?bind_Raise in H1; [|done].
  destruct j as [| | | | | |m0]; try done.
  simpl in H1. rewrite fw_part_updates in H1.
  destruct (fw_part t device []) as [[us1 f]|e] eqn:Hf;
    rewrite ?bind_Ok, ?bind_Raise in H1; [|done].
  injection H1 as <- <-.
  rewrite rest_part_updates in H2.
  destruct (rest_part t device []) as [us2|e] eqn:Hr;
    rewrite ?bind_Ok, ?bind_Raise in H2; [|done].
  injection H2 as <-.
  exists m0, us1, us2. repeat split; try done.
  apply fw_part_keys in Hf. apply rest_part_keys in Hr as [Hnd Hk].
  rewrite fmap_app. apply NoDup_app. split; [|split; [|done]].
  - rewrite Hf. destruct f; [|constructor].
    apply NoDup_cons. split; [|apply NoDup_singleton].
    by intros [=]%list_elem_of_singleton.
  - intros k Hk1 Hk2. apply Hk in Hk2. rewrite Hf in Hk1.
    destruct f; [|by apply elem_of_nil in Hk1].
    apply elem_of_cons in Hk1 as [-> | ->%list_elem_of_singleton];
      by destruct Hk2.
Qed.

Lemma defaults_present device m :
  is_Some (dict_get (defaults device m) "$schema") ∧
  is_Some (dict_get (defaults device m) "name") ∧
  is_Some (dict_get (defaults device m) "chip").
Proof.
  unfold defaults. repeat split.
  - rewrite !setdefault_get_ne by done. rewrite setdefault_get_eq.
    destruct (dict_get m "$schema"); eauto.
  - rewrite !setdefault_get_ne by done. rewrite setdefault_get_eq.
    destruct (dict_get _ "name"); eauto.
  - rewrite setdefault_get_eq. destruct (dict_get _ "chip"); eauto.
Qed.

Lemma defaults_fixed device m :
  is_Some (dict_get m "$schema") → is_Some (dict_get m "name") →
  is_Some (dict_get m "chip") → defaults device m = m.
Proof.
  intros H1 H2 H3. unfold defaults.
  rewrite (setdefault_present m "$schema") by done.
  rewrite (setdefault_present m "name") by done.
  by rewrite setdefault_present.
Qed.

(** A device whose manifest was just saved: in any tree that holds that
    manifest and the same nodes under the device, the body computes the
    same dictionary again. *)
Lemma body_again t device m found m' t2 :
  stage1 json_loads t device = Ok (m, found) →
  rest_part t device m = Ok m' →
  reads_back json_loads json_dumps m' →
  t2 !! manifest_path_of device = Some (File (manifest_bytes json_dumps m')) →
  (∀ r rest, tight t t2 (r :: device :: rest)) →
  stage1 json_loads t2 device = Ok (m', found) ∧ rest_part t2 device m' = Ok m'.
Proof.
  intros H1 H2 Hrb Hmp Hunder.
  destruct (stages_merge _ _ _ _ _ H1 H2)
    as (m0 & us1 & us2 & _ & Hf & Hr & -> & -> & Hnd).
  remember (apply_updates us2 (apply_updates us1 (defaults device m0))) as m' eqn:Em.
  assert (m' = apply_updates (us1 ++ us2) (defaults device m0)) as Hm'
    by (by rewrite Em, apply_updates_app).
  clear Em.
  assert (defaults device m' = m') as Hd.
  { destruct (defaults_present device m0) as (? & ? & ?).
    apply defaults_fixed; rewrite Hm'; by apply apply_updates_keeps. }
  assert (apply_updates us1 m' = m') as Hu1.
  { apply apply_updates_hold. intros k v Hin. rewrite Hm'.
    apply apply_updates_get; [done|]. apply elem_of_app. by left. }
  assert (apply_updates us2 m' = m') as Hu2.
  { apply apply_updates_hold. intros k v Hin. rewrite Hm'.
    apply apply_updates_get; [done|]. apply elem_of_app. by right. }
  split.
  - unfold stage1, load_manifest, path_exists, read_bytes. rewrite Hmp.
    rewrite bind_Ok. unfold reads_back in Hrb.
    rewrite Hrb. rewrite bind_Ok. simpl as_dict. rewrite bind_Ok, Hd.
    rewrite <- (fw_part_tight t t2) by done.
    rewrite fw_part_updates, Hf, bind_Ok. by rewrite Hu1.
  - rewrite <- (rest_part_tight t t2) by done.
    rewrite rest_part_updates, Hr, bind_Ok. by rewrite Hu2.
Qed.

(** *** The loop: what it touches *)

Abbreviation for_devices' := (for_devices json_loads json_dumps).
Abbreviation device_body' := (device_body json_loads json_dumps).

Lemma body_outcome_extends device w r w' :
  body_outcome json_loads json_dumps device w r w' → extends (files w) (files w').
Proof.
  intros [e w1 Hf _ _|m found m' w1 _ _ Hw _ _].
  - rewrite Hf. apply extends_refl.
  - by eapply write_manifest_extends.
Qed.

Lemma body_outcome_other device w r w' q :
  body_outcome json_loads json_dumps device w r w' →
  q ≠ firmware_root → q ≠ manifest_path_of device →
  files w' !! q = files w !! q.
Proof.
  intros [e w1 Hf _ _|m found m' w1 _ _ Hw _ _] Hq Hq'.
  - by rewrite Hf.
  - apply write_manifest_ok in Hw as (_ & Hother & _). by apply Hother.
Qed.

Lemma body_outcome_saved device w r w' :
  body_outcome json_loads json_dumps device w r w' → ∃ sv, saved w' = saved w ++ sv.
Proof.
  intros [e w1 _ Hs _|m found m' w1 _ _ _ _ Hs].
  - exists []. by rewrite app_nil_r.
  - eauto.
Qed.

Lemma body_outcome_stdout device w r w' :
  body_outcome json_loads json_dumps device w r w' → ∃ out, stdout w' = stdout w ++ out.
Proof.
  intros [e w1 _ _ [Ho|Ho]|m found m' w1 _ _ _ Ho _].
  - exists []. by rewrite app_nil_r.
  - eauto.
  - rewrite Ho. destruct found; simpl; [eauto|].
    rewrite <- app_assoc. eauto.
Qed.

Lemma for_devices_footprint devs upd w r w' :
  for_devices' devs upd w = (r, w') →
  extends (files w) (files w') ∧
  (∃ sv, saved w' = saved w ++ sv) ∧
  (∀ q, q ≠ firmware_root → (∀ d, d ∈ devs → q ≠ manifest_path_of d) →
        files w' !! q = files w !! q) ∧
  (∃ out, stdout w' = stdout w ++ out).
Proof.
  revert upd w. induction devs as [|d devs IH]; intros upd w.
  - intros [= <- <-]. split; [apply extends_refl|]. split; [|split; [done|]].
    + exists []. by rewrite app_nil_r.
    + exists []. by rewrite app_nil_r.
  - rewrite for_devices_cons.
    destruct (device_body' d w) as [[name|e] wd] eqn:Hb;
      apply device_body_outcome in Hb.
    + intros (Hext & [sv Hsv] & Hother & [out Hout])%IH.
      split; [|split; [|split]].
      * eapply extends_trans; [|exact Hext]. by eapply body_outcome_extends.
      * destruct (body_outcome_saved _ _ _ _ Hb) as [sv0 Hsv0].
        exists (sv0 ++ sv). by rewrite Hsv, Hsv0, app_assoc.
      * intros q Hq Hd. rewrite Hother; [|done|].
        -- eapply body_outcome_other; [done..|]. apply Hd. by left.
        -- intros d' Hd'. apply Hd. by right.
      * destruct (body_outcome_stdout _ _ _ _ Hb) as [out0 Hout0].
        exists (out0 ++ out). by rewrite Hout, Hout0, app_assoc.
    + intros [= <- <-]. split; [|split; [|split]].
      * by eapply body_outcome_extends.
      * by eapply body_outcome_saved.
      * intros q Hq Hd. eapply body_outcome_other; [done..|]. apply Hd. by left.
      * by eapply body_outcome_stdout.
Qed.

(** The result of the body depends on the files alone. *)
Lemma device_body_files device w w2 :
  files w2 = files w →
  (device_body' device w2).1 = (device_body' device w).1 ∧
  files (device_body' device w2).2 = files (device_body' device w).2.
Proof.
  intros Hf. rewrite !device_body_eq, Hf.
  destruct (stage1 json_loads (files w) device) as [[m found]|e]; [|done].
  cbv zeta.
  destruct (rest_part (files w) device m) as [m'|e]; [|done].
  by destruct (write_bytes (files w) (manifest_path_of device)
                 (manifest_bytes json_dumps m')).
Qed.

(** *** The loop run again on what it left *)

Lemma for_devices_rerun devs :
  StronglySorted String.le devs → NoDup devs →
  ∀ upd w r w1,
    for_devices' devs upd w = (r, w1) →
    (∀ p m, (p, m) ∈ saved w1 → reads_back json_loads json_dumps m) →
    ∀ upd2 w2,
      files w2 = files w1 →
      same_status (for_devices' devs upd2 w2).1 r ∧
      files (for_devices' devs upd2 w2).2 = files w1.
Proof.
  induction devs as [|d devs IH]; intros Hsorted Hnd upd w r w1 Hrun Hrb upd2 w2 Hf.
  - injection Hrun as <- <-. by split.
  - apply StronglySorted_inv in Hsorted as [Hsorted Hle].
    apply NoDup_cons in Hnd as [Hnin Hnd].
    rewrite for_devices_cons in Hrun. rewrite for_devices_cons.
    destruct (device_body' d w) as [rd wd] eqn:Hb.
    pose proof (device_body_outcome _ _ _ _ Hb) as Hout.
    destruct Hout as [e wd Hfd Hsd _|m found m' wd H1 H2 Hw Hout Hsd].
    + injection Hrun as <- <-.
      destruct (device_body_files d w w2) as [Hr2 Hf2]; [congruence|].
      rewrite Hb in Hr2, Hf2. simpl in Hr2, Hf2.
      destruct (device_body' d w2) as [r2 w2']. simpl in *. subst r2.
      by split.
    + destruct (for_devices_footprint _ _ _ _ _ Hrun) as (_ & [sv Hsv] & Hother & _).
      pose proof (write_manifest_ok _ _ _ _ Hw) as (Hmp & Hsame & _).
      assert (reads_back json_loads json_dumps m') as Hrb'.
      { apply (Hrb (manifest_path_of d)). rewrite Hsv, Hsd.
        apply elem_of_app. left. apply elem_of_app. right. by left. }
      assert (files w1 !! manifest_path_of d =
              Some (File (manifest_bytes json_dumps m'))) as Hmp1.
      { rewrite Hother; [done|done|].
        intros d' Hd' Heq%manifest_path_inj. by subst. }
      assert (∀ r0 rest, tight (files w) (files w1) (r0 :: d :: rest)) as Hunder.
      { intros r0 rest. unfold tight. rewrite Hother.
        - rewrite Hsame; [done| |done].
          intros [= _ Hd _]. symmetry in Hd. by apply manifest_name_ne in Hd.
        - done.
        - intros d' Hd' [= _ Hd _].
          exact (sorted_not_manifest_of_later d devs d' Hle Hnin Hd' Hd). }
      destruct (body_again (files w) d m found m' (files w1) H1 H2 Hrb' Hmp1 Hunder)
        as [H1' H2'].
      rewrite device_body_eq, Hf, H1'. cbv zeta. rewrite H2'.
      rewrite (write_bytes_same _ _ _ Hmp1).
      by eapply IH.
Qed.

(** *** A device in a loop that completes *)

Lemma fw_part_file t device m b :
  t !! child firmware_root device = Some (File b) →
  fw_part t device m = Raise NotADirectoryError.
Proof.
  intros H. unfold fw_part, path_exists, process_firmware, latest_version_dir, iterdir.
  by rewrite H.
Qed.

Lemma body_ok_fw_dir d w name w' b :
  device_body' d w = (Ok name, w') →
  files w !! child firmware_root d ≠ Some (File b).
Proof.
  intros Hb%device_body_outcome Hf. inversion Hb as [|m found m' w1 H1 _ _ _ _]; subst.
  unfold stage1 in H1.
  destruct (load_manifest json_loads (files w) (manifest_path_of d)) as [j|e];
    rewrite ?bind_Ok, ?bind_Raise in H1; [|done].
  destruct (as_dict j) as [m0|e]; rewrite ?bind_Ok, ?bind_Raise in H1; [|done].
  by rewrite (fw_part_file _ _ _ _ Hf) in H1.
Qed.

Lemma loop_reaches devs :
  NoDup devs →
  ∀ upd w updated wf,
    for_devices' devs upd w = (Ok updated, wf) →
    ∀ d, d ∈ devs →
      ∃ wd wd',
        device_body' d wd = (Ok (manifest_name d), wd') ∧
        (∀ q, reads d q → tight (files w) (files wd) q) ∧
        (∀ line, line ∈ stdout wd' → line ∈ stdout wf) ∧
        (∀ x, x ∈ saved wd' → x ∈ saved wf) ∧
        files wf !! manifest_path_of d = files wd' !! manifest_path_of d.
Proof.
  induction devs as [|d1 devs IH]; intros Hnd upd w updated wf Hrun d Hd.
  - by apply elem_of_nil in Hd.
  - apply NoDup_cons in Hnd as [Hnin Hnd]. rewrite for_devices_cons in Hrun.
    destruct (device_body' d1 w) as [[name|e] w1] eqn:Hb; [|done].
    pose proof (device_body_outcome _ _ _ _ Hb) as Hout.
    destruct (for_devices_footprint _ _ _ _ _ Hrun)
      as (_ & [sv Hsv] & Hother & [out Hstd]).
    apply elem_of_cons in Hd as [->|Hd].
    + exists w, w1. split; [|split; [done|split; [|split]]].
      * inversion Hout; by subst.
      * intros line Hl. rewrite Hstd. apply elem_of_app. by left.
      * intros x Hx. rewrite Hsv. apply elem_of_app. by left.
      * apply Hother; [done|]. intros d' Hd' Heq%manifest_path_inj. by subst.
    + destruct (IH Hnd _ _ _ _ Hrun d Hd) as (wd & wd' & Hbd & Ht & Hs & Hsvd & Hf).
      exists wd, wd'. split; [done|]. split; [|by split].
      intros q Hq. unfold tight. rewrite <- (Ht q Hq).
      symmetry. eapply body_outcome_other; [done| |].
      * destruct Hq as [->|(r & rest & ->)]; done.
      * intros ->. destruct Hq as [Heq%manifest_path_inj|(r & rest & [= <- <- <-])].
        -- by subst.
        -- inversion Hout as [|m found m' w1' _ _ Hw _ _]; subst.
           apply write_manifest_ok in Hw as (Hmp & _).
           apply (body_ok_fw_dir _ _ _ _ (manifest_bytes json_dumps m') Hbd).
           rewrite <- Hmp. symmetry. apply Ht. right. by exists "firmware", [].
Qed.

Lemma loop_saved devs :
  NoDup devs →
  ∀ upd w r wf,
    for_devices' devs upd w = (r, wf) → saved_ok json_dumps devs w → saved_ok json_dumps [] wf.
Proof.
  induction devs as [|d devs IH]; intros Hnd upd w r wf Hrun Hinv.
  - by injection Hrun as <- <-.
  - apply NoDup_cons in Hnd as [Hnin Hnd]. rewrite for_devices_cons in Hrun.
    destruct (device_body' d w) as [rd wd] eqn:Hb.
    pose proof (device_body_outcome _ _ _ _ Hb) as Hout.
    destruct Hout as [e wd Hfd Hsd _|m found m' wd H1 H2 Hw Hout Hsd].
    + injection Hrun as <- <-. intros p m Hin. rewrite Hfd. rewrite Hsd in Hin.
      destruct (Hinv p m Hin) as [(d' & -> & _) Hf]. split; [|done].
      exists d'. split; [done|apply not_elem_of_nil].
    + apply (IH Hnd _ _ _ _ Hrun).
      intros p m0 Hin. rewrite Hsd in Hin.
      pose proof (write_manifest_ok _ _ _ _ Hw) as (Hmp & Hsame & _).
      apply elem_of_app in Hin as [Hin|[= -> ->]%list_elem_of_singleton].
      * destruct (Hinv p m0 Hin) as [(d' & -> & Hd') Hf].
        apply not_elem_of_cons in Hd' as [Hne Hd']. split; [by exists d'|].
        rewrite Hsame; [done| |done].
        intros Heq%manifest_path_inj. by subst.
      * split; [by exists d|done].
Qed.

Lemma for_devices_app devs1 devs2 upd w :
  for_devices' (devs1 ++ devs2) upd w =
  match for_devices' devs1 upd w with
  | (Ok upd1, w1) => for_devices' devs2 upd1 w1
  | (Raise e, w1) => (Raise e, w1)
  end.
Proof.
  revert upd w. induction devs1 as [|d devs1 IH]; intros upd w; [done|].
  rewrite <- app_comm_cons, !for_devices_cons.
  destruct (device_body' d w) as [[name|e] wd]; [apply IH|done].
Qed.


(** *** Two runs of the loop on trees of the same shape *)

Lemma device_body_lockstep d w w2 :
  (∀ q, loose (files w) (files w2) q) →
  tight (files w) (files w2) (manifest_path_of d) →
  tight (files w) (files w2) firmware_root →
  (device_body' d w).1 = (device_body' d w2).1 ∧
  (∀ q, loose (files (device_body' d w).2) (files (device_body' d w2).2) q) ∧
  (∀ q, q ≠ manifest_path_of d → tight (files w) (files w2) q →
        tight (files (device_body' d w).2) (files (device_body' d w2).2) q) ∧
  (deep_tight (files w) (files w2) d →
   tight (files (device_body' d w).2) (files (device_body' d w2).2)
     (manifest_path_of d)).
Proof.
  intros Hloose Hmp Hroot. rewrite !device_body_eq.
  pose proof (stage1_loose (files w) (files w2) d (λ r rest, Hloose _) Hmp) as H1.
  destruct (stage1 json_loads (files w) d) as [[m found]|e];
    destruct (stage1 json_loads (files w2) d) as [[m2 found2]|e2]; simpl in H1; try done.
  - destruct H1 as [<- Heq]. cbv zeta.
    pose proof (rest_part_loose (files w) (files w2) d (λ r rest, Hloose _) m m2) as H2.
    destruct (rest_part (files w) d m) as [m'|e];
      destruct (rest_part (files w2) d m2) as [m2'|e2]; simpl in H2; try done.
    + pose proof (write_manifest_loose (files w) (files w2) d
                    (manifest_bytes json_dumps m') (manifest_bytes json_dumps m2')
                    (Hloose _) Hroot) as H3.
      destruct (write_bytes (files w) (manifest_path_of d)
                  (manifest_bytes json_dumps m')) as [t'|e];
        destruct (write_bytes (files w2) (manifest_path_of d)
                    (manifest_bytes json_dumps m2')) as [t2'|e2];
        simpl in H3; try done.
      * destruct H3 as (Hl & Ht & Hm). simpl. repeat split; try done.
        -- intros q. by apply Hl.
        -- intros Hdeep. apply Hm.
           assert ((m, found) = (m2, found)) as [= ->] by by apply Heq.
           f_equal. by apply H2.
      * subst e2. simpl. by repeat split.
    + subst e2. simpl. by repeat split.
  - subst e2. simpl. by repeat split.
Qed.

Lemma for_devices_lockstep (d0 : string) devs :
  NoDup devs →
  ∀ upd w w2,
    (∀ q, loose (files w) (files w2) q) →
    tight (files w) (files w2) firmware_root →
    (∀ d, d ∈ devs → tight (files w) (files w2) (manifest_path_of d)) →
    (∀ d, d ∈ devs → d ≠ d0 → deep_tight (files w) (files w2) d) →
    (for_devices' devs upd w).1 = (for_devices' devs upd w2).1 ∧
    (∀ q, q ≠ manifest_path_of d0 → tight (files w) (files w2) q →
          tight (files (for_devices' devs upd w).2)
                (files (for_devices' devs upd w2).2) q).
Proof.
  induction devs as [|d devs IH]; intros Hnd upd w w2 Hloose Hroot Hmps Hdeep.
  - by split.
  - apply NoDup_cons in Hnd as [Hnin Hnd]. rewrite !for_devices_cons.
    destruct (device_body_lockstep d w w2 Hloose) as (Hr & Hl & Ht & Hm);
      [apply Hmps; by left|done|].
    destruct (device_body' d w) as [r wd]; destruct (device_body' d w2) as [r2 wd2].
    simpl in Hr, Hl, Ht, Hm. subst r2.
    assert (∀ q, q ≠ manifest_path_of d0 → tight (files w) (files w2) q →
                 tight (files wd) (files wd2) q) as Hstep.
    { intros q Hq Htq. destruct (decide (q = manifest_path_of d)) as [->|Hne].
      - apply Hm, Hdeep; [by left|]. intros ->. done.
      - by apply Ht. }
    destruct r as [name|e]; [|by split].
    destruct (IH Hnd (upd ++ [name]) wd wd2) as [Hr' Ht']; try done.
    + by apply Ht.
    + intros d' Hd'. apply Ht.
      * intros Heq%manifest_path_inj. by subst.
      * apply Hmps. by right.
    + intros d' Hd' Hne r0 x rest. apply Ht; [done|].
      apply Hdeep; [by right|done].
    + split; [done|]. intros q Hq Htq. apply Ht'; [done|]. by apply Hstep.
Qed.

(** *** The whole run *)

Abbreviation main' := (main json_loads json_dumps).
Abbreviation run' := (run json_loads json_dumps).

Lemma main_eq w :
  main' w =
  match discover_devices (files w) with
  | Raise e => (Raise e, w)
  | Ok devices =>
      if decide (devices = ∅) then print nothing_line w
      else
        match for_devices' (sorted devices) [] w with
        | (Ok updated, w') => print (done_line (length updated)) w'
        | (Raise e, w') => (Raise e, w')
        end
  end.
Proof.
  unfold main. rewrite M_bind_io.
  destruct (discover_devices (files w)) as [devices|e]; [|done].
  destruct (decide (devices = ∅)); [done|].
  unfold mbind, M_bind.
  by destruct (for_devices' (sorted devices) [] w) as [[updated|e] w'].
Qed.

(** What a run leaves, in terms of the loop *)
Lemma run_loop t devices :
  discover_devices t = Ok devices → devices ≠ ∅ →
  files (run' t).2 = files (for_devices' (sorted devices) [] (World t [] [])).2 ∧
  saved (run' t).2 = saved (for_devices' (sorted devices) [] (World t [] [])).2 ∧
  same_status (run' t).1 (for_devices' (sorted devices) [] (World t [] [])).1.
Proof.
  intros Hd Hne. unfold run. rewrite main_eq. simpl files. rewrite Hd.
  rewrite decide_False by done.
  by destruct (for_devices' (sorted devices) [] (World t [] [])) as [[updated|e] w'].
Qed.

Lemma same_status_trans {A B C : Type}
    (r1 : result A) (r2 : result B) (r3 : result C) :
  same_status r1 r2 → same_status r2 r3 → same_status r1 r3.
Proof. destruct r1, r2, r3; simpl; intros; try done; congruence. Qed.

Lemma same_status_sym {A B : Type} (r1 : result A) (r2 : result B) :
  same_status r1 r2 → same_status r2 r1.
Proof. destruct r1, r2; simpl; intros; try done; congruence. Qed.

Lemma run_twice t :
  (∀ p m, (p, m) ∈ saved (run' t).2 → reads_back json_loads json_dumps m) →
  files (run' (files (run' t).2)).2 = files (run' t).2 ∧
  same_status (run' (files (run' t).2)).1 (run' t).1.
Proof.
  intros Hrb.
  destruct (discover_devices t) as [devices|e] eqn:Hd.
  - destruct (decide (devices = ∅)) as [->|Hne].
    + assert (run' t = (Ok (), World t [nothing_line] [])) as Hrun.
      { unfold run. rewrite main_eq. simpl files. by rewrite Hd. }
      rewrite Hrun. simpl. by rewrite Hrun.
    + destruct (run_loop t devices Hd Hne) as (Hf & Hs & Hst).
      destruct (for_devices' (sorted devices) [] (World t [] [])) as [r w1] eqn:Hloop.
      simpl in Hf, Hs, Hst.
      assert (discover_devices (files w1) = Ok devices) as Hd1.
      { rewrite <- Hd. apply discover_devices_extends.
        by apply for_devices_footprint in Hloop as (Hext & _). }
      destruct (run_loop (files w1) devices Hd1 Hne) as (Hf2 & _ & Hst2).
      destruct (for_devices_rerun (sorted devices) (sorted_strongly _) (sorted_NoDup _)
                  _ _ _ _ Hloop) with (upd2 := @nil string) (w2 := World (files w1) [] [])
        as [Hst3 Hf3]; [by rewrite <- Hs|done|].
      rewrite Hf. split; [congruence|].
      eapply same_status_trans; [exact Hst2|].
      eapply same_status_trans; [exact Hst3|]. by apply same_status_sym.
  - assert (run' t = (Raise e, World t [] [])) as Hrun.
    { unfold run. rewrite main_eq. simpl files. by rewrite Hd. }
    rewrite Hrun. simpl. by rewrite Hrun.
Qed.

(** *** A device in a run that completes *)

Lemma stage1_tight t t' d :
  (∀ q, reads d q → tight t t' q) → stage1 json_loads t d = stage1 json_loads t' d.
Proof.
  intros H. apply result_rel_eq.
  eapply result_rel_mono; [|apply (stage1_loose t t' d)].
  - intros x y [_ Heq]. apply Heq. intros r x' rest. apply H. right. eauto.
  - intros r rest. apply tight_loose, H. right. eauto.
  - apply H. by left.
Qed.

Lemma run_device t devices d :
  discover_devices t = Ok devices → d ∈ devices → (run' t).1 = Ok () →
  ∃ m found m',
    stage1 json_loads t d = Ok (m, found) ∧ rest_part t d m = Ok m' ∧
    files (run' t).2 !! manifest_path_of d =
      Some (File (manifest_bytes json_dumps m')) ∧
    (∀ line, line ∈ noted d found [] → line ∈ stdout (run' t).2) ∧
    ("Updated " +:+ manifest_name d) ∈ stdout (run' t).2 ∧
    (manifest_path_of d, m') ∈ saved (run' t).2.
Proof.
  intros Hd Hin Hok.
  assert (devices ≠ ∅) as Hne by (intros ->; by apply not_elem_of_empty in Hin).
  assert (∀ line, line ∈ stdout (for_devices' (sorted devices) [] (World t [] [])).2 →
                  line ∈ stdout (run' t).2) as Hstd.
  { unfold run. rewrite main_eq. simpl files. rewrite Hd, decide_False by done.
    destruct (for_devices' (sorted devices) [] (World t [] [])) as [[updated|e] w'];
      [|done].
    intros line Hl. simpl. apply elem_of_app. by left. }
  destruct (run_loop t devices Hd Hne) as (Hf & Hs & Hst).
  rewrite Hok in Hst. rewrite Hf, Hs.
  destruct (for_devices' (sorted devices) [] (World t [] [])) as [[updated|e] wf]
    eqn:Hloop; [|done].
  simpl in *.
  destruct (loop_reaches _ (sorted_NoDup devices) _ _ _ _ Hloop d)
    as (wd & wd' & Hb & Ht & Hout & Hsv & Hfile); [by apply sorted_elem|].
  apply device_body_outcome in Hb.
  inversion Hb as [|m found m' w' H1 H2 Hw Ho Hsd]; subst.
  exists m, found, m'. simpl in Ht.
  rewrite (stage1_tight t (files wd) d) by done. split; [done|].
  rewrite (rest_part_tight t (files wd) d).
  2:{ intros r rest. apply Ht. right. eauto. }
  split; [done|]. apply write_manifest_ok in Hw as (Hmp & _).
  split; [by rewrite Hfile|]. split; [|split].
  - intros line Hl. apply Hstd, Hout. rewrite Ho. apply elem_of_app. left.
    destruct found; simpl in *; [by apply elem_of_nil in Hl|].
    apply elem_of_app. by right.
  - apply Hstd, Hout. rewrite Ho. apply elem_of_app. right. by left.
  - apply Hsv. rewrite Hsd. apply elem_of_app. right. by left.
Qed.

Lemma loop_saved_paths devs upd w r wf p m :
  for_devices' devs upd w = (r, wf) → (p, m) ∈ saved wf →
  (p, m) ∈ saved w ∨ ∃ d, d ∈ devs ∧ p = manifest_path_of d.
Proof.
  revert upd w. induction devs as [|d devs IH]; intros upd w.
  - intros [= <- <-]. by left.
  - rewrite for_devices_cons.
    destruct (device_body' d w) as [rd wd] eqn:Hb.
    pose proof (device_body_outcome _ _ _ _ Hb) as Hout.
    destruct Hout as [e wd Hfd Hsd _|m0 found m' wd H1 H2 Hw Hout Hsd].
    + intros [= <- <-]. rewrite Hsd. by left.
    + intros Hrun Hin. destruct (IH _ _ Hrun Hin) as [Hin'|(d' & Hd' & ->)].
      * rewrite Hsd in Hin'.
        apply elem_of_app in Hin' as [?|[= -> ->]%list_elem_of_singleton];
          [by left|right].
        exists d. split; [by left|done].
      * right. exists d'. split; [by right|done].
Qed.

(** * The claims of the specification *)

(** C6.  When no device directory is found under any of the three trees,
    the program prints the nothing-to-do line, leaves every file as it
    was, saves nothing, and ends with exit status 0. *)
Theorem no_devices_nothing_to_do t :
  discover_devices t = Ok ∅ →
  run' t = (Ok (), World t [nothing_line] []) ∧ exit_code (run' t).1 = 0%Z.
Proof.
  intros Hd.
  assert (run' t = (Ok (), World t [nothing_line] [])) as Hrun.
  { unfold run. rewrite main_eq. simpl files. by rewrite Hd. }
  by rewrite Hrun.
Qed.

(** C3.  A second run on the tree the first run left writes the same
    bytes again: the files after the second run are the files after the
    first, and the two runs end alike.  The assumption is on the JSON
    library: the text of each manifest the first run saved reads back as
    the dictionary that was saved. *)
Theorem run_twice_identical t :
  (∀ p m, (p, m) ∈ saved (run' t).2 → reads_back json_loads json_dumps m) →
  files (run' (files (run' t).2)).2 = files (run' t).2 ∧
  same_status (run' (files (run' t).2)).1 (run' t).1.
Proof. apply run_twice. Qed.

(** C8.  When the body raises for a device ([e] is any exception: a
    manifest that is not JSON, a read or a write that fails), the run
    ends with that exception and exit status 1; nothing is rolled back:
    the files are those left by the devices before it, whose manifests
    are on disk as saved, and the manifests of the devices after it are
    as they were.  An existing manifest that [json.load] refuses makes
    the body raise [JSONDecodeError]. *)
Theorem error_aborts_run t devices devs1 d devs2 upd1 w1 e :
  discover_devices t = Ok devices →
  sorted devices = devs1 ++ d :: devs2 →
  for_devices' devs1 [] (World t [] []) = (Ok upd1, w1) →
  (device_body' d w1).1 = Raise e →
  (run' t).1 = Raise e ∧ exit_code (run' t).1 = 1%Z ∧
  files (run' t).2 = files w1 ∧
  (∀ d', d' ∈ devs1 →
     ∃ m, (manifest_path_of d', m) ∈ saved w1 ∧
          files (run' t).2 !! manifest_path_of d' =
            Some (File (manifest_bytes json_dumps m))) ∧
  (∀ d', d' ∈ devs2 →
     files (run' t).2 !! manifest_path_of d' = t !! manifest_path_of d') ∧
  (∀ data, files w1 !! manifest_path_of d = Some (File data) →
           json_loads (string_of_list_byte data) = None → e = JSONDecodeError).
Proof.
  intros Hd Hsorted Hloop He.
  pose proof (sorted_NoDup devices) as Hnd. rewrite Hsorted in Hnd.
  apply NoDup_app in Hnd as (Hnd1 & Hdisj & Hnd2).
  assert (devices ≠ ∅) as Hne.
  { intros ->. assert (d ∈ sorted ∅) as Hin%sorted_elem.
    { rewrite Hsorted. apply elem_of_app. right. by left. }
    by apply not_elem_of_empty in Hin. }
  destruct (device_body' d w1) as [r wd] eqn:Hb. simpl in He. subst r.
  pose proof (device_body_outcome _ _ _ _ Hb) as Hout.
  inversion Hout as [e' wd' Hfd Hsd _|]; subst.
  assert (run' t = (Raise e, wd)) as Hrun.
  { unfold run. rewrite main_eq. simpl files. rewrite Hd, decide_False by done.
    by rewrite Hsorted, for_devices_app, Hloop, for_devices_cons, Hb. }
  rewrite Hrun. simpl. repeat split; [done|..].
  - intros d' Hd'.
    destruct (loop_reaches _ Hnd1 _ _ _ _ Hloop d' Hd')
      as (wa & wa' & Hba & _ & _ & Hsv & _).
    apply device_body_outcome in Hba.
    inversion Hba as [|m found m' wb _ _ _ _ Hsa]; subst.
    exists m'. assert ((manifest_path_of d', m') ∈ saved w1) as Hin.
    { apply Hsv. rewrite Hsa. apply elem_of_app. right. by left. }
    split; [done|]. rewrite Hfd.
    apply (loop_saved _ Hnd1 _ _ _ _ Hloop); [|done].
    intros p m0 Hin0. by apply elem_of_nil in Hin0.
  - intros d' Hd'. rewrite Hfd.
    destruct (for_devices_footprint _ _ _ _ _ Hloop) as (_ & _ & Hother & _).
    apply Hother; [done|]. intros d'' Hd'' Heq%manifest_path_inj. subst d''.
    apply (Hdisj d' Hd''). by right.
  - intros data Hfile Hbad. rewrite device_body_eq in Hb.
    unfold stage1, load_manifest, path_exists, read_bytes in Hb.
    rewrite Hfile, bind_Ok, Hbad in Hb. by injection Hb as <- _.
Qed.

Lemma latest_version_dir_exists t d r :
  latest_version_dir t d = Ok r → path_exists t d = true.
Proof.
  unfold latest_version_dir, iterdir, path_exists.
  by destruct (t !! d) as [[b|names]|].
Qed.

Lemma defaults_get device m :
  dict_get (defaults device m) "$schema" =
    Some (default (JStr schema_url) (dict_get m "$schema")) ∧
  dict_get (defaults device m) "name" =
    Some (default (JStr device) (dict_get m "name")) ∧
  dict_get (defaults device m) "chip" =
    Some (default (JStr "esp32") (dict_get m "chip")).
Proof.
  unfold defaults. repeat split.
  - rewrite !setdefault_get_ne by done. rewrite setdefault_get_eq.
    by destruct (dict_get m "$schema").
  - rewrite !setdefault_get_ne by done. rewrite setdefault_get_eq.
    rewrite setdefault_get_ne by done. by destruct (dict_get m "name").
  - rewrite setdefault_get_eq. rewrite !setdefault_get_ne by done.
    by destruct (dict_get m "chip").
Qed.

End Run.

(** * Manifests of runs that need not complete *)

Section Written.
Variable json_loads : string → option json.
Variable json_dumps : json → string.

Abbreviation for_devices' := (for_devices json_loads json_dumps).
Abbreviation device_body' := (device_body json_loads json_dumps).
Abbreviation run' := (run json_loads json_dumps).

(** ** A manifest that a loop saved *)

Lemma loop_saved_entry devs :
  NoDup devs →
  ∀ upd w r wf p m',
    for_devices' devs upd w = (r, wf) →
    (p, m') ∈ saved wf →
    (p, m') ∈ saved w ∨
    ∃ d wd wd',
      d ∈ devs ∧ p = manifest_path_of d ∧
      device_body' d wd = (Ok (manifest_name d), wd') ∧
      saved wd' = saved wd ++ [(manifest_path_of d, m')] ∧
      (∀ q, reads d q → tight (files w) (files wd) q) ∧
      (∀ line, line ∈ stdout wd' → line ∈ stdout wf) ∧
      files wf !! manifest_path_of d = files wd' !! manifest_path_of d.
Proof.
  induction devs as [|d1 devs IH]; intros Hnd upd w r wf p m' Hrun Hin.
  - injection Hrun as <- <-. by left.
  - apply NoDup_cons in Hnd as [Hnin Hnd]. rewrite for_devices_cons in Hrun.
    destruct (device_body' d1 w) as [[name|e] w1] eqn:Hb.
    + pose proof (device_body_outcome _ _ _ _ _ _ Hb) as Hout.
      destruct (for_devices_footprint _ _ _ _ _ _ _ Hrun)
        as (_ & _ & Hother & [out Hstd]).
      destruct (IH Hnd _ _ _ _ _ _ Hrun Hin)
        as [Hin1|(d & wd & wd' & Hd & -> & Hbd & Hsv & Ht & Hl & Hf)].
      * inversion Hout as [|m found m1 w1' H1 H2 Hw Ho Hsd]; subst.
        rewrite Hsd in Hin1.
        apply elem_of_app in Hin1 as [?|[= -> ->]%list_elem_of_singleton];
          [by left|].
        right. exists d1, w, w1. split; [by left|]. do 4 (split; [done|]). split.
        -- intros line Hline. rewrite Hstd. apply elem_of_app. by left.
        -- apply Hother; [done|]. intros d' Hd' Heq%manifest_path_inj. by subst.
      * right. exists d, wd, wd'. split; [by right|]. do 3 (split; [done|]).
        split; [|by split].
        intros q Hq. unfold tight. rewrite <- (Ht q Hq).
        symmetry. eapply body_outcome_other; [done| |].
        -- destruct Hq as [->|(r0 & rest & ->)]; done.
        -- intros ->.
           destruct Hq as [Heq%manifest_path_inj|(r0 & rest & [= <- <- <-])].
           ++ by subst.
           ++ inversion Hout as [|m found m1 w1' _ _ Hw _ _]; subst.
              apply write_manifest_ok in Hw as (Hmp & _).
              apply (body_ok_fw_dir _ _ _ _ _ _ (manifest_bytes json_dumps m1) Hbd).
              rewrite <- Hmp. symmetry. apply Ht. right. by exists "firmware", [].
    + injection Hrun as <- <-. apply device_body_outcome in Hb.
      inversion Hb as [e' w1' _ Hsd _|]; subst. left. by rewrite <- Hsd.
Qed.

(** A path at which a loop saved nothing holds what it held. *)
Lemma loop_unsaved devs :
  ∀ upd w r wf q,
    for_devices' devs upd w = (r, wf) →
    q ≠ firmware_root → q ∉ (saved wf).*1 →
    files wf !! q = files w !! q.
Proof.
  induction devs as [|d devs IH]; intros upd w r wf q Hrun Hq Hnin.
  - by injection Hrun as <- <-.
  - rewrite for_devices_cons in Hrun.
    destruct (device_body' d w) as [[name|e] w1] eqn:Hb;
      apply device_body_outcome in Hb.
    + destruct (for_devices_footprint _ _ _ _ _ _ _ Hrun) as (_ & [sv Hsv] & _).
      rewrite (IH _ _ _ _ q Hrun Hq Hnin).
      eapply body_outcome_other; [exact Hb|done|].
      intros ->. apply Hnin. rewrite Hsv, fmap_app. apply elem_of_app. left.
      inversion Hb as [|m found m1 w1' _ _ _ _ Hsd]; subst.
      rewrite Hsd, fmap_app. apply elem_of_app. right. by left.
    + injection Hrun as <- <-. inversion Hb as [e' w1' Hf _ _|]; subst.
      by rewrite Hf.
Qed.

(** ** A manifest that a run saved

    The run may have raised later: what was saved before stays. *)
Lemma run_to_loop t devices :
  discover_devices t = Ok devices → devices ≠ ∅ →
  ∃ r wf,
    for_devices' (sorted devices) [] (World t [] []) = (r, wf) ∧
    files (run' t).2 = files wf ∧ saved (run' t).2 = saved wf ∧
    same_status (run' t).1 r ∧
    (∀ line, line ∈ stdout wf → line ∈ stdout (run' t).2).
Proof.
  intros Hd Hne. unfold run. rewrite main_eq. cbn [files]. rewrite Hd.
  rewrite decide_False by done.
  destruct (for_devices' (sorted devices) [] (World t [] [])) as [[updated|e] wf].
  - exists (Ok updated), wf. do 4 (split; [done|]).
    intros line Hl. cbn. apply elem_of_app. by left.
  - by exists (Raise e), wf.
Qed.

Lemma run_saved t devices p m' :
  discover_devices t = Ok devices → (p, m') ∈ saved (run' t).2 →
  ∃ d m found,
    d ∈ devices ∧ p = manifest_path_of d ∧
    stage1 json_loads t d = Ok (m, found) ∧ rest_part t d m = Ok m' ∧
    files (run' t).2 !! manifest_path_of d =
      Some (File (manifest_bytes json_dumps m')) ∧
    (∀ line, line ∈ noted d found [] → line ∈ stdout (run' t).2) ∧
    ("Updated " +:+ manifest_name d) ∈ stdout (run' t).2.
Proof.
  intros Hd Hin.
  destruct (decide (devices = ∅)) as [->|Hne].
  { unfold run in Hin. rewrite main_eq in Hin. cbn [files] in Hin.
    rewrite Hd in Hin. by apply elem_of_nil in Hin. }
  destruct (run_to_loop t devices Hd Hne) as (r & wf & Hloop & Hf & Hs & _ & Hstd).
  rewrite Hs in Hin. rewrite Hf.
  destruct (loop_saved_entry _ (sorted_NoDup devices) _ _ _ _ _ _ Hloop Hin)
    as [Hnil|(d & wd & wd' & Hd' & -> & Hb & Hsv & Ht & Hout & Hfile)].
  { by apply elem_of_nil in Hnil. }
  apply device_body_outcome in Hb.
  inversion Hb as [|m found m1 w' H1 H2 Hw Ho Hsd]; subst.
  rewrite Hsd in Hsv. apply app_inv_head in Hsv. injection Hsv as ->.
  exists d, m, found. cbn [files] in Ht.
  split; [by apply sorted_elem|]. split; [done|].
  rewrite (stage1_tight json_loads t (files wd) d) by done. split; [done|].
  rewrite (rest_part_tight t (files wd) d).
  2:{ intros r0 rest. apply Ht. right. eauto. }
  split; [done|]. apply write_manifest_ok in Hw as (Hmp & _).
  split; [by rewrite Hfile|]. split.
  - intros line Hl. apply Hstd, Hout. rewrite Ho. apply elem_of_app. left.
    destruct found; simpl in *; [by apply elem_of_nil in Hl|].
    apply elem_of_app. by right.
  - apply Hstd, Hout. rewrite Ho. apply elem_of_app. right. by left.
Qed.

(** At a path at which a run saved nothing, the file is as it was. *)
Lemma run_unsaved t q :
  q ≠ firmware_root → q ∉ (saved (run' t).2).*1 →
  files (run' t).2 !! q = t !! q.
Proof.
  intros Hq. unfold run. rewrite main_eq. cbn [files].
  destruct (discover_devices t) as [devices|e]; [|done].
  destruct (decide (devices = ∅)); [done|].
  destruct (for_devices' (sorted devices) [] (World t [] [])) as [r wf] eqn:Hloop.
  assert (q ∉ (saved wf).*1 → files wf !! q = t !! q) as H.
  { intros Hnin. by rewrite (loop_unsaved _ _ _ _ _ q Hloop Hq Hnin). }
  by destruct r.
Qed.

(** ** Two runs on trees of the same shape save at the same paths *)

Lemma for_devices_lockstep_saved (d0 : string) devs :
  NoDup devs →
  ∀ upd w w2,
    (∀ q, loose (files w) (files w2) q) →
    tight (files w) (files w2) firmware_root →
    (∀ d, d ∈ devs → tight (files w) (files w2) (manifest_path_of d)) →
    (∀ d, d ∈ devs → d ≠ d0 → deep_tight (files w) (files w2) d) →
    ∃ sv sv2,
      saved (for_devices' devs upd w).2 = saved w ++ sv ∧
      saved (for_devices' devs upd w2).2 = saved w2 ++ sv2 ∧
      sv.*1 = sv2.*1.
Proof.
  induction devs as [|d devs IH]; intros Hnd upd w w2 Hloose Hroot Hmps Hdeep.
  - exists [], []. by rewrite !app_nil_r.
  - apply NoDup_cons in Hnd as [Hnin Hnd]. rewrite !for_devices_cons.
    destruct (device_body_lockstep json_loads json_dumps d w w2 Hloose)
      as (Hr & Hl & Ht & Hm); [apply Hmps; by left|done|].
    destruct (device_body' d w) as [r wd] eqn:Hb;
      destruct (device_body' d w2) as [r2 wd2] eqn:Hb2.
    simpl in Hr, Hl, Ht, Hm. subst r2.
    apply device_body_outcome in Hb, Hb2.
    destruct r as [name|e].
    + inversion Hb as [|m found m1 w1' _ _ _ _ Hsd]; subst.
      inversion Hb2 as [|m2 found2 m3 w2' _ _ _ _ Hsd2]; subst.
      destruct (IH Hnd (upd ++ [manifest_name d]) wd wd2) as (sv & sv2 & H1 & H2 & H3);
        try done.
      * by apply Ht.
      * intros d' Hd'. apply Ht.
        -- intros Heq%manifest_path_inj. by subst.
        -- apply Hmps. by right.
      * intros d' Hd' Hne r0 x rest. apply Ht; [done|].
        apply Hdeep; [by right|done].
      * exists ((manifest_path_of d, m1) :: sv), ((manifest_path_of d, m3) :: sv2).
        rewrite H1, H2, Hsd, Hsd2, <- !app_assoc. cbn. by rewrite H3.
    + inversion Hb as [e' w1' _ Hsd _|]; subst.
      inversion Hb2 as [e' w2' _ Hsd2 _|]; subst.
      exists [], []. cbn. by rewrite !app_nil_r.
Qed.

(** ** The manifest of the device whose file changed *)

Lemma written_alike t root d version file b1 b2 m f m1 n f2 m2 :
  t !! [root; d; version; file] = Some (File b1) →
  stage1 json_loads t d = Ok (m, f) → rest_part t d m = Ok m1 →
  stage1 json_loads (<[[root; d; version; file] := File b2]> t) d = Ok (n, f2) →
  rest_part (<[[root; d; version; file] := File b2]> t) d n = Ok m2 →
  digest_only root m1 m2.
Proof.
  intros Hb. set (pb := [root; d; version; file]) in *.
  set (t2 := <[pb := File b2]> t).
  assert (∀ q, q ≠ pb → tight t t2 q) as Htight.
  { intros q Hq. unfold tight, t2. by rewrite lookup_insert_ne. }
  assert (∀ q, loose t t2 q) as Hloose.
  { intros q. destruct (decide (q = pb)) as [->|Hq].
    - right. exists b1, b2. split; [done|]. unfold t2. by rewrite lookup_insert_eq.
    - left. by apply Htight. }
  intros H1 H2 H3 H4.
  destruct (stages_merge json_loads t d m f m1 H1 H2)
    as (m0 & us1 & us2 & Hload & Hfw & Hrest & -> & -> & _).
  destruct (stages_merge json_loads t2 d n f2 m2 H3 H4)
    as (m0' & us1' & us2' & Hload' & Hfw' & Hrest' & -> & -> & _).
  rewrite <- (load_manifest_tight json_loads t t2) in Hload' by by apply Htight.
  assert (m0' = m0) as -> by congruence.
  pose proof (fw_part_alike t t2 d (λ r rest, Hloose _) root) as Ha.
  rewrite Hfw, Hfw' in Ha. destruct Ha as [_ Ha].
  { intros Hne n0. apply Htight. intros [= ? _ _]. by subst. }
  pose proof (rest_part_alike t t2 d (λ r rest, Hloose _) root) as Hr.
  rewrite Hrest, Hrest' in Hr.
  apply apply_updates_alike.
  - apply Hr; [|by apply Htight]. intros Hne n0. apply Htight. intros [= ? _ _]. by subst.
  - apply apply_updates_alike; [done|apply digest_only_refl].
Qed.

End Written.

(** * The claims on the manifests written *)

Section Manifests.
Variable json_loads : string → option json.
Variable json_dumps : json → string.

Abbreviation for_devices' := (for_devices json_loads json_dumps).
Abbreviation device_body' := (device_body json_loads json_dumps).
Abbreviation run' := (run json_loads json_dumps).

Lemma run_raised t e :
  discover_devices t = Raise e → run' t = (Raise e, World t [] []).
Proof. intros H. unfold run. rewrite main_eq. cbn [files]. by rewrite H. Qed.

(** C7.  Two runs on trees that differ in the content of one file, two
    levels below the directory of device [d] in one of the trees (as
    [firmware/d/v1.0.0/firmware.bin]).  The runs end alike, and they leave
    the same node at every other path except the manifest of [d]; so the
    manifest of every other device is the same, byte for byte.  They save
    manifests at the same paths.  When they save one for [d], the two
    have the same keys in the same order and the same values, except
    that the record under the key of that tree ([firmware], [spiffs]) may
    differ in [sha256] and [size]: its [url] is the same.  When they save
    none for [d], its manifest file is the same after both. *)
Theorem other_manifests_unaffected t root d version file b1 b2 :
  t !! [root; d; version; file] = Some (File b1) →
  (run' (<[[root; d; version; file] := File b2]> t)).1 = (run' t).1 ∧
  (∀ q, q ≠ [root; d; version; file] → q ≠ manifest_path_of d →
        files (run' (<[[root; d; version; file] := File b2]> t)).2 !! q =
        files (run' t).2 !! q) ∧
  (∀ d', d' ≠ d →
         files (run' (<[[root; d; version; file] := File b2]> t)).2
           !! manifest_path_of d' =
         files (run' t).2 !! manifest_path_of d') ∧
  (saved (run' (<[[root; d; version; file] := File b2]> t)).2).*1 =
    (saved (run' t).2).*1 ∧
  (∀ m1 m2,
     (manifest_path_of d, m1) ∈ saved (run' t).2 →
     (manifest_path_of d, m2) ∈
       saved (run' (<[[root; d; version; file] := File b2]> t)).2 →
     files (run' t).2 !! manifest_path_of d =
       Some (File (list_byte_of_string (json_dumps (JDict m1) +:+ newline))) ∧
     files (run' (<[[root; d; version; file] := File b2]> t)).2 !! manifest_path_of d =
       Some (File (list_byte_of_string (json_dumps (JDict m2) +:+ newline))) ∧
     digest_only root m1 m2) ∧
  (manifest_path_of d ∉ (saved (run' t).2).*1 →
   files (run' (<[[root; d; version; file] := File b2]> t)).2 !! manifest_path_of d =
   files (run' t).2 !! manifest_path_of d).
Proof.
  intros Hb. set (pb := [root; d; version; file]) in *.
  set (t2 := <[pb := File b2]> t).
  assert (∀ q, q ≠ pb → tight t t2 q) as Htight.
  { intros q Hq. unfold tight, t2. by rewrite lookup_insert_ne. }
  assert (∀ q, loose t t2 q) as Hloose.
  { intros q. destruct (decide (q = pb)) as [->|Hq].
    - right. exists b1, b2. split; [done|]. unfold t2. by rewrite lookup_insert_eq.
    - left. by apply Htight. }
  pose proof (discover_devices_loose t t2 Hloose) as Hdev.
  assert ((run' t2).1 = (run' t).1 ∧
          (∀ q, q ≠ pb → q ≠ manifest_path_of d →
                files (run' t2).2 !! q = files (run' t).2 !! q) ∧
          (saved (run' t2).2).*1 = (saved (run' t).2).*1) as (Hst & Hq & Hsv).
  { unfold run. rewrite !main_eq. simpl files. rewrite <- Hdev.
    destruct (discover_devices t) as [devices|e];
      [|by split; [|split; [intros; symmetry; apply Htight|]]].
    destruct (decide (devices = ∅)).
    { split; [done|]. split; [|done]. intros q ??. simpl. symmetry. by apply Htight. }
    destruct (for_devices_lockstep json_loads json_dumps d (sorted devices)
                (sorted_NoDup _) [] (World t [] []) (World t2 [] []))
      as [Hr Ht]; simpl; try done.
    - by apply Htight.
    - intros d' _. by apply Htight.
    - intros d' _ Hne r x rest. apply Htight. intros [= _ -> _ _]. done.
    - destruct (for_devices_lockstep_saved json_loads json_dumps d (sorted devices)
                  (sorted_NoDup _) [] (World t [] []) (World t2 [] []))
        as (sv & sv2 & Hs1 & Hs2 & Hs3); simpl; try done.
      { by apply Htight. }
      { intros d' _. by apply Htight. }
      { intros d' _ Hne r x rest. apply Htight. intros [= _ -> _ _]. done. }
      destruct (for_devices' (sorted devices) [] (World t [] [])) as [r w1].
      destruct (for_devices' (sorted devices) [] (World t2 [] [])) as [r2 w2].
      simpl in Hr, Ht, Hs1, Hs2. subst r2.
      assert (∀ q, q ≠ pb → q ≠ manifest_path_of d → files w2 !! q = files w1 !! q)
        as Hfin.
      { intros q Hq1 Hq2. symmetry. apply Ht; [done|]. by apply Htight. }
      assert ((saved w2).*1 = (saved w1).*1) as Hsaved by by rewrite Hs1, Hs2.
      destruct r as [updated|e]; by repeat split. }
  split; [done|]. split; [done|]. split; [|split; [done|split]].
  - intros d' Hne. apply Hq; [done|]. intros Heq%manifest_path_inj. done.
  - intros m1 m2 Hin1 Hin2.
    destruct (discover_devices t) as [devices|e] eqn:Hd.
    2:{ rewrite (run_raised t e Hd) in Hin1. by apply elem_of_nil in Hin1. }
    destruct (run_saved json_loads json_dumps t devices _ _ Hd Hin1)
      as (d1 & m & f & _ & <-%manifest_path_inj & H1 & H2 & Hf1 & _).
    destruct (run_saved json_loads json_dumps t2 devices _ _ (eq_sym Hdev) Hin2)
      as (d2 & n & f2 & _ & <-%manifest_path_inj & H3 & H4 & Hf2 & _).
    split; [exact Hf1|]. split; [exact Hf2|].
    by eapply (written_alike json_loads t root d version file b1 b2).
  - intros Hnin.
    rewrite (run_unsaved json_loads json_dumps t) by done.
    rewrite (run_unsaved json_loads json_dumps t2);
      [|done|by rewrite Hsv].
    symmetry. by apply Htight.
Qed.

(** C10.  Every manifest that is saved is saved at
    [firmware/<device>.manifest.json], for a device found in any of the
    three trees, and the file at that path holds it when the run ends.
    Every device has a manifest saved so, unless the run raises.  So,
    when devices are found and [firmware/] does not exist, the run raises
    an [OSError] at the first device, before any manifest is written;
    when the spiffs and config steps of that device do not raise, the
    write does, with [FileNotFoundError]. *)
Theorem manifest_beside_firmware t devices :
  discover_devices t = Ok devices →
  (∀ p m, (p, m) ∈ saved (run' t).2 →
     ∃ d, d ∈ devices ∧ p = ["firmware"; d +:+ ".manifest.json"] ∧
          files (run' t).2 !! p =
            Some (File (list_byte_of_string (json_dumps (JDict m) +:+ newline)))) ∧
  (∀ d, d ∈ devices →
     (∃ m, (["firmware"; d +:+ ".manifest.json"], m) ∈ saved (run' t).2) ∨
     (∃ e, (run' t).1 = Raise e)) ∧
  (devices ≠ ∅ → t !! firmware_root = None →
   (∀ name, t !! child firmware_root name = None) →
   ∃ e, (run' t).1 = Raise e ∧ is_os_error e = true ∧
        files (run' t).2 = t ∧ saved (run' t).2 = [] ∧
        ∀ d m, head (sorted devices) = Some d →
               rest_part t d (defaults d []) = Ok m → e = FileNotFoundError).
Proof.
  intros Hd. split; [|split].
  - intros p m Hin.
    destruct (run_saved json_loads json_dumps t devices p m Hd Hin)
      as (d & m1 & f & Hdev & -> & _ & _ & Hfile & _).
    by exists d.
  - intros d Hin. destruct (run' t).1 as [[]|e] eqn:Hr; [left|right; by exists e].
    destruct (run_device json_loads json_dumps t devices d Hd Hin Hr)
      as (m & found & m' & _ & _ & _ & _ & _ & Hs).
    by exists m'.
  - intros Hne Hroot Hchild.
    destruct (sorted devices) as [|d rest] eqn:Hs.
    { exfalso. apply Hne. apply set_eq. intros x.
      rewrite <- sorted_elem, Hs. set_solver. }
    assert (stage1 json_loads t d = Ok (defaults d [], false)) as H1.
    { unfold stage1, load_manifest, path_exists, fw_part, path_exists.
      unfold manifest_path_of. by rewrite !Hchild. }
    assert (∃ e, device_body' d (World t [] []) =
                   (Raise e, World t [note_line d] []) ∧ is_os_error e = true ∧
                 ∀ m, rest_part t d (defaults d []) = Ok m → e = FileNotFoundError)
      as (e & Hb & Hos & Hfnf).
    { rewrite device_body_eq. simpl files. rewrite H1. cbv zeta.
      destruct (rest_part t d (defaults d [])) as [m'|e] eqn:H2.
      - rewrite write_manifest_unfold. unfold manifest_path_of.
        rewrite Hchild, Hroot. exists FileNotFoundError. by repeat split.
      - exists e. repeat split; [by eapply rest_part_os|done]. }
    exists e. unfold run. rewrite main_eq. simpl files.
    rewrite Hd, decide_False, Hs, for_devices_cons, Hb by done. simpl.
    repeat split; [done|]. intros d' m [= <-]. apply Hfnf.
Qed.

(** C1 (amended).  A device the run reaches, the devices before it
    having been served, and whose manifest loads as an object: when no
    firmware binary is found for it in the tree as it then is, the note is
    printed, whatever happens later in the run; this when the firmware
    directory of the device has no directory whose name matches, or has
    no [firmware.bin] in the latest one, and also when the firmware
    directory does not exist.  The keys [firmware] and [version] stay
    untouched: no manifest is saved for the device and its file is as it
    was, or the manifest saved has the two keys as loaded and is in the
    file when the run ends.  The tree as it then is differs from the
    tree of the run at most in [firmware/] and in the manifests of the
    devices before. *)
Theorem firmware_missing_note t devices devs1 device devs2 upd1 w1 m0 :
  discover_devices t = Ok devices →
  sorted devices = devs1 ++ device :: devs2 →
  for_devices' devs1 [] (World t [] []) = (Ok upd1, w1) →
  load_manifest json_loads (files w1) (manifest_path_of device) = Ok (JDict m0) →
  no_firmware_binary (files w1) device →
  note_line device ∈ stdout (run' t).2 ∧
  (((∀ m', (manifest_path_of device, m') ∉ saved (run' t).2) ∧
    files (run' t).2 !! manifest_path_of device =
      files w1 !! manifest_path_of device) ∨
   (∃ m',
      (manifest_path_of device, m') ∈ saved (run' t).2 ∧
      files (run' t).2 !! manifest_path_of device =
        Some (File (list_byte_of_string (json_dumps (JDict m') +:+ newline))) ∧
      dict_get m' "firmware" = dict_get m0 "firmware" ∧
      dict_get m' "version" = dict_get m0 "version")) ∧
  (∀ q, q ≠ firmware_root → (∀ d, d ∈ devs1 → q ≠ manifest_path_of d) →
        files w1 !! q = t !! q).
Proof.
  intros Hd Hsorted Hloop Hload Hno.
  pose proof (sorted_NoDup devices) as Hnd. rewrite Hsorted in Hnd.
  apply NoDup_app in Hnd as (Hnd1 & Hdisj & Hnd2).
  apply NoDup_cons in Hnd2 as [Hnin2 Hnd2].
  assert (devices ≠ ∅) as Hne.
  { intros ->. assert (device ∈ sorted ∅) as Hin%sorted_elem.
    { rewrite Hsorted. apply elem_of_app. right. by left. }
    by apply not_elem_of_empty in Hin. }
  destruct (for_devices_footprint _ _ _ _ _ _ _ Hloop) as (_ & _ & Hfoot & _).
  split; [|split; [|exact Hfoot]];
    destruct (run_to_loop json_loads json_dumps t devices Hd Hne)
      as (r & wf & Hrun & Hf & Hs & _ & Hstd);
    rewrite Hsorted, for_devices_app, Hloop, for_devices_cons, device_body_eq in Hrun;
    unfold stage1 in Hrun; rewrite Hload, bind_Ok in Hrun; cbn [as_dict] in Hrun;
    rewrite bind_Ok, (fw_part_missing _ _ _ Hno) in Hrun; cbv zeta in Hrun;
    cbn [noted] in Hrun.
  - apply Hstd.
    destruct (rest_part (files w1) device (defaults device m0)) as [m'|e];
      [|injection Hrun as <- <-; cbn; apply elem_of_app; right; by left].
    destruct (write_bytes (files w1) (manifest_path_of device)
                (manifest_bytes json_dumps m')) as [t'|e];
      [|injection Hrun as <- <-; cbn; apply elem_of_app; right; by left].
    destruct (for_devices_footprint _ _ _ _ _ _ _ Hrun) as (_ & _ & _ & [out ->]).
    cbn. apply elem_of_app. left. apply elem_of_app. left.
    apply elem_of_app. right. by left.
  - rewrite Hf, Hs.
    assert (∀ m', (manifest_path_of device, m') ∉ saved w1) as Hw1.
    { intros m' Hin.
      destruct (loop_saved_paths _ _ _ _ _ _ _ _ _ Hloop Hin)
        as [?%elem_of_nil|(d' & Hd' & <-%manifest_path_inj)]; [done|].
      apply (Hdisj device Hd'). by left. }
    destruct (rest_part (files w1) device (defaults device m0)) as [m'|e] eqn:H2;
      [|injection Hrun as <- <-; by left].
    destruct (write_bytes (files w1) (manifest_path_of device)
                (manifest_bytes json_dumps m')) as [t'|e] eqn:Hw;
      [|injection Hrun as <- <-; by left].
    right. exists m'.
    destruct (for_devices_footprint _ _ _ _ _ _ _ Hrun)
      as (_ & [sv Hsv] & Hother & _).
    apply write_manifest_ok in Hw as (Hmp & _).
    split; [|split].
    + rewrite Hsv. cbn. apply elem_of_app. left. apply elem_of_app. right. by left.
    + rewrite Hother; [done|done|].
      intros d' Hd' Heq%manifest_path_inj. by subst.
    + rewrite !(rest_part_frame _ _ _ _ _ H2) by done.
      by rewrite !defaults_get_other.
Qed.

(** C4.  A device that has a manifest file before the run.  The
    manifest [m'] the run saves for it is the manifest loaded, merged: a
    key other than the seven keeps its value; [$schema], [name] and
    [chip] keep their value when present and get the default when absent;
    [version] and [firmware], [spiffs], [config] hold the fresh artifact
    data when a binary, an image, a configuration is found.  When the run
    ends, the file holds the text of [m'] and a newline, which
    [load_manifest] reads as [m'] when the library reads back what it
    wrote.  The run saves a manifest for the device unless it raises. *)
Theorem read_merge_write t devices device :
  discover_devices t = Ok devices → device ∈ devices →
  path_exists t (manifest_path_of device) = true →
  (∀ m', (manifest_path_of device, m') ∈ saved (run' t).2 →
     ∃ data m0,
       t !! manifest_path_of device = Some (File data) ∧
       json_loads (string_of_list_byte data) = Some (JDict m0) ∧
       files (run' t).2 !! manifest_path_of device =
         Some (File (list_byte_of_string (json_dumps (JDict m') +:+ newline))) ∧
       (reads_back json_loads json_dumps m' →
        load_manifest json_loads (files (run' t).2) (manifest_path_of device) =
          Ok (JDict m')) ∧
       (∀ k, k ∉ ["$schema"; "name"; "chip"; "version"; "firmware"; "spiffs"; "config"] →
             dict_get m' k = dict_get m0 k) ∧
       dict_get m' "$schema" = Some (default (JStr schema_url) (dict_get m0 "$schema")) ∧
       dict_get m' "name" = Some (default (JStr device) (dict_get m0 "name")) ∧
       dict_get m' "chip" = Some (default (JStr "esp32") (dict_get m0 "chip")) ∧
       (∀ version vdir data,
          latest_version_dir t (child firmware_root device) = Ok (Some (version, vdir)) →
          t !! child vdir "firmware.bin" = Some (File data) →
          dict_get m' "version" = Some (JStr version) ∧
          dict_get m' "firmware" =
            Some (binary_record (child vdir "firmware.bin") data)) ∧
       (∀ version vdir data,
          latest_version_dir t (child spiffs_root device) = Ok (Some (version, vdir)) →
          t !! child vdir "spiffs.bin" = Some (File data) →
          dict_get m' "spiffs" = Some (binary_record (child vdir "spiffs.bin") data)) ∧
       (∀ data,
          path_exists t (child config_root device) = true →
          t !! child (child config_root device) "config.yaml" = Some (File data) →
          dict_get m' "config" =
            Some (config_record (child (child config_root device) "config.yaml") data))) ∧
  ((∃ m', (manifest_path_of device, m') ∈ saved (run' t).2) ∨
   (∃ e, (run' t).1 = Raise e)).
Proof.
  intros Hd Hin Hex. split.
  2:{ destruct (run' t).1 as [[]|e] eqn:Hr; [left|right; by exists e].
      destruct (run_device json_loads json_dumps t devices device Hd Hin Hr)
        as (m & found & m' & _ & _ & _ & _ & _ & Hs).
      by exists m'. }
  intros m' Hsaved.
  destruct (run_saved json_loads json_dumps t devices _ _ Hd Hsaved)
    as (d1 & m & found & _ & <-%manifest_path_inj & H1 & H2 & Hfile & _).
  unfold stage1, load_manifest in H1. rewrite Hex in H1.
  unfold read_bytes in H1.
  destruct (t !! manifest_path_of device) as [[old|names]|] eqn:Hmp;
    rewrite ?bind_Ok, ?bind_Raise in H1; [|done..].
  destruct (json_loads (string_of_list_byte old)) as [j|] eqn:Hj;
    rewrite ?bind_Ok, ?bind_Raise in H1; [|done].
  destruct j as [| | | | | |m0]; try done. simpl in H1.
  destruct (defaults_get device m0) as (Hs & Hn & Hc).
  exists old, m0. split; [done|]. split; [done|]. split; [done|].
  split; [|split; [|split; [|split; [|split; [|split; [|split]]]]]].
  - intros Hrb. unfold load_manifest, path_exists, read_bytes.
    rewrite Hfile, bind_Ok. by rewrite Hrb.
  - intros k Hk.
    rewrite (rest_part_frame _ _ _ _ _ H2), (fw_part_frame _ _ _ _ _ _ H1),
      defaults_get_other; set_solver.
  - by rewrite (rest_part_frame _ _ _ _ _ H2), (fw_part_frame _ _ _ _ _ _ H1).
  - by rewrite (rest_part_frame _ _ _ _ _ H2), (fw_part_frame _ _ _ _ _ _ H1).
  - by rewrite (rest_part_frame _ _ _ _ _ H2), (fw_part_frame _ _ _ _ _ _ H1).
  - intros version vdir data Hl Hbin. unfold fw_part in H1.
    rewrite (latest_version_dir_exists _ _ _ Hl) in H1.
    rewrite (process_firmware_found _ _ _ _ _ _ _ Hl Hbin) in H1.
    injection H1 as <- <-.
    rewrite !(rest_part_frame _ _ _ _ _ H2) by done.
    rewrite dict_get_set_eq, dict_get_set_ne, dict_get_set_eq by done. done.
  - intros version vdir data Hl Hbin. unfold rest_part in H2.
    rewrite (latest_version_dir_exists _ _ _ Hl) in H2.
    rewrite (process_spiffs_found _ _ _ _ _ _ _ Hl Hbin), bind_Ok in H2.
    destruct (path_exists t (child config_root device)).
    + rewrite (process_config_frame _ _ _ _ _ "spiffs" H2) by done.
      apply dict_get_set_eq.
    + injection H2 as <-. apply dict_get_set_eq.
  - intros data Hcex Hcfg. unfold rest_part in H2.
    destruct (if path_exists t (child spiffs_root device)
              then process_spiffs t m device (child spiffs_root device)
              else Ok m) as [m2|e]; rewrite ?bind_Ok, ?bind_Raise in H2; [|done].
    rewrite Hcex, (process_config_found _ _ _ _ _ Hcfg) in H2.
    injection H2 as <-. apply dict_get_set_eq.
Qed.

End Manifests.

(** * Claims on the functions alone *)

(** C9.  [process_spiffs] leaves the dictionary as it is or stores under
    [spiffs]: every other key, [version] among them, has the value it had,
    whatever version directory the spiffs tree holds. *)
Theorem spiffs_stores_spiffs_only t m dev dir m' :
  process_spiffs t m dev dir = Ok m' →
  (m' = m ∨ ∃ record, m' = dict_set m "spiffs" record) ∧
  (∀ k, k ≠ "spiffs" → dict_get m' k = dict_get m k) ∧
  dict_get m' "version" = dict_get m "version".
Proof.
  intros H. split; [|split].
  - rewrite process_spiffs_updates in H.
    destruct (process_spiffs t [] dev dir) as [us|e] eqn:Hus;
      rewrite ?bind_Ok, ?bind_Raise in H; [|done].
    injection H as <-.
    apply process_spiffs_keys in Hus as [->%keys_nil|[v ->]%keys_one]; [by left|].
    right. by exists v.
  - intros k Hk. by eapply process_spiffs_frame.
  - by eapply process_spiffs_frame.
Qed.

Lemma spiffs_stores_spiffs_only_witness :
  process_spiffs tree_lamp [("version", JStr "10.0.0")] "lamp" ["spiffs"; "lamp"] =
    Ok [("version", JStr "10.0.0");
        ("spiffs", binary_record ["spiffs"; "lamp"; "v11.0.0"; "spiffs.bin"]
                     (bytes_of "image"))] ∧
  dict_get [("version", JStr "10.0.0");
            ("spiffs", binary_record ["spiffs"; "lamp"; "v11.0.0"; "spiffs.bin"]
                         (bytes_of "image"))] "version" = Some (JStr "10.0.0").
Proof.
  assert (process_spiffs tree_lamp [("version", JStr "10.0.0")] "lamp" ["spiffs"; "lamp"] =
            Ok [("version", JStr "10.0.0");
                ("spiffs", binary_record ["spiffs"; "lamp"; "v11.0.0"; "spiffs.bin"]
                             (bytes_of "image"))]) as H
    by (vm_compute; reflexivity).
  split; [exact H|].
  exact (proj2 (proj2 (spiffs_stores_spiffs_only _ _ _ _ _ H))).
Defined.

(** C2, at a directory the claim excludes.  Beside [v1.0.0], a directory
    whose name is [v2.0.0] followed by a newline is not named
    [v<int>.<int>.<int>], and [latest_version_dir] selects it, with the
    version string [2.0.0]: [$] also matches before a final newline. *)
Theorem latest_version_dir_newline :
  ¬ spec_version_name nl_name ∧
  spec_version_name "v1.0.0" ∧
  iterdir tree_newline ["firmware"; "lamp"] = Ok ["v1.0.0"; nl_name] ∧
  latest_version_dir tree_newline ["firmware"; "lamp"] =
    Ok (Some ("2.0.0", ["firmware"; "lamp"; nl_name])).
Proof.
  split; [|split; [|split]].
  - by apply (not_spec_version_name nl_name "2.0.0").
  - by exists "1", "0", "0".
  - vm_compute; reflexivity.
  - vm_compute; reflexivity.
Qed.

(** The other part of C2, on the directories its example names: whatever
    the order of the listing, [v10.0.0] is selected. *)
Lemma latest_version_dir_example :
  latest_version_dir tree_lamp ["firmware"; "lamp"] =
    Ok (Some ("10.0.0", ["firmware"; "lamp"; "v10.0.0"])) ∧
  ∀ t names,
    iterdir t ["firmware"; "lamp"] = Ok names →
    names ≡ₚ ["v1.0.0"; "v1.2.0"; "v2.0.0-nonmatching"; "v10.0.0"] →
    (∀ n, n ∈ names → is_dir t ["firmware"; "lamp"; n] = true) →
    latest_version_dir t ["firmware"; "lamp"] =
      Ok (Some ("10.0.0", ["firmware"; "lamp"; "v10.0.0"])).
Proof.
  split; [vm_compute; reflexivity|].
  intros t names Hit Hperm Hdirs.
  pose proof (latest_version_dir_spec t _ names Hit) as Hs.
  assert ("v10.0.0" ∈ names) as Hin by (rewrite Hperm; set_solver).
  destruct (latest_version_dir t ["firmware"; "lamp"]) as [[[version entry]|]|e];
    [| |done].
  - destruct Hs as [(n & Hn & -> & _ & Hm) Hmax].
    specialize (Hmax "v10.0.0" "10.0.0" Hin (Hdirs _ Hin) eq_refl).
    rewrite Hperm in Hn.
    repeat (apply elem_of_cons in Hn as [->|Hn]); try (by apply elem_of_nil in Hn);
      vm_compute in Hm; try discriminate Hm; injection Hm as <-;
      vm_compute in Hmax; try discriminate Hmax.
    done.
  - specialize (Hs "v10.0.0" Hin). unfold candidate in Hs.
    change (child ["firmware"; "lamp"] "v10.0.0")
      with ["firmware"; "lamp"; "v10.0.0"] in Hs.
    by rewrite (Hdirs _ Hin) in Hs.
Qed.

(** The parts of C5 that hold.  When [process_firmware] finds a binary,
    what it stores is the version string of the selected directory and the
    record of the file in it: the digest of the whole content, in
    sixty-four lower-case hexadecimal digits, and the length of the
    content.  The record of a configuration has the keys [url] and
    [sha256] and no other. *)
Lemma process_firmware_found_inv t m dev dir m' :
  process_firmware t m dev dir = Ok (m', true) →
  ∃ version vdir data,
    latest_version_dir t dir = Ok (Some (version, vdir)) ∧
    t !! child vdir "firmware.bin" = Some (File data) ∧
    dict_get m' "version" = Some (JStr version) ∧
    dict_get m' "firmware" =
      Some (JDict [("url", JStr (url_of (child vdir "firmware.bin")));
                   ("sha256", JStr (SHA256.hex (SHA256.digest data)));
                   ("size", JInt (Z.of_nat (length data)))]) ∧
    String.length (SHA256.hex (SHA256.digest data)) = 64 ∧
    Forall (λ c, is_lower_hex c = true)
      (list_ascii_of_string (SHA256.hex (SHA256.digest data))).
Proof.
  intros H. unfold process_firmware in H.
  destruct (latest_version_dir t dir) as [[[version vdir]|]|e] eqn:Hl;
    rewrite ?bind_Ok, ?bind_Raise in H; [|done..].
  destruct (path_exists t (child vdir "firmware.bin")) eqn:Hex; cbn [negb] in H; [|done].
  destruct (sha256_of t (child vdir "firmware.bin")) as [digest|e] eqn:Hs;
    rewrite ?bind_Ok, ?bind_Raise in H; [|done].
  apply sha256_of_inv in Hs as (data & Hfile & ->).
  rewrite (st_size_content _ _ _ Hfile), bind_Ok in H. injection H as <-.
  exists version, vdir, data. split; [done|]. split; [done|].
  rewrite dict_get_set_eq, dict_get_set_ne, dict_get_set_eq by done.
  split; [done|]. split; [done|]. apply hex_shape.
Qed.

Lemma config_record_keys p data :
  ∃ items, config_record p data = JDict items ∧ items.*1 = ["url"; "sha256"].
Proof. by eexists. Qed.

(** C5, on the same tree.  The manifest written for [lamp] has the
    version [2.0.0] and the digest and size of the file in the directory
    with the newline, not those of [v1.0.0/firmware.bin]; and [2.0.0] is
    not the name of that directory without its [v]. *)
Theorem manifest_version_newline :
  saved (run_c tree_newline).2 =
    [(["firmware"; "lamp.manifest.json"],
      [("$schema", JStr schema_url); ("name", JStr "lamp"); ("chip", JStr "esp32");
       ("version", JStr "2.0.0");
       ("firmware",
        binary_record ["firmware"; "lamp"; nl_name; "firmware.bin"] (bytes_of "new"))])] ∧
  nl_name ≠ "v" +:+ "2.0.0".
Proof. split; [vm_compute; reflexivity|done]. Qed.

(** * The claims on concrete trees *)

Abbreviation loads_c := JSONText.loads.
Abbreviation dumps_c := JSONText.dumps.

(** Every manifest the run on [tree_lamp] saves reads back. *)
Lemma tree_lamp_reads_back p m :
  (p, m) ∈ saved (run_c tree_lamp).2 → reads_back loads_c dumps_c m.
Proof.
  assert (Forall (λ pm, reads_back loads_c dumps_c pm.2) (saved (run_c tree_lamp).2))
    as HF.
  { let l := eval vm_compute in (saved (run_c tree_lamp).2) in
    replace (saved (run_c tree_lamp).2) with l by (vm_compute; reflexivity).
    repeat constructor; vm_compute; reflexivity. }
  intros Hin. by apply (proj1 (Forall_forall _ _) HF (p, m)).
Qed.

Lemma no_devices_nothing_to_do_witness :
  discover_devices tree_empty = Ok ∅ ∧
  run_c tree_empty = (Ok (), World tree_empty [nothing_line] []) ∧
  exit_code (run_c tree_empty).1 = 0%Z.
Proof.
  assert (discover_devices tree_empty = Ok ∅) as H by (vm_compute; reflexivity).
  split; [exact H|].
  exact (no_devices_nothing_to_do loads_c dumps_c tree_empty H).
Defined.

Lemma run_twice_identical_witness :
  (∀ p m, (p, m) ∈ saved (run_c tree_lamp).2 → reads_back loads_c dumps_c m) ∧
  files (run_c (files (run_c tree_lamp).2)).2 = files (run_c tree_lamp).2 ∧
  same_status (run_c (files (run_c tree_lamp).2)).1 (run_c tree_lamp).1.
Proof.
  assert (∀ p m, (p, m) ∈ saved (run_c tree_lamp).2 → reads_back loads_c dumps_c m) as H.
  { assert (Forall (λ pm, reads_back loads_c dumps_c pm.2) (saved (run_c tree_lamp).2))
      as HF.
    { let l := eval vm_compute in (saved (run_c tree_lamp).2) in
      replace (saved (run_c tree_lamp).2) with l by (vm_compute; reflexivity).
      repeat constructor; vm_compute; reflexivity. }
    intros p m Hin. by apply (proj1 (Forall_forall _ _) HF (p, m)). }
  split; [exact H|].
  exact (run_twice_identical loads_c dumps_c tree_lamp H).
Defined.

Lemma other_manifests_unaffected_witness :
  tree_lamp !! ["firmware"; "lamp"; "v10.0.0"; "firmware.bin"] =
    Some (File (bytes_of "abc")) ∧
  (run_c (<[["firmware"; "lamp"; "v10.0.0"; "firmware.bin"] := File (bytes_of "ab")]>
            tree_lamp)).1 = (run_c tree_lamp).1 ∧
  (∀ q, q ≠ ["firmware"; "lamp"; "v10.0.0"; "firmware.bin"] →
        q ≠ manifest_path_of "lamp" →
        files (run_c (<[["firmware"; "lamp"; "v10.0.0"; "firmware.bin"] :=
                          File (bytes_of "ab")]> tree_lamp)).2 !! q =
        files (run_c tree_lamp).2 !! q) ∧
  (∀ d', d' ≠ "lamp" →
         files (run_c (<[["firmware"; "lamp"; "v10.0.0"; "firmware.bin"] :=
                           File (bytes_of "ab")]> tree_lamp)).2
           !! manifest_path_of d' =
         files (run_c tree_lamp).2 !! manifest_path_of d') ∧
  ∃ m1 m2,
    (manifest_path_of "lamp", m1) ∈ saved (run_c tree_lamp).2 ∧
    (manifest_path_of "lamp", m2) ∈
      saved (run_c (<[["firmware"; "lamp"; "v10.0.0"; "firmware.bin"] :=
                        File (bytes_of "ab")]> tree_lamp)).2 ∧
    digest_only "firmware" m1 m2 ∧
    dict_get m1 "firmware" =
      Some (binary_record ["firmware"; "lamp"; "v10.0.0"; "firmware.bin"]
              (bytes_of "abc")) ∧
    dict_get m2 "firmware" =
      Some (binary_record ["firmware"; "lamp"; "v10.0.0"; "firmware.bin"]
              (bytes_of "ab")).
Proof.
  assert (tree_lamp !! ["firmware"; "lamp"; "v10.0.0"; "firmware.bin"] =
            Some (File (bytes_of "abc"))) as H by (vm_compute; reflexivity).
  destruct (other_manifests_unaffected loads_c dumps_c tree_lamp
              "firmware" "lamp" "v10.0.0" "firmware.bin" _ (bytes_of "ab") H)
    as (Hst & Hq & Hd' & _ & Hd & _).
  assert (∃ m1, (manifest_path_of "lamp", m1) ∈ saved (run_c tree_lamp).2 ∧
                dict_get m1 "firmware" =
                  Some (binary_record ["firmware"; "lamp"; "v10.0.0"; "firmware.bin"]
                          (bytes_of "abc"))) as (m1 & Hin1 & Hg1).
  { let l := eval vm_compute in (saved (run_c tree_lamp).2) in
    replace (saved (run_c tree_lamp).2) with l by (vm_compute; reflexivity).
    eexists. split; [apply list_elem_of_further, list_elem_of_here|].
    vm_compute; reflexivity. }
  assert (∃ m2, (manifest_path_of "lamp", m2) ∈
                  saved (run_c (<[["firmware"; "lamp"; "v10.0.0"; "firmware.bin"] :=
                                    File (bytes_of "ab")]> tree_lamp)).2 ∧
                dict_get m2 "firmware" =
                  Some (binary_record ["firmware"; "lamp"; "v10.0.0"; "firmware.bin"]
                          (bytes_of "ab"))) as (m2 & Hin2 & Hg2).
  { let l := eval vm_compute in
      (saved (run_c (<[["firmware"; "lamp"; "v10.0.0"; "firmware.bin"] :=
                        File (bytes_of "ab")]> tree_lamp)).2) in
    replace (saved (run_c (<[["firmware"; "lamp"; "v10.0.0"; "firmware.bin"] :=
                              File (bytes_of "ab")]> tree_lamp)).2) with l
      by (vm_compute; reflexivity).
    eexists. split; [apply list_elem_of_further, list_elem_of_here|].
    vm_compute; reflexivity. }
  destruct (Hd m1 m2 Hin1 Hin2) as (_ & _ & Halike).
  split; [exact H|]. split; [exact Hst|]. split; [exact Hq|]. split; [exact Hd'|].
  exists m1, m2. split; [exact Hin1|]. split; [exact Hin2|]. split; [exact Halike|].
  split; [exact Hg1|exact Hg2].
Defined.

Lemma error_aborts_run_witness :
  discover_devices tree_bad = Ok {["a"; "b"]} ∧
  sorted {["a"; "b"]} = ["a"] ++ "b" :: [] ∧
  for_devices loads_c dumps_c ["a"] [] (World tree_bad [] []) =
    (Ok ["a.manifest.json"],
     (for_devices loads_c dumps_c ["a"] [] (World tree_bad [] [])).2) ∧
  (device_body loads_c dumps_c "b"
     (for_devices loads_c dumps_c ["a"] [] (World tree_bad [] [])).2).1 =
    Raise JSONDecodeError ∧
  (run_c tree_bad).1 = Raise JSONDecodeError ∧
  exit_code (run_c tree_bad).1 = 1%Z.
Proof.
  assert (discover_devices tree_bad = Ok {["a"; "b"]}) as H1 by (vm_compute; reflexivity).
  assert (sorted {["a"; "b"]} = ["a"] ++ "b" :: []) as H2 by (vm_compute; reflexivity).
  assert (for_devices loads_c dumps_c ["a"] [] (World tree_bad [] []) =
            (Ok ["a.manifest.json"],
             (for_devices loads_c dumps_c ["a"] [] (World tree_bad [] [])).2)) as H3
    by (vm_compute; reflexivity).
  assert ((device_body loads_c dumps_c "b"
             (for_devices loads_c dumps_c ["a"] [] (World tree_bad [] [])).2).1 =
            Raise JSONDecodeError) as H4 by (vm_compute; reflexivity).
  pose proof (error_aborts_run loads_c dumps_c tree_bad _ _ _ _ _ _ _ H1 H2 H3 H4)
    as (Hr & He & _).
  split; [exact H1|]. split; [exact H2|]. split; [exact H3|]. split; [exact H4|].
  split; [exact Hr|exact He].
Defined.

Lemma manifest_beside_firmware_witness :
  discover_devices tree_nofw = Ok {["ghost"]} ∧
  ({["ghost"]} : gset string) ≠ ∅ ∧
  tree_nofw !! firmware_root = None ∧
  (∀ name, tree_nofw !! child firmware_root name = None) ∧
  (∃ e, (run_c tree_nofw).1 = Raise e ∧ is_os_error e = true ∧
        files (run_c tree_nofw).2 = tree_nofw ∧ saved (run_c tree_nofw).2 = []) ∧
  discover_devices tree_lamp = Ok {["lamp"; "ghost"]} ∧
  path_exists tree_lamp ["firmware"; "ghost"] = false ∧
  ∃ m, (["firmware"; "ghost.manifest.json"], m) ∈ saved (run_c tree_lamp).2 ∧
       files (run_c tree_lamp).2 !! ["firmware"; "ghost.manifest.json"] =
         Some (File (list_byte_of_string (dumps_c (JDict m) +:+ newline))).
Proof.
  assert (discover_devices tree_nofw = Ok {["ghost"]}) as H1 by (vm_compute; reflexivity).
  assert (({["ghost"]} : gset string) ≠ ∅) as H2.
  { intros H. apply (f_equal (λ s : gset string, bool_decide ("ghost" ∈ s))) in H.
    vm_compute in H. discriminate H. }
  assert (tree_nofw !! firmware_root = None) as H3 by (vm_compute; reflexivity).
  assert (∀ name, tree_nofw !! child firmware_root name = None) as H4.
  { intros name. unfold tree_nofw, child, firmware_root.
    cbn [list_to_map foldr app uncurry curry fst snd].
    do 4 (rewrite lookup_insert_ne by discriminate).
    apply lookup_empty. }
  destruct (proj2 (proj2 (manifest_beside_firmware loads_c dumps_c tree_nofw _ H1))
              H2 H3 H4) as (e & Hr & Hos & Hf & Hs & _).
  assert (discover_devices tree_lamp = Ok {["lamp"; "ghost"]}) as H5
    by (vm_compute; reflexivity).
  assert (path_exists tree_lamp ["firmware"; "ghost"] = false) as H6
    by (vm_compute; reflexivity).
  assert ("ghost" ∈ ({["lamp"; "ghost"]} : gset string)) as H7.
  { apply elem_of_union. right. by apply elem_of_singleton. }
  assert ((run_c tree_lamp).1 = Ok ()) as H8 by (vm_compute; reflexivity).
  destruct (manifest_beside_firmware loads_c dumps_c tree_lamp _ H5)
    as (Hat & Hall & _).
  split; [exact H1|]. split; [exact H2|]. split; [exact H3|]. split; [exact H4|].
  split.
  { exists e. split; [exact Hr|]. split; [exact Hos|]. split; [exact Hf|exact Hs]. }
  split; [exact H5|]. split; [exact H6|].
  destruct (Hall "ghost" H7) as [(m & Hm)|(e' & He')].
  - exists m. split; [exact Hm|].
    destruct (Hat _ _ Hm) as (d & _ & _ & Hfile). exact Hfile.
  - change (run loads_c dumps_c tree_lamp) with (run_c tree_lamp) in He'.
    rewrite H8 in He'. discriminate He'.
Defined.

Lemma firmware_missing_note_witness :
  discover_devices tree_nofw = Ok {["ghost"]} ∧
  sorted {["ghost"]} = [] ++ "ghost" :: [] ∧
  load_manifest loads_c tree_nofw (manifest_path_of "ghost") = Ok (JDict []) ∧
  no_firmware_binary tree_nofw "ghost" ∧
  (run_c tree_nofw).1 = Raise FileNotFoundError ∧
  note_line "ghost" ∈ stdout (run_c tree_nofw).2 ∧
  discover_devices tree_bare = Ok {["bare"; "ghost"]} ∧
  sorted {["bare"; "ghost"]} = [] ++ "bare" :: ["ghost"] ∧
  load_manifest loads_c tree_bare (manifest_path_of "bare") = Ok (JDict []) ∧
  path_exists tree_bare (child firmware_root "bare") = true ∧
  no_firmware_binary tree_bare "bare" ∧
  note_line "bare" ∈ stdout (run_c tree_bare).2.
Proof.
  assert (discover_devices tree_nofw = Ok {["ghost"]}) as H1 by (vm_compute; reflexivity).
  assert (sorted {["ghost"]} = [] ++ "ghost" :: []) as H2 by (vm_compute; reflexivity).
  assert (load_manifest loads_c tree_nofw (manifest_path_of "ghost") = Ok (JDict []))
    as H3 by (vm_compute; reflexivity).
  assert (no_firmware_binary tree_nofw "ghost") as H4.
  { left. vm_compute; reflexivity. }
  assert ((run_c tree_nofw).1 = Raise FileNotFoundError) as H5
    by (vm_compute; reflexivity).
  pose proof (firmware_missing_note loads_c dumps_c tree_nofw _ [] "ghost" [] []
                (World tree_nofw [] []) [] H1 H2 eq_refl H3 H4) as [Hn1 _].
  assert (discover_devices tree_bare = Ok {["bare"; "ghost"]}) as H6
    by (vm_compute; reflexivity).
  assert (sorted {["bare"; "ghost"]} = [] ++ "bare" :: ["ghost"]) as H7
    by (vm_compute; reflexivity).
  assert (load_manifest loads_c tree_bare (manifest_path_of "bare") = Ok (JDict []))
    as H8 by (vm_compute; reflexivity).
  assert (path_exists tree_bare (child firmware_root "bare") = true) as H9
    by (vm_compute; reflexivity).
  assert (no_firmware_binary tree_bare "bare") as H10.
  { right. left. exists ["docs"]. split; [vm_compute; reflexivity|].
    intros n ->%list_elem_of_singleton _. vm_compute; reflexivity. }
  pose proof (firmware_missing_note loads_c dumps_c tree_bare _ [] "bare" ["ghost"] []
                (World tree_bare [] []) [] H6 H7 eq_refl H8 H10) as [Hn2 _].
  split; [exact H1|]. split; [exact H2|]. split; [exact H3|]. split; [exact H4|].
  split; [exact H5|]. split; [exact Hn1|]. split; [exact H6|]. split; [exact H7|].
  split; [exact H8|]. split; [exact H9|]. split; [exact H10|exact Hn2].
Defined.

(** C1, as the specification states it, fails: [ghost] has no firmware
    directory, and the note is printed for it. *)
Lemma note_without_firmware_directory :
  path_exists tree_bare (child firmware_root "ghost") = false ∧
  (run_c tree_bare).1 = Ok () ∧
  note_line "ghost" ∈ stdout (run_c tree_bare).2.
Proof.
  split; [vm_compute; reflexivity|]. split; [vm_compute; reflexivity|].
  apply list_elem_of_In.
  let l := eval vm_compute in (stdout (run_c tree_bare).2) in
  replace (stdout (run_c tree_bare).2) with l by (vm_compute; reflexivity).
  vm_compute. tauto.
Qed.

(** The note needs the manifest to load: [b] has a firmware directory
    without a version directory, and its manifest is not JSON; the run
    raises before it prints the note for [b]. *)
Lemma no_note_before_load :
  path_exists tree_bad (child firmware_root "b") = true ∧
  no_firmware_binary tree_bad "b" ∧
  (run_c tree_bad).1 = Raise JSONDecodeError ∧
  note_line "b" ∉ stdout (run_c tree_bad).2.
Proof.
  split; [vm_compute; reflexivity|]. split.
  { right. left. exists []. split; [vm_compute; reflexivity|].
    by intros n ?%elem_of_nil. }
  split; [vm_compute; reflexivity|].
  intros Hin. apply list_elem_of_In in Hin. revert Hin.
  let l := eval vm_compute in (stdout (run_c tree_bad).2) in
  replace (stdout (run_c tree_bad).2) with l by (vm_compute; reflexivity).
  intros Hin. simpl in Hin.
  repeat (destruct Hin as [Hin|Hin]; [vm_compute in Hin; discriminate Hin|]).
  exact Hin.
Qed.

Lemma read_merge_write_witness :
  discover_devices tree_lamp = Ok {["lamp"; "ghost"]} ∧
  "lamp" ∈ ({["lamp"; "ghost"]} : gset string) ∧
  path_exists tree_lamp (manifest_path_of "lamp") = true ∧
  ∃ m', (manifest_path_of "lamp", m') ∈ saved (run_c tree_lamp).2 ∧
        files (run_c tree_lamp).2 !! manifest_path_of "lamp" =
          Some (File (list_byte_of_string (dumps_c (JDict m') +:+ newline))) ∧
        load_manifest loads_c (files (run_c tree_lamp).2) (manifest_path_of "lamp") =
          Ok (JDict m') ∧
        dict_get m' "custom" = Some (JInt 7) ∧
        dict_get m' "chip" = Some (JStr "esp8266") ∧
        dict_get m' "name" = Some (JStr "lamp") ∧
        dict_get m' "version" = Some (JStr "10.0.0").
Proof.
  assert (discover_devices tree_lamp = Ok {["lamp"; "ghost"]}) as H1
    by (vm_compute; reflexivity).
  assert ("lamp" ∈ ({["lamp"; "ghost"]} : gset string)) as H2.
  { apply elem_of_union. left. by apply elem_of_singleton. }
  assert ((run_c tree_lamp).1 = Ok ()) as H3 by (vm_compute; reflexivity).
  assert (path_exists tree_lamp (manifest_path_of "lamp") = true) as H4
    by (vm_compute; reflexivity).
  destruct (read_merge_write loads_c dumps_c tree_lamp _ "lamp" H1 H2 H4)
    as [Hall [(m' & Hs)|(e & He)]].
  2:{ change (run loads_c dumps_c tree_lamp) with (run_c tree_lamp) in He.
      rewrite H3 in He. discriminate He. }
  destruct (Hall m' Hs)
    as (data & m0 & Hfile & Hj & Hw & Hback & Hother & _ & Hname & Hchip & Hfw & _).
  assert (tree_lamp !! manifest_path_of "lamp" =
            Some (File (bytes_of (dumps_c (JDict lamp_manifest)))))
    as Hfile' by (vm_compute; reflexivity).
  assert (data = bytes_of (dumps_c (JDict lamp_manifest))) as Hdata.
  { rewrite Hfile' in Hfile. injection Hfile as Hfile. symmetry; exact Hfile. }
  assert (loads_c (string_of_list_byte (bytes_of (dumps_c (JDict lamp_manifest)))) =
            Some (JDict lamp_manifest)) as Hj'
    by (vm_compute; reflexivity).
  rewrite Hdata, Hj' in Hj. injection Hj as Hm0.
  split; [exact H1|]. split; [exact H2|]. split; [exact H4|].
  exists m'. split; [exact Hs|]. split; [exact Hw|].
  split; [exact (Hback (tree_lamp_reads_back _ _ Hs))|].
  split; [|split; [|split]].
  - rewrite Hother.
    + rewrite <- Hm0. reflexivity.
    + intros Hin. apply list_elem_of_In in Hin. simpl in Hin.
      repeat (destruct Hin as [Hin|Hin]; [discriminate Hin|]). exact Hin.
  - rewrite Hchip, <- Hm0. reflexivity.
  - rewrite Hname, <- Hm0. reflexivity.
  - apply (Hfw "10.0.0" ["firmware"; "lamp"; "v10.0.0"] (bytes_of "abc"));
      vm_compute; reflexivity.
Defined.

(** * Further properties of the functions *)

(** ** [sha256_of] *)

(** X1. [sha256_of] returns the SHA-256 of the whole content of a file,
    whatever its length: reading in chunks loses and repeats nothing.  On
    a directory it raises [IsADirectoryError], on a missing path
    [FileNotFoundError]. *)
Theorem sha256_of_whole_file t p :
  sha256_of t p =
    match t !! p with
    | Some (File data) => Ok (SHA256.hex (SHA256.digest data))
    | Some (Dir _) => Raise IsADirectoryError
    | None => Raise FileNotFoundError
    end.
Proof.
  destruct (t !! p) as [[data|names]|] eqn:Hp.
  - by apply sha256_of_content.
  - unfold sha256_of, read_bytes. by rewrite Hp.
  - unfold sha256_of, read_bytes. by rewrite Hp.
Qed.

(** X2. A digest that [sha256_of] returns is a string of sixty-four
    lower-case hexadecimal digits. *)
Theorem sha256_of_hexdigest t p s :
  sha256_of t p = Ok s →
  String.length s = 64 ∧
  Forall (λ c, is_lower_hex c = true) (list_ascii_of_string s).
Proof. intros (data & _ & ->)%sha256_of_inv. apply hex_shape. Qed.

Lemma sha256_of_hexdigest_witness :
  sha256_of tree_lamp ["firmware"; "lamp"; "v10.0.0"; "firmware.bin"] =
    Ok "ba7816bf8f01cfea414140de5dae2223b00361a396177a9cb410ff61f20015ad" ∧
  String.length "ba7816bf8f01cfea414140de5dae2223b00361a396177a9cb410ff61f20015ad" = 64.
Proof.
  assert (sha256_of tree_lamp ["firmware"; "lamp"; "v10.0.0"; "firmware.bin"] =
            Ok "ba7816bf8f01cfea414140de5dae2223b00361a396177a9cb410ff61f20015ad")
    as H by (rewrite (sha256_of_content _ _ (bytes_of "abc"));
             [vm_compute; reflexivity | vm_compute; reflexivity]).
  split; [exact H|].
  exact (proj1 (sha256_of_hexdigest _ _ _ H)).
Defined.

(** ** [VERSION_RE] *)

(** X3. What [VERSION_RE] matches, exactly: a [v], three non-empty runs
    of decimal digits separated by dots, and then the end of the name or
    one newline that ends it.  A decimal digit is any character of the
    Unicode category Nd, in its UTF-8 bytes, not only [0] to [9].  The
    group is the name without the [v] and without that newline. *)
Theorem VERSION_RE_match_iff name g :
  VERSION_RE_match name = Some g ↔
  version_text g ∧ (name = "v" +:+ g ∨ name = "v" +:+ g +:+ newline).
Proof.
  split; [apply VERSION_RE_match_inv|].
  intros [(a & b & c & Ha & Hb & Hc & ->) Hname].
  destruct Hname as [-> | ->].
  - pose proof (VERSION_RE_match_tail a b c "" Ha Hb Hc eq_refl) as H.
    by rewrite string_app_nil_r in H.
  - exact (VERSION_RE_match_tail a b c newline Ha Hb Hc digit_head_newline).
Qed.

(** ** The version tuple *)

Lemma rev_app_rev_app a b c :
  String.rev_app (String.rev_app a b) c = String.rev_app b (a +:+ c).
Proof.
  revert b c. induction a as [|x a IH]; intros b c; [done|].
  cbn [String.rev_app]. rewrite IH. cbn [String.rev_app].
  by rewrite string_app_cons.
Qed.

Lemma rev_rev_app a : String.rev (String.rev_app a "") = a.
Proof.
  unfold String.rev. rewrite rev_app_rev_app. cbn. apply string_app_nil_r.
Qed.

Lemma split_dot_go_run a cur r :
  no_dot a →
  split_dot_go cur (a +:+ r) = split_dot_go (String.rev_app a cur) r.
Proof.
  revert cur. induction a as [|x a IH]; intros cur Ha; [done|].
  apply Forall_cons in Ha as [Hx Ha].
  rewrite string_app_cons. cbn [split_dot_go String.rev_app]. rewrite Hx.
  by apply IH.
Qed.

Lemma split_dot_go_dot a r :
  no_dot a → split_dot_go "" (a +:+ "." +:+ r) = a :: split_dot_go "" r.
Proof.
  intros Ha. rewrite split_dot_go_run by done.
  change ("." +:+ r) with (String "." r). cbn [split_dot_go Ascii.eqb Bool.eqb].
  cbn [andb]. by rewrite rev_rev_app.
Qed.

Lemma split_dot_go_end a : no_dot a → split_dot_go "" a = [a].
Proof.
  intros Ha. rewrite <- (string_app_nil_r a) at 1.
  rewrite split_dot_go_run by done. cbn [split_dot_go]. by rewrite rev_rev_app.
Qed.

Lemma split_dot_three a b c :
  no_dot a → no_dot b → no_dot c →
  split_dot (a +:+ "." +:+ b +:+ "." +:+ c) = [a; b; c].
Proof.
  intros Ha Hb Hc. unfold split_dot.
  by rewrite !split_dot_go_dot, split_dot_go_end.
Qed.

(** X4. The tuple by which [latest_version_dir] compares a matching name
    has exactly three components: the numbers its three runs of decimal
    digits denote, as [int] reads them.  The comparison is so by number,
    not by text. *)
Theorem version_tuple_of_match name g :
  VERSION_RE_match name = Some g →
  ∃ a b c,
    decimal_run a ∧ decimal_run b ∧ decimal_run c ∧
    g = a +:+ "." +:+ b +:+ "." +:+ c ∧
    ver_tuple g = [int_of_digits a; int_of_digits b; int_of_digits c].
Proof.
  intros [(a & b & c & Ha & Hb & Hc & ->) _]%VERSION_RE_match_inv.
  exists a, b, c. do 4 (split; [done|]).
  unfold ver_tuple.
  by rewrite (split_dot_three a b c) by by apply decimal_run_no_dot.
Qed.

Lemma version_tuple_of_match_witness :
  VERSION_RE_match "v10.02.3" = Some "10.02.3" ∧
  ver_tuple "10.02.3" = [10; 2; 3]%N ∧
  tuple_gtb (ver_tuple "10.02.3") (ver_tuple "9.12.30") = true ∧
  VERSION_RE_match arabic_name = Some (arabic_three +:+ ".0.0") ∧
  ver_tuple (arabic_three +:+ ".0.0") = [3; 0; 0]%N.
Proof.
  assert (VERSION_RE_match "v10.02.3" = Some "10.02.3") as H by reflexivity.
  assert (VERSION_RE_match arabic_name = Some (arabic_three +:+ ".0.0")) as H'
    by reflexivity.
  split; [exact H|].
  destruct (version_tuple_of_match _ _ H) as (a & b & c & _ & _ & _ & _ & _).
  destruct (version_tuple_of_match _ _ H') as (a' & b' & c' & _ & _ & _ & _ & _).
  split; [reflexivity|]. split; [reflexivity|]. split; [exact H'|reflexivity].
Defined.

(** ** [latest_version_dir] *)

(** X5. [latest_version_dir] on a directory does not raise.  It returns
    nothing exactly when no entry is a directory with a name that
    [VERSION_RE] matches; otherwise it returns such an entry with the
    version string of its name, and no such entry has a greater tuple. *)
Theorem latest_version_dir_greatest t d names :
  iterdir t d = Ok names →
  match latest_version_dir t d with
  | Ok None =>
      ∀ n, n ∈ names → is_dir t (child d n) = true → VERSION_RE_match n = None
  | Ok (Some (version, entry)) =>
      (∃ n, n ∈ names ∧ entry = child d n ∧ is_dir t entry = true ∧
            VERSION_RE_match n = Some version) ∧
      (∀ n g, n ∈ names → is_dir t (child d n) = true →
              VERSION_RE_match n = Some g →
              tuple_gtb (ver_tuple g) (ver_tuple version) = false)
  | Raise _ => False
  end.
Proof.
  intros Hit. pose proof (latest_version_dir_spec t d names Hit) as H.
  destruct (latest_version_dir t d) as [[[version entry]|]|e]; [done| |done].
  intros n Hin Hd. specialize (H n Hin). unfold candidate in H.
  rewrite Hd in H. by destruct (VERSION_RE_match n).
Qed.

Lemma latest_version_dir_greatest_witness :
  iterdir tree_lamp ["firmware"; "lamp"] =
    Ok ["v1.0.0"; "v1.2.0"; "v2.0.0-nonmatching"; "v10.0.0"] ∧
  latest_version_dir tree_lamp ["firmware"; "lamp"] =
    Ok (Some ("10.0.0", ["firmware"; "lamp"; "v10.0.0"])) ∧
  tuple_gtb (ver_tuple "1.2.0") (ver_tuple "10.0.0") = false.
Proof.
  assert (iterdir tree_lamp ["firmware"; "lamp"] =
            Ok ["v1.0.0"; "v1.2.0"; "v2.0.0-nonmatching"; "v10.0.0"]) as H
    by (vm_compute; reflexivity).
  assert (latest_version_dir tree_lamp ["firmware"; "lamp"] =
            Ok (Some ("10.0.0", ["firmware"; "lamp"; "v10.0.0"]))) as Hl
    by (vm_compute; reflexivity).
  split; [exact H|]. split; [exact Hl|].
  pose proof (latest_version_dir_greatest _ _ _ H) as Hg.
  rewrite Hl in Hg. destruct Hg as [_ Hg].
  apply (Hg "v1.2.0" "1.2.0").
  - apply list_elem_of_further, list_elem_of_here.
  - vm_compute; reflexivity.
  - reflexivity.
Defined.

Lemma latest_fold_keep t d names b :
  (∀ n vt g, n ∈ names → candidate t d n = Some (vt, g) →
             tuple_gtb vt b.1.1 = false) →
  fold_left (latest_step t d) names (Some b) = Some b.
Proof.
  induction names as [|n names IH]; intros H; [done|].
  cbn [fold_left]. rewrite latest_step_candidate.
  destruct (candidate t d n) as [[vt g]|] eqn:Hc.
  - destruct b as [[bt bg] be].
    pose proof (H n vt g (list_elem_of_here _ _) Hc) as Hgt. cbn in Hgt.
    rewrite Hgt. apply IH. intros n' vt' g' Hin. apply H. by right.
  - apply IH. intros n' vt' g' Hin. apply H. by right.
Qed.

(** X6. Among the matching directories of the greatest tuple,
    [latest_version_dir] returns the one the listing yields first: an
    entry is returned when every matching directory before it has a
    smaller tuple and none after it has a greater one.  So of [v1.2.0]
    and [v01.2.0] the order of the listing decides. *)
Theorem latest_version_dir_first_of_ties t d before n after g :
  iterdir t d = Ok (before ++ n :: after) →
  is_dir t (child d n) = true →
  VERSION_RE_match n = Some g →
  (∀ n' g', n' ∈ before → is_dir t (child d n') = true →
            VERSION_RE_match n' = Some g' →
            tuple_gtb (ver_tuple g) (ver_tuple g') = true) →
  (∀ n' g', n' ∈ after → is_dir t (child d n') = true →
            VERSION_RE_match n' = Some g' →
            tuple_gtb (ver_tuple g') (ver_tuple g) = false) →
  latest_version_dir t d = Ok (Some (g, child d n)).
Proof.
  intros Hit Hd Hm Hbefore Hafter.
  assert (∀ n' vt' g', candidate t d n' = Some (vt', g') →
            is_dir t (child d n') = true ∧ VERSION_RE_match n' = Some g' ∧
            vt' = ver_tuple g') as Hcand.
  { intros n' vt' g'. unfold candidate.
    destruct (is_dir t (child d n')); [|done].
    destruct (VERSION_RE_match n') as [g0|]; [|done].
    cbn. by intros [= <- <-]. }
  assert (candidate t d n = Some (ver_tuple g, g)) as Hc.
  { unfold candidate. by rewrite Hd, Hm. }
  unfold latest_version_dir. rewrite Hit, bind_Ok.
  rewrite fold_left_app. cbn [fold_left].
  assert (latest_step t d (fold_left (latest_step t d) before None) n =
            Some (ver_tuple g, g, child d n)) as ->.
  { rewrite latest_step_candidate, Hc.
    destruct (fold_left (latest_step t d) before None) as [[[bt bg] be]|] eqn:Hf;
      [|done].
    apply latest_fold_some in Hf as ([[=]|(n' & Hin & Hc' & _)] & _).
    cbn in Hc'. apply Hcand in Hc' as (Hd' & Hm' & ->).
    by rewrite (Hbefore n' bg Hin Hd' Hm'). }
  rewrite latest_fold_keep; [done|].
  intros n' vt' g' Hin Hc'.
  destruct (Hcand n' vt' g' Hc') as (Hd' & Hm' & ->). cbn.
  exact (Hafter n' g' Hin Hd' Hm').
Qed.

Lemma latest_version_dir_first_of_ties_witness :
  iterdir tree_ties ["firmware"; "fog"] =
    Ok (["v1.1.0"] ++ "v01.2.0" :: ["notes.txt"; "v1.2.0"]) ∧
  ver_tuple "01.2.0" = ver_tuple "1.2.0" ∧
  latest_version_dir tree_ties ["firmware"; "fog"] =
    Ok (Some ("01.2.0", ["firmware"; "fog"; "v01.2.0"])).
Proof.
  assert (iterdir tree_ties ["firmware"; "fog"] =
            Ok (["v1.1.0"] ++ "v01.2.0" :: ["notes.txt"; "v1.2.0"])) as H
    by (vm_compute; reflexivity).
  split; [exact H|]. split; [reflexivity|].
  apply (latest_version_dir_first_of_ties tree_ties ["firmware"; "fog"]
           ["v1.1.0"] "v01.2.0" ["notes.txt"; "v1.2.0"] "01.2.0" H).
  - vm_compute; reflexivity.
  - reflexivity.
  - intros n' g' Hin%list_elem_of_In _ Hm. simpl in Hin.
    destruct Hin as [<-|[]]. injection Hm as <-. reflexivity.
  - intros n' g' Hin%list_elem_of_In Hd Hm. simpl in Hin.
    destruct Hin as [<-|[<-|[]]].
    + discriminate Hm.
    + injection Hm as <-. reflexivity.
Defined.

(** ** [process_firmware], [process_spiffs], [process_config] *)

(** X7. [process_firmware] returns [False] exactly when the directory has
    no matching version directory or the latest one holds no
    [firmware.bin], and then the dictionary is as it was.  It does not
    fall back on an older version directory that holds a binary. *)
Theorem process_firmware_not_found t m dev dir m' :
  process_firmware t m dev dir = Ok (m', false) ↔
  m' = m ∧
  (latest_version_dir t dir = Ok None ∨
   ∃ version vdir, latest_version_dir t dir = Ok (Some (version, vdir)) ∧
                   path_exists t (child vdir "firmware.bin") = false).
Proof.
  split.
  - unfold process_firmware.
    destruct (latest_version_dir t dir) as [[[version vdir]|]|e] eqn:Hl;
      rewrite ?bind_Ok, ?bind_Raise; [| |done].
    + destruct (path_exists t (child vdir "firmware.bin")) eqn:Hex; cbn [negb].
      * destruct (sha256_of t (child vdir "firmware.bin"));
          rewrite ?bind_Ok, ?bind_Raise; [|done].
        by destruct (st_size t (child vdir "firmware.bin"));
          rewrite ?bind_Ok, ?bind_Raise.
      * intros [= <-]. split; [done|]. right. by exists version, vdir.
    + intros [= <-]. split; [done|]. by left.
  - intros [-> H]. by apply process_firmware_missing.
Qed.

Lemma process_firmware_not_found_witness :
  path_exists tree_ties ["firmware"; "fog"; "v1.2.0"; "firmware.bin"] = true ∧
  path_exists tree_ties ["firmware"; "fog"; "v1.1.0"; "firmware.bin"] = true ∧
  process_firmware tree_ties [("name", JStr "fog")] "fog" ["firmware"; "fog"] =
    Ok ([("name", JStr "fog")], false).
Proof.
  split; [vm_compute; reflexivity|]. split; [vm_compute; reflexivity|].
  apply process_firmware_not_found. split; [reflexivity|]. right.
  exists "01.2.0", ["firmware"; "fog"; "v01.2.0"].
  split; vm_compute; reflexivity.
Defined.

(** X8. [process_firmware] returns [True] exactly when the latest
    matching directory holds a file [firmware.bin]; the dictionary is then
    the one given with [version] set to the version string and [firmware]
    to the URL of the file, the SHA-256 of its whole content and its
    length, and nothing else is changed. *)
Theorem process_firmware_found_iff t m dev dir m' :
  process_firmware t m dev dir = Ok (m', true) ↔
  ∃ version vdir data,
    latest_version_dir t dir = Ok (Some (version, vdir)) ∧
    t !! child vdir "firmware.bin" = Some (File data) ∧
    m' = dict_set (dict_set m "version" (JStr version)) "firmware"
           (binary_record (child vdir "firmware.bin") data).
Proof.
  split.
  - intros H. unfold process_firmware in H.
    destruct (latest_version_dir t dir) as [[[version vdir]|]|e] eqn:Hl;
      rewrite ?bind_Ok, ?bind_Raise in H; [|done..].
    destruct (path_exists t (child vdir "firmware.bin")) eqn:Hex;
      cbn [negb] in H; [|done].
    destruct (sha256_of t (child vdir "firmware.bin")) as [digest|e] eqn:Hs;
      rewrite ?bind_Ok, ?bind_Raise in H; [|done].
    apply sha256_of_inv in Hs as (data & Hfile & ->).
    rewrite (st_size_content _ _ _ Hfile), bind_Ok in H. injection H as <-.
    by exists version, vdir, data.
  - intros (version & vdir & data & Hl & Hfile & ->).
    by apply process_firmware_found.
Qed.

Lemma process_firmware_found_iff_witness :
  process_firmware tree_lamp lamp_manifest "lamp" ["firmware"; "lamp"] =
    Ok ([("custom", JInt 7); ("chip", JStr "esp8266"); ("version", JStr "10.0.0");
         ("firmware",
          binary_record ["firmware"; "lamp"; "v10.0.0"; "firmware.bin"]
            (bytes_of "abc"))], true).
Proof.
  apply process_firmware_found_iff.
  exists "10.0.0", ["firmware"; "lamp"; "v10.0.0"], (bytes_of "abc").
  split; [vm_compute; reflexivity|]. split; [vm_compute; reflexivity|].
  reflexivity.
Defined.

(** X9. [process_spiffs] stores a record exactly when the latest matching
    directory holds a file [spiffs.bin]: the URL of the file, the SHA-256
    of its whole content and its length, under [spiffs].  Without such a
    directory, or without the file in it, the dictionary is returned as
    it was. *)
Theorem process_spiffs_outcome t m dev dir m' :
  process_spiffs t m dev dir = Ok m' ↔
  (m' = m ∧
   (latest_version_dir t dir = Ok None ∨
    ∃ version vdir, latest_version_dir t dir = Ok (Some (version, vdir)) ∧
                    path_exists t (child vdir "spiffs.bin") = false)) ∨
  (∃ version vdir data,
     latest_version_dir t dir = Ok (Some (version, vdir)) ∧
     t !! child vdir "spiffs.bin" = Some (File data) ∧
     m' = dict_set m "spiffs" (binary_record (child vdir "spiffs.bin") data)).
Proof.
  split.
  - intros H. unfold process_spiffs in H.
    destruct (latest_version_dir t dir) as [[[version vdir]|]|e] eqn:Hl;
      rewrite ?bind_Ok, ?bind_Raise in H; [| |done].
    + destruct (path_exists t (child vdir "spiffs.bin")) eqn:Hex; cbn [negb] in H.
      * destruct (sha256_of t (child vdir "spiffs.bin")) as [digest|e] eqn:Hs;
          rewrite ?bind_Ok, ?bind_Raise in H; [|done].
        apply sha256_of_inv in Hs as (data & Hfile & ->).
        rewrite (st_size_content _ _ _ Hfile), bind_Ok in H. injection H as <-.
        right. by exists version, vdir, data.
      * injection H as <-. left. split; [done|]. right. by exists version, vdir.
    + injection H as <-. left. split; [done|]. by left.
  - intros [[-> H]|(version & vdir & data & Hl & Hfile & ->)].
    + unfold process_spiffs.
      destruct H as [->|(version & vdir & -> & Hex)]; rewrite bind_Ok; [done|].
      by rewrite Hex.
    + exact (process_spiffs_found t m dev dir version vdir data Hl Hfile).
Qed.

Lemma process_spiffs_outcome_witness :
  process_spiffs tree_lamp [] "lamp" ["spiffs"; "lamp"] =
    Ok [("spiffs", binary_record ["spiffs"; "lamp"; "v11.0.0"; "spiffs.bin"]
                     (bytes_of "image"))] ∧
  process_spiffs tree_lamp [] "ghost" ["firmware"; "lamp"] = Ok [].
Proof.
  split.
  - apply process_spiffs_outcome. right.
    exists "11.0.0", ["spiffs"; "lamp"; "v11.0.0"], (bytes_of "image").
    split; [vm_compute; reflexivity|]. split; [vm_compute; reflexivity|].
    reflexivity.
  - apply process_spiffs_outcome. left. split; [reflexivity|]. right.
    exists "10.0.0", ["firmware"; "lamp"; "v10.0.0"].
    split; vm_compute; reflexivity.
Defined.

(** X10. [process_config] looks at [config.yaml] in the directory given
    and nowhere else: a file gives the entry [config] with the URL and the
    SHA-256 of its content, and no size; without the path the dictionary
    is returned as it was; a directory of that name raises
    [IsADirectoryError]. *)
Theorem process_config_outcome t m dev dir :
  process_config t m dev dir =
    match t !! child dir "config.yaml" with
    | Some (File data) =>
        Ok (dict_set m "config"
              (JDict [("url", JStr (url_of (child dir "config.yaml")));
                      ("sha256", JStr (SHA256.hex (SHA256.digest data)))]))
    | Some (Dir _) => Raise IsADirectoryError
    | None => Ok m
    end.
Proof.
  destruct (t !! child dir "config.yaml") as [[data|names]|] eqn:Hp.
  - by apply process_config_found.
  - unfold process_config, path_exists, sha256_of, read_bytes. by rewrite Hp.
  - unfold process_config, path_exists. by rewrite Hp.
Qed.

(** ** The order of the keys *)

Lemma dict_get_keys (d : dict) k : is_Some (dict_get d k) ↔ k ∈ d.*1.
Proof.
  induction d as [|[k' v'] d IH]; cbn [dict_get fmap list_fmap fst].
  - split; [by intros [? ?]|by intros ?%elem_of_nil].
  - rewrite elem_of_cons. destruct (decide (k' = k)) as [->|Hne].
    + split; [by left|by eexists].
    + rewrite IH. split; [by right|]. by intros [->|?].
Qed.

Lemma dict_set_keys (d : dict) k v :
  (dict_set d k v).*1 = d.*1 ++ (if decide (k ∈ d.*1) then [] else [k]).
Proof.
  induction d as [|[k' v'] d IH]; cbn [dict_set fmap list_fmap fst app].
  - rewrite decide_False; [done|apply not_elem_of_nil].
  - destruct (decide (k' = k)) as [->|Hne]; cbn [fmap list_fmap fst].
    + rewrite decide_True by by left. by rewrite app_nil_r.
    + change (list_fmap _ _ fst ?l) with (l.*1). rewrite IH. f_equal.
      destruct (decide (k ∈ d.*1)) as [Hin|Hnin].
      * rewrite decide_True; [done|by right].
      * rewrite decide_False; [done|]. by intros [->|?]%elem_of_cons.
Qed.

Lemma setdefault_keys (d : dict) k v :
  (setdefault d k v).*1 = (dict_set d k v).*1.
Proof.
  unfold setdefault. destruct (dict_get d k) as [v0|] eqn:Hg; [|done].
  rewrite dict_set_keys, decide_True, app_nil_r; [done|].
  apply dict_get_keys. by rewrite Hg.
Qed.

Lemma filter_agree {A : Type} (P Q : A → Prop)
    `{!∀ x, Decision (P x)} `{!∀ x, Decision (Q x)} (l : list A) :
  Forall (λ x, P x ↔ Q x) l → filter P l = filter Q l.
Proof.
  induction 1 as [|x l Hx _ IH]; [done|].
  rewrite !filter_cons, IH.
  destruct (decide (P x)), (decide (Q x)); tauto.
Qed.

Lemma apply_updates_keys us m :
  NoDup us.*1 →
  (apply_updates us m).*1 = m.*1 ++ filter (λ k, k ∉ m.*1) us.*1.
Proof.
  revert m. induction us as [|[k v] us IH]; intros m Hnd.
  - cbn. by rewrite app_nil_r.
  - cbn [fmap list_fmap fst] in Hnd. apply NoDup_cons in Hnd as [Hk Hnd].
    change (apply_updates ((k, v) :: us) m) with (apply_updates us (dict_set m k v)).
    rewrite (IH _ Hnd), dict_set_keys. cbn [fmap list_fmap fst].
    change (list_fmap _ _ fst us) with (us.*1) in *.
    rewrite filter_cons.
    assert (filter (λ k0, k0 ∉ m.*1 ++ (if decide (k ∈ m.*1) then [] else [k])) us.*1 =
            filter (λ k0, k0 ∉ m.*1) us.*1) as ->.
    { apply filter_agree. apply Forall_forall. intros k0 Hk0.
      rewrite not_elem_of_app. split; [tauto|]. intros H. split; [done|].
      destruct (decide (k ∈ m.*1)); [apply not_elem_of_nil|].
      intros ->%list_elem_of_singleton. done. }
    destruct (decide (k ∈ m.*1)) as [Hin|Hnin].
    + rewrite decide_False by tauto. by rewrite app_nil_r.
    + rewrite decide_True by done. by rewrite <- app_assoc.
Qed.

Lemma apply_updates_fresh us m :
  NoDup us.*1 → (∀ k, k ∈ us.*1 → k ∉ m.*1) → apply_updates us m = m ++ us.
Proof.
  revert m. induction us as [|[k v] us IH]; intros m Hnd Hfresh.
  - cbn. by rewrite app_nil_r.
  - cbn [fmap list_fmap fst] in Hnd, Hfresh. apply NoDup_cons in Hnd as [Hk Hnd].
    change (apply_updates ((k, v) :: us) m) with (apply_updates us (dict_set m k v)).
    assert (dict_set m k v = m ++ [(k, v)]) as ->.
    { assert (k ∉ m.*1) as Hnin by (apply Hfresh; by left).
      clear -Hnin. induction m as [|[k' v'] m IHm]; [done|].
      cbn [fmap list_fmap fst] in Hnin. apply not_elem_of_cons in Hnin as [Hne Hnin].
      cbn [dict_set]. rewrite decide_False by done. cbn. f_equal. by apply IHm. }
    rewrite IH; [by rewrite <- app_assoc|done|].
    intros k0 Hk0. rewrite fmap_app, not_elem_of_app. split.
    + apply Hfresh. by right.
    + intros ->%list_elem_of_singleton. done.
Qed.

(** X11. [process_firmware] leaves every key other than [version] and
    [firmware] with the value it had, and [process_config] every key other
    than [config].  The keys the dictionary had keep their places; a new
    key comes after them. *)
Theorem artifact_functions_frame t m dev dir :
  (∀ m' found, process_firmware t m dev dir = Ok (m', found) →
     (∀ k, k ≠ "version" → k ≠ "firmware" → dict_get m' k = dict_get m k) ∧
     m.*1 `prefix_of` m'.*1) ∧
  (∀ m', process_spiffs t m dev dir = Ok m' → m.*1 `prefix_of` m'.*1) ∧
  (∀ m', process_config t m dev dir = Ok m' →
     (∀ k, k ≠ "config" → dict_get m' k = dict_get m k) ∧
     m.*1 `prefix_of` m'.*1).
Proof.
  split; [|split].
  - intros m' found H. split.
    + intros k ??. by eapply process_firmware_frame.
    + rewrite process_firmware_updates in H.
      destruct (process_firmware t [] dev dir) as [[us f]|e] eqn:Hus;
        rewrite ?bind_Ok, ?bind_Raise in H; [|done].
      injection H as <- <-. apply process_firmware_keys in Hus.
      rewrite apply_updates_keys; [by eexists|].
      rewrite Hus. destruct f; [|constructor].
      apply NoDup_cons. split; [|apply NoDup_singleton].
      by intros [=]%list_elem_of_singleton.
  - intros m' H. rewrite process_spiffs_updates in H.
    destruct (process_spiffs t [] dev dir) as [us|e] eqn:Hus;
      rewrite ?bind_Ok, ?bind_Raise in H; [|done].
    injection H as <-. apply process_spiffs_keys in Hus.
    rewrite apply_updates_keys; [by eexists|].
    destruct Hus as [-> | ->]; [constructor|apply NoDup_singleton].
  - intros m' H. split.
    + intros k ?. by eapply process_config_frame.
    + rewrite process_config_updates in H.
      destruct (process_config t [] dev dir) as [us|e] eqn:Hus;
        rewrite ?bind_Ok, ?bind_Raise in H; [|done].
      injection H as <-. apply process_config_keys in Hus.
      rewrite apply_updates_keys; [by eexists|].
      destruct Hus as [-> | ->]; [constructor|apply NoDup_singleton].
Qed.

Lemma artifact_functions_frame_witness :
  process_firmware tree_lamp lamp_manifest "lamp" ["firmware"; "lamp"] =
    Ok ([("custom", JInt 7); ("chip", JStr "esp8266"); ("version", JStr "10.0.0");
         ("firmware",
          binary_record ["firmware"; "lamp"; "v10.0.0"; "firmware.bin"]
            (bytes_of "abc"))], true) ∧
  lamp_manifest.*1 `prefix_of` ["custom"; "chip"; "version"; "firmware"].
Proof.
  assert (process_firmware tree_lamp lamp_manifest "lamp" ["firmware"; "lamp"] =
    Ok ([("custom", JInt 7); ("chip", JStr "esp8266"); ("version", JStr "10.0.0");
         ("firmware",
          binary_record ["firmware"; "lamp"; "v10.0.0"; "firmware.bin"]
            (bytes_of "abc"))], true)) as H by (vm_compute; reflexivity).
  split; [exact H|].
  exact (proj2 (proj1 (artifact_functions_frame tree_lamp lamp_manifest "lamp"
                         ["firmware"; "lamp"]) _ _ H)).
Defined.

(** ** The URL of a firmware binary *)

(** X12. The URL [process_firmware] stores for the firmware of a device
    is [REPO_URL_BASE], then [/firmware/], the device, the name of the
    version directory and [firmware.bin], separated by slashes; the name
    is the one of the directory, which [VERSION_RE] matches. *)
Theorem firmware_url t m d m' :
  process_firmware t m d (child firmware_root d) = Ok (m', true) →
  ∃ n version data,
    VERSION_RE_match n = Some version ∧
    t !! ["firmware"; d; n; "firmware.bin"] = Some (File data) ∧
    dict_get m' "version" = Some (JStr version) ∧
    dict_get m' "firmware" =
      Some (JDict [("url", JStr (REPO_URL_BASE +:+ "/firmware/" +:+ d +:+ "/" +:+ n +:+
                                 "/firmware.bin"));
                   ("sha256", JStr (SHA256.hex (SHA256.digest data)));
                   ("size", JInt (Z.of_nat (length data)))]).
Proof.
  intros H. unfold process_firmware in H.
  destruct (latest_version_dir t (child firmware_root d))
    as [[[version vdir]|]|e] eqn:Hl; rewrite ?bind_Ok, ?bind_Raise in H; [|done..].
  destruct (path_exists t (child vdir "firmware.bin")) eqn:Hex; cbn [negb] in H; [|done].
  destruct (sha256_of t (child vdir "firmware.bin")) as [digest|e] eqn:Hs;
    rewrite ?bind_Ok, ?bind_Raise in H; [|done].
  apply sha256_of_inv in Hs as (data & Hfile & ->).
  rewrite (st_size_content _ _ _ Hfile), bind_Ok in H. injection H as <-.
  apply latest_version_dir_inv in Hl as (names & n & _ & _ & -> & _ & Hm).
  exists n, version, data. split; [done|]. split; [done|].
  rewrite dict_get_set_eq, dict_get_set_ne, dict_get_set_eq by done.
  split; reflexivity.
Qed.

Lemma firmware_url_witness :
  process_firmware tree_lamp [] "lamp" (child firmware_root "lamp") =
    Ok ([("version", JStr "10.0.0");
         ("firmware",
          JDict [("url", JStr "https://raw.githubusercontent.com/kubkpower/halloween_dmx_pub/main/firmware/lamp/v10.0.0/firmware.bin");
                 ("sha256", JStr "ba7816bf8f01cfea414140de5dae2223b00361a396177a9cb410ff61f20015ad");
                 ("size", JInt 3)])], true) ∧
  ∃ n, VERSION_RE_match n = Some "10.0.0".
Proof.
  assert (process_firmware tree_lamp [] "lamp" (child firmware_root "lamp") =
    Ok ([("version", JStr "10.0.0");
         ("firmware",
          JDict [("url", JStr "https://raw.githubusercontent.com/kubkpower/halloween_dmx_pub/main/firmware/lamp/v10.0.0/firmware.bin");
                 ("sha256", JStr "ba7816bf8f01cfea414140de5dae2223b00361a396177a9cb410ff61f20015ad");
                 ("size", JInt 3)])], true)) as H by (vm_compute; reflexivity).
  split; [exact H|].
  destruct (firmware_url _ _ _ _ H) as (n & version & data & Hm & _ & Hv & _).
  exists n. rewrite Hm. f_equal.
  injection Hv as Hv. symmetry; exact Hv.
Defined.

(** * Further properties of a run *)

(** ** The devices *)

Lemma scan_fold_elem t root names (acc : gset string) d :
  d ∈ fold_left (scan_step t root) names acc ↔
  d ∈ acc ∨ (d ∈ names ∧ is_dir t (child root d) = true).
Proof.
  revert acc. induction names as [|n names IH]; intros acc; cbn [fold_left].
  - split; [by left|]. by intros [?|[?%elem_of_nil _]].
  - rewrite IH. unfold scan_step. rewrite elem_of_cons.
    destruct (is_dir t (child root n)) eqn:Hn.
    + rewrite elem_of_union, elem_of_singleton.
      split; [intros [[?| ->]|[? ?]]|intros [?|[[->|?] ?]]]; auto.
    + split; [intros [?|[? ?]]|intros [?|[[->|?] ?]]]; auto. congruence.
Qed.

Lemma scan_root_elem t acc root acc' d :
  scan_root t acc root = Ok acc' →
  d ∈ acc' ↔ d ∈ acc ∨ device_under t root d.
Proof.
  unfold scan_root, device_under, path_exists, iterdir.
  destruct (t !! root) as [[data|names]|] eqn:Hr; rewrite ?bind_Ok, ?bind_Raise.
  - done.
  - intros [= <-]. rewrite scan_fold_elem. split.
    + intros [?|[? ?]]; [by left|right]. by exists names.
    + intros [?|(names' & [= <-] & ? & ?)]; [by left|by right].
  - intros [= <-]. split; [by left|]. by intros [?|(? & [=] & _)].
Qed.

Lemma scan_root_raise t acc root e :
  scan_root t acc root = Raise e →
  e = NotADirectoryError ∧ ∃ data, t !! root = Some (File data).
Proof.
  unfold scan_root, path_exists, iterdir.
  destruct (t !! root) as [[data|names]|] eqn:Hr; rewrite ?bind_Ok, ?bind_Raise;
    [|done..].
  intros [= <-]. by eauto.
Qed.

Lemma scan_root_file t acc root data :
  t !! root = Some (File data) → scan_root t acc root = Raise NotADirectoryError.
Proof. intros H. unfold scan_root, path_exists, iterdir. by rewrite H. Qed.

(** X13. The devices are the names that are a directory directly under
    [firmware/], [spiffs/] or [config/]: a root that does not exist gives
    none, a regular file under a root is not a device, and a device under
    several roots counts once. *)
Theorem discover_devices_elem t devices d :
  discover_devices t = Ok devices →
  d ∈ devices ↔ ∃ root, root ∈ roots ∧ device_under t root d.
Proof.
  unfold discover_devices.
  destruct (scan_root t ∅ firmware_root) as [d1|e] eqn:H1;
    rewrite ?bind_Ok, ?bind_Raise; [|done].
  destruct (scan_root t d1 spiffs_root) as [d2|e] eqn:H2;
    rewrite ?bind_Ok, ?bind_Raise; [|done].
  intros H3.
  rewrite (scan_root_elem _ _ _ _ d H3), (scan_root_elem _ _ _ _ d H2),
    (scan_root_elem _ _ _ _ d H1).
  unfold roots. split.
  - intros [[[?%not_elem_of_empty|?]|?]|?]; [done|..].
    + exists firmware_root. split; [by left|done].
    + exists spiffs_root. split; [right; by left|done].
    + exists config_root. split; [right; right; by left|done].
  - intros (root & Hin & Hu).
    apply elem_of_cons in Hin as [->|Hin]; [by left; left; right|].
    apply elem_of_cons in Hin as [->|Hin]; [by left; right|].
    apply list_elem_of_singleton in Hin as ->. by right.
Qed.

Lemma discover_devices_elem_witness :
  discover_devices tree_lamp = Ok {["lamp"; "ghost"]} ∧
  device_under tree_lamp config_root "ghost" ∧
  ¬ device_under tree_lamp firmware_root "lamp.manifest.json".
Proof.
  assert (discover_devices tree_lamp = Ok {["lamp"; "ghost"]}) as H
    by (vm_compute; reflexivity).
  split; [exact H|]. split.
  - exists ["lamp"; "ghost"]. split; [vm_compute; reflexivity|]. split.
    + apply list_elem_of_further, list_elem_of_here.
    + vm_compute; reflexivity.
  - intros Hu.
    assert ("lamp.manifest.json" ∈ ({["lamp"; "ghost"]} : gset string)) as Hin.
    { apply (discover_devices_elem tree_lamp _ "lamp.manifest.json" H).
      exists firmware_root. split; [apply list_elem_of_here|exact Hu]. }
    apply elem_of_union in Hin as [Hin|Hin]; apply elem_of_singleton in Hin;
      discriminate Hin.
Defined.

(** ** More on the keys *)

Lemma rest_part_keys_order t device us :
  rest_part t device [] = Ok us → us.*1 `sublist_of` ["spiffs"; "config"].
Proof.
  unfold rest_part.
  destruct (if path_exists t (child spiffs_root device)
            then process_spiffs t [] device (child spiffs_root device)
            else Ok []) as [us2|e] eqn:H2; rewrite ?bind_Ok, ?bind_Raise; [|done].
  assert (us2.*1 = [] ∨ us2.*1 = ["spiffs"]) as Hk2.
  { destruct (path_exists t (child spiffs_root device)).
    - by eapply process_spiffs_keys.
    - injection H2 as <-. by left. }
  destruct (path_exists t (child config_root device)).
  - rewrite process_config_updates.
    destruct (process_config t [] device (child config_root device)) as [us3|e] eqn:H3;
      rewrite ?bind_Ok, ?bind_Raise; [|done].
    intros [= <-]. apply process_config_keys in H3.
    destruct Hk2 as [->%keys_nil|[v2 ->]%keys_one];
      destruct H3 as [->%keys_nil|[v3 ->]%keys_one]; cbn.
    + apply sublist_nil_l.
    + apply sublist_cons, sublist_skip, sublist_nil_l.
    + apply sublist_skip, sublist_nil_l.
    + apply sublist_skip, sublist_skip, sublist_nil_l.
  - intros [= <-]. destruct Hk2 as [->%keys_nil|[v2 ->]%keys_one]; cbn.
    + apply sublist_nil_l.
    + apply sublist_skip, sublist_nil_l.
Qed.

Lemma defaults_keys device m :
  ∃ added, (defaults device m).*1 = m.*1 ++ added ∧
           added `sublist_of` ["$schema"; "name"; "chip"].
Proof.
  unfold defaults. rewrite !setdefault_keys, !dict_set_keys, !setdefault_keys,
    !dict_set_keys, !setdefault_keys, !dict_set_keys.
  rewrite <- !app_assoc. eexists. split; [reflexivity|].
  apply (sublist_app _ [_] _ [_; _]); [|apply (sublist_app _ [_] _ [_])].
  - destruct (decide _); [apply sublist_nil_l|done].
  - destruct (decide _); [apply sublist_nil_l|done].
  - destruct (decide _); [apply sublist_nil_l|done].
Qed.

Lemma updates_keys_order t device us1 found us2 :
  fw_part t device [] = Ok (us1, found) →
  rest_part t device [] = Ok us2 →
  (us1 ++ us2).*1 `sublist_of` ["version"; "firmware"; "spiffs"; "config"].
Proof.
  intros H1%fw_part_keys H2%rest_part_keys_order.
  rewrite fmap_app, H1.
  apply (sublist_app _ [_; _] _ [_; _]); [|done].
  destruct found; [done|apply sublist_nil_l].
Qed.

Lemma sublist_elem {A : Type} (l k : list A) x :
  l `sublist_of` k → x ∈ l → x ∈ k.
Proof.
  induction 1 as [|y l k _ IH|y l k _ IH]; [done| |].
  - intros [->|?]%elem_of_cons; [by left|right; auto].
  - intros ?. right. auto.
Qed.

(** ** Lines of the output *)

Lemma string_app_inj_l p x y : p +:+ x = p +:+ y → x = y.
Proof.
  induction p as [|c p IH]; [done|].
  rewrite !string_app_cons. intros [= H]. by apply IH.
Qed.

Lemma note_line_inj d d' : note_line d = note_line d' → d = d'.
Proof.
  unfold note_line. intros H%string_app_inj_l. by apply string_app_inj_r in H.
Qed.

Lemma first_char_note d : first_char (note_line d) = Some " "%char.
Proof. reflexivity. Qed.

Lemma first_char_updated name : first_char ("Updated " +:+ name) = Some "U"%char.
Proof. reflexivity. Qed.

Lemma first_char_done n : first_char (done_line n) = Some (ascii_of_N 10).
Proof. reflexivity. Qed.

(** ** Entries of artifacts that are gone *)

Lemma rest_part_stale t d m m' :
  rest_part t d m = Ok m' →
  (t !! child (child config_root d) "config.yaml" = None →
   dict_get m' "config" = dict_get m "config") ∧
  (no_spiffs_binary t d → dict_get m' "spiffs" = dict_get m "spiffs").
Proof.
  unfold rest_part.
  destruct (if path_exists t (child spiffs_root d)
            then process_spiffs t m d (child spiffs_root d)
            else Ok m) as [m1|e] eqn:H1; rewrite ?bind_Ok, ?bind_Raise; [|done].
  intros H2. split.
  - intros Hnone.
    assert (m' = m1) as ->.
    { destruct (path_exists t (child config_root d)); [|by injection H2].
      unfold process_config, path_exists in H2. rewrite Hnone in H2.
      by injection H2. }
    destruct (path_exists t (child spiffs_root d)); [|by injection H1 as <-].
    by eapply process_spiffs_frame.
  - intros Hno.
    assert (m1 = m) as ->.
    { destruct (path_exists t (child spiffs_root d)) eqn:Hex; [|by injection H1].
      unfold process_spiffs in H1.
      destruct Hno as [Hno|[Hno|(version & vdir & Hno & Hbin)]]; [congruence| |].
      - rewrite Hno, bind_Ok in H1. by injection H1.
      - rewrite Hno, bind_Ok, Hbin in H1. by injection H1. }
    destruct (path_exists t (child config_root d)); [|by injection H2 as <-].
    by eapply process_config_frame.
Qed.

Section Further.
Variable json_loads : string → option json.
Variable json_dumps : json → string.

Abbreviation for_devices' := (for_devices json_loads json_dumps).
Abbreviation device_body' := (device_body json_loads json_dumps).
Abbreviation main' := (main json_loads json_dumps).
Abbreviation run' := (run json_loads json_dumps).

(** X14. When one of the three roots is a regular file, the run raises
    [NotADirectoryError] while it collects the devices: nothing is
    printed and no file is touched.  No other exception can come from
    the collection. *)
Theorem root_not_a_directory t :
  (∀ e, discover_devices t = Raise e →
        e = NotADirectoryError ∧ run' t = (Raise NotADirectoryError, World t [] [])) ∧
  ((∃ root data, root ∈ roots ∧ t !! root = Some (File data)) ↔
   discover_devices t = Raise NotADirectoryError).
Proof.
  assert (∀ e, discover_devices t = Raise e →
               e = NotADirectoryError ∧
               ∃ root data, root ∈ roots ∧ t !! root = Some (File data)) as Hraise.
  { intros e. unfold discover_devices, roots.
    destruct (scan_root t ∅ firmware_root) as [d1|e1] eqn:H1;
      rewrite ?bind_Ok, ?bind_Raise.
    - destruct (scan_root t d1 spiffs_root) as [d2|e2] eqn:H2;
        rewrite ?bind_Ok, ?bind_Raise.
      + intros (-> & data & Hf)%scan_root_raise. split; [done|].
        exists config_root, data. split; [|done]. right; right; by left.
      + intros [= <-]. apply scan_root_raise in H2 as (-> & data & Hf).
        split; [done|]. exists spiffs_root, data. split; [|done]. right; by left.
    - intros [= <-]. apply scan_root_raise in H1 as (-> & data & Hf).
      split; [done|]. exists firmware_root, data. split; [by left|done]. }
  split.
  - intros e He. destruct (Hraise e He) as [-> _]. split; [done|].
    unfold run. rewrite main_eq. cbn [files]. by rewrite He.
  - split.
    + intros (root & data & Hin & Hf). unfold discover_devices.
      destruct (scan_root t ∅ firmware_root) as [d1|e1] eqn:H1;
        rewrite ?bind_Ok, ?bind_Raise.
      * destruct (scan_root t d1 spiffs_root) as [d2|e2] eqn:H2;
          rewrite ?bind_Ok, ?bind_Raise.
        -- unfold roots in Hin.
           apply elem_of_cons in Hin as [->|Hin];
             [by rewrite (scan_root_file _ _ _ _ Hf) in H1|].
           apply elem_of_cons in Hin as [->|Hin];
             [by rewrite (scan_root_file _ _ _ _ Hf) in H2|].
           apply list_elem_of_singleton in Hin as ->.
           by apply scan_root_file with data.
        -- by apply scan_root_raise in H2 as (-> & _).
      * by apply scan_root_raise in H1 as (-> & _).
    + intros He. by destruct (Hraise _ He) as [_ ?].
Qed.

(** A run that completes is a loop that completes, and a last line *)
Lemma run_ok_loop t devices :
  discover_devices t = Ok devices → devices ≠ ∅ → (run' t).1 = Ok () →
  ∃ updated wf,
    for_devices' (sorted devices) [] (World t [] []) = (Ok updated, wf) ∧
    run' t = (Ok (), World (files wf) (stdout wf ++ [done_line (length updated)])
                       (saved wf)).
Proof.
  intros Hd Hne. unfold run. rewrite main_eq. cbn [files]. rewrite Hd.
  rewrite decide_False by done.
  destruct (for_devices' (sorted devices) [] (World t [] [])) as [[updated|e] wf];
    [|done].
  intros _. by exists updated, wf.
Qed.

Lemma devices_nonempty (devices : gset string) d : d ∈ devices → devices ≠ ∅.
Proof. intros Hin ->. by apply not_elem_of_empty in Hin. Qed.

(** *** The manifests written and the last line *)

Lemma for_devices_updated devs :
  ∀ upd w updated wf,
    for_devices' devs upd w = (Ok updated, wf) →
    updated = upd ++ (manifest_name <$> devs) ∧
    (saved wf).*1 = (saved w).*1 ++ (manifest_path_of <$> devs).
Proof.
  induction devs as [|d devs IH]; intros upd w updated wf.
  - intros [= <- <-]. by rewrite !app_nil_r.
  - rewrite for_devices_cons.
    destruct (device_body' d w) as [[name|e] w1] eqn:Hb; [|done].
    apply device_body_outcome in Hb.
    inversion Hb as [|m found m' w1' _ _ _ _ Hs]; subst.
    intros (-> & ->)%IH. rewrite Hs, fmap_app. cbn.
    by rewrite <- !app_assoc.
Qed.

Lemma sorted_length (devices : gset string) : length (sorted devices) = size devices.
Proof. unfold sorted. by rewrite merge_sort_Permutation. Qed.

(** X15. A run that completes has saved one manifest for each device, in
    the ascending order of the names of the devices, and its last line
    counts the devices. *)
Theorem one_manifest_per_device t devices :
  discover_devices t = Ok devices → devices ≠ ∅ → (run' t).1 = Ok () →
  (saved (run' t).2).*1 = manifest_path_of <$> sorted devices ∧
  last (stdout (run' t).2) = Some (done_line (size devices)) ∧
  StronglySorted String.le (sorted devices) ∧
  NoDup (sorted devices) ∧
  (∀ d, d ∈ sorted devices ↔ d ∈ devices).
Proof.
  intros Hd Hne Hok.
  destruct (run_ok_loop t devices Hd Hne Hok) as (updated & wf & Hloop & ->).
  apply for_devices_updated in Hloop as [-> Hs]. cbn [snd saved stdout].
  split; [done|]. split.
  - by rewrite last_snoc, app_nil_l, length_fmap, sorted_length.
  - split; [apply sorted_strongly|]. split; [apply sorted_NoDup|].
    intros d. apply sorted_elem.
Qed.

(** *** What a run leaves alone *)

Lemma body_outcome_exists device w r w' q :
  body_outcome json_loads json_dumps device w r w' →
  path_exists (files w) q = true → path_exists (files w') q = true.
Proof.
  intros [e w1 Hf _ _|m found m' w1 _ _ Hw _ _].
  - by rewrite Hf.
  - apply write_manifest_ok in Hw as (Hmp & Hother & _ & Hroot).
    unfold path_exists.
    destruct (decide (q = manifest_path_of device)) as [->|Hq]; [by rewrite Hmp|].
    destruct (decide (q = firmware_root)) as [->|Hq'].
    + destruct Hroot as [-> |(names & _ & ->)]; done.
    + by rewrite Hother.
Qed.

Lemma for_devices_exists devs upd w r w' q :
  for_devices' devs upd w = (r, w') →
  path_exists (files w) q = true → path_exists (files w') q = true.
Proof.
  revert upd w. induction devs as [|d devs IH]; intros upd w.
  - by intros [= <- <-].
  - rewrite for_devices_cons.
    destruct (device_body' d w) as [[name|e] wd] eqn:Hb;
      apply device_body_outcome in Hb.
    + intros Hrun Hq. eapply IH; [exact Hrun|]. by eapply body_outcome_exists.
    + intros [= <- <-]. by eapply body_outcome_exists.
Qed.

(** X16. A run writes nowhere but to the manifests of the devices and to
    the listing of [firmware/]: every other path holds after the run what
    it held before, whether the run completes or raises.  No path is
    removed, and no directory is made or replaced. *)
Theorem run_leaves_other_files t devices :
  discover_devices t = Ok devices →
  (∀ q, q ≠ firmware_root → (∀ d, d ∈ devices → q ≠ manifest_path_of d) →
        files (run' t).2 !! q = t !! q) ∧
  (∀ q, is_dir (files (run' t).2) q = is_dir t q) ∧
  (∀ q, path_exists t q = true → path_exists (files (run' t).2) q = true).
Proof.
  intros Hd. destruct (decide (devices = ∅)) as [->|Hne].
  - assert (run' t = (Ok (), World t [nothing_line] [])) as ->; [|done].
    unfold run. rewrite main_eq. cbn [files]. by rewrite Hd.
  - destruct (run_loop json_loads json_dumps t devices Hd Hne) as (-> & _ & _).
    destruct (for_devices' (sorted devices) [] (World t [] [])) as [r wf] eqn:Hloop.
    pose proof (for_devices_footprint _ _ _ _ _ _ _ Hloop) as ([Hdir _] & _ & Hother & _).
    cbn [snd files] in *. split; [|split; [done|]].
    + intros q Hq Hmp. apply Hother; [done|].
      intros d Hin%sorted_elem. by apply Hmp.
    + intros q. by apply (for_devices_exists _ _ _ _ _ q Hloop).
Qed.

(** *** Two devices that cannot both be served *)

Lemma loop_clash devs :
  StronglySorted String.le devs → NoDup devs →
  ∀ upd w updated wf x,
    for_devices' devs upd w = (Ok updated, wf) →
    x ∈ devs → manifest_name x ∈ devs → False.
Proof.
  induction devs as [|d devs IH]; intros Hsorted Hnd upd w updated wf x Hrun Hx Hy.
  - by apply elem_of_nil in Hx.
  - apply StronglySorted_inv in Hsorted as [Hsorted Hle].
    apply NoDup_cons in Hnd as [Hnin Hnd].
    rewrite for_devices_cons in Hrun.
    destruct (device_body' d w) as [[name|e] w1] eqn:Hb; [|done].
    apply elem_of_cons in Hx as [->|Hx].
    + apply elem_of_cons in Hy as [Hy|Hy]; [by apply manifest_name_ne in Hy|].
      destruct (loop_reaches json_loads json_dumps devs Hnd _ _ _ _ Hrun _ Hy)
        as (wd & wd' & Hbd & Ht & _).
      apply device_body_outcome in Hb.
      inversion Hb as [|m found m' w1' _ _ Hw _ _]; subst.
      apply write_manifest_ok in Hw as (Hmp & _).
      apply (body_ok_fw_dir _ _ _ _ _ _ (manifest_bytes json_dumps m') Hbd).
      rewrite <- Hmp. symmetry. apply Ht. right. by exists "firmware", [].
    + apply elem_of_cons in Hy as [Hy|Hy].
      * by apply (sorted_not_manifest_of_later d devs x Hle Hnin Hx).
      * by apply (IH Hsorted Hnd _ _ _ _ x Hrun).
Qed.

(** X17. When [x] and [x.manifest.json] are both devices, no run
    completes: the manifest of the first has the path of the firmware
    directory of the second. *)
Theorem manifest_named_device t devices x :
  discover_devices t = Ok devices →
  x ∈ devices → manifest_name x ∈ devices →
  ∃ e, (run' t).1 = Raise e.
Proof.
  intros Hd Hx Hy.
  destruct (run_loop json_loads json_dumps t devices Hd (devices_nonempty _ _ Hx))
    as (_ & _ & Hst).
  destruct (for_devices' (sorted devices) [] (World t [] [])) as [[updated|e] wf]
    eqn:Hloop; cbn [fst] in Hst.
  - exfalso.
    apply (loop_clash (sorted devices) (sorted_strongly _) (sorted_NoDup _)
             _ _ _ _ x Hloop); by apply sorted_elem.
  - exists e. destruct (run' t).1 as [a|e']; simpl in Hst; [done|by subst].
Qed.

(** *** A manifest that is not an object *)

Lemma body_not_object d w data j :
  files w !! manifest_path_of d = Some (File data) →
  json_loads (string_of_list_byte data) = Some j →
  (∀ m, j ≠ JDict m) →
  device_body' d w = (Raise AttributeError, w).
Proof.
  intros Hf Hj Hnd. rewrite device_body_eq.
  unfold stage1, load_manifest, path_exists, read_bytes. rewrite Hf, bind_Ok, Hj, bind_Ok.
  destruct j; rewrite ?bind_Raise; try done. by destruct (Hnd items).
Qed.

(** X18. A manifest file that holds JSON other than an object makes the
    run raise [AttributeError] when it comes to its device: the file stays
    as it is, and nothing is printed or written for this device or for
    the devices after it. *)
Theorem manifest_not_an_object t devices devs1 d devs2 upd1 w1 data j :
  discover_devices t = Ok devices →
  sorted devices = devs1 ++ d :: devs2 →
  for_devices' devs1 [] (World t [] []) = (Ok upd1, w1) →
  t !! manifest_path_of d = Some (File data) →
  json_loads (string_of_list_byte data) = Some j →
  (∀ m, j ≠ JDict m) →
  run' t = (Raise AttributeError, w1) ∧
  files w1 !! manifest_path_of d = Some (File data).
Proof.
  intros Hd Hsorted Hloop Hf Hj Hnd.
  assert (d ∈ devices) as Hin.
  { apply sorted_elem. rewrite Hsorted. apply elem_of_app. right. by left. }
  assert (files w1 !! manifest_path_of d = Some (File data)) as Hf1.
  { rewrite <- Hf.
    apply (for_devices_footprint _ _ _ _ _ _ _ Hloop); [apply manifest_path_ne_root|].
    intros d' Hd' ->%manifest_path_inj.
    pose proof (sorted_NoDup devices) as Hnodup. rewrite Hsorted in Hnodup.
    apply NoDup_app in Hnodup as (_ & Hdisj & _).
    apply (Hdisj d' Hd'). by left. }
  split; [|done].
  unfold run. rewrite main_eq. cbn [files]. rewrite Hd.
  rewrite decide_False by by eapply devices_nonempty.
  rewrite Hsorted, for_devices_app, Hloop, for_devices_cons.
  by rewrite (body_not_object d w1 data j Hf1 Hj Hnd).
Qed.

(** *** Saving and loading *)

(** X19. After [save_manifest] has returned, [load_manifest] on the same
    path gives the dictionary that was saved, when the text written reads
    back as JSON; the file is there even when it was not before.  No path
    other than the file and its directory has changed, and nothing was
    printed. *)
Theorem save_then_load p m w w' :
  save_manifest json_dumps p m w = (Ok (), w') →
  reads_back json_loads json_dumps m →
  load_manifest json_loads (files w') p = Ok (JDict m) ∧
  files w' !! p = Some (File (manifest_bytes json_dumps m)) ∧
  (∀ q, q ≠ p → q ≠ parent p → files w' !! q = files w !! q) ∧
  stdout w' = stdout w.
Proof.
  unfold save_manifest, write_bytes. intros Hsave Hrb.
  assert (files w' !! p = Some (File (manifest_bytes json_dumps m)) ∧
          (∀ q, q ≠ p → q ≠ parent p → files w' !! q = files w !! q) ∧
          stdout w' = stdout w) as (Hp & Hother & Hout).
  { destruct (files w !! p) as [[data|names]|] eqn:Hwp; [| done |].
    - injection Hsave as <-. cbn [files stdout].
      split; [apply lookup_insert_eq|]. split; [|done].
      intros q Hq _. by rewrite lookup_insert_ne.
    - destruct (files w !! parent p) as [[data|names]|] eqn:Hpp; [done| |done].
      injection Hsave as <-. cbn [files stdout].
      split; [apply lookup_insert_eq|]. split; [|done].
      intros q Hq Hq'. by rewrite !lookup_insert_ne. }
  split; [|done].
  unfold load_manifest, path_exists, read_bytes. rewrite Hp, bind_Ok.
  by rewrite Hrb.
Qed.

(** *** The keys of a manifest written *)

(** The file of a manifest that reads back *)
Lemma load_saved t p m :
  t !! p = Some (File (manifest_bytes json_dumps m)) →
  reads_back json_loads json_dumps m →
  load_manifest json_loads t p = Ok (JDict m).
Proof.
  intros Hf Hrb. unfold load_manifest, path_exists, read_bytes.
  rewrite Hf, bind_Ok. by rewrite Hrb.
Qed.

(** X20. In the manifest a run writes for a device, the keys of the
    manifest it loaded keep their places; the keys it adds come after
    them, in the order [$schema], [name], [chip], [version], [firmware],
    [spiffs], [config].  The manifest is the one in the file when the run
    ends: the file holds its text and a newline, and [load_manifest]
    reads it from there, the library reading back what it wrote. *)
Theorem manifest_keys_order t devices d :
  discover_devices t = Ok devices → d ∈ devices → (run' t).1 = Ok () →
  (∀ p m, (p, m) ∈ saved (run' t).2 → reads_back json_loads json_dumps m) →
  ∃ m0 m' added,
    load_manifest json_loads t (manifest_path_of d) = Ok (JDict m0) ∧
    files (run' t).2 !! manifest_path_of d =
      Some (File (list_byte_of_string (json_dumps (JDict m') +:+ newline))) ∧
    load_manifest json_loads (files (run' t).2) (manifest_path_of d) = Ok (JDict m') ∧
    m'.*1 = m0.*1 ++ added ∧
    added `sublist_of` managed_keys.
Proof.
  intros Hd Hin Hok Hrb.
  destruct (run_device json_loads json_dumps t devices d Hd Hin Hok)
    as (m & found & m' & H1 & H2 & Hfile & _ & _ & Hsaved).
  pose proof (load_saved _ _ _ Hfile (Hrb _ _ Hsaved)) as Hback.
  destruct (stages_merge json_loads t d m found m' H1 H2)
    as (m0 & us1 & us2 & Hload & Hfw & Hrest & -> & -> & Hnd).
  destruct (defaults_keys d m0) as (added0 & Hk0 & Hsub0).
  exists m0, (apply_updates us2 (apply_updates us1 (defaults d m0))),
    (added0 ++ filter (λ k, k ∉ (defaults d m0).*1) (us1 ++ us2).*1).
  split; [done|]. split; [done|]. split; [done|]. split.
  - rewrite <- apply_updates_app, apply_updates_keys by done.
    by rewrite Hk0, <- app_assoc.
  - apply (sublist_app _ [_; _; _] _ [_; _; _; _]); [done|].
    etrans; [apply sublist_filter|]. by eapply updates_keys_order.
Qed.

(** X21. A device that has no manifest gets one that holds [$schema],
    [name] and [chip] with their defaults, in this order, then the
    entries of the artifacts found, and nothing else.  The file holds its
    text and a newline when the run ends, and [load_manifest] reads the
    manifest from there, the library reading back what it wrote. *)
Theorem fresh_manifest t devices d :
  discover_devices t = Ok devices → d ∈ devices → (run' t).1 = Ok () →
  path_exists t (manifest_path_of d) = false →
  (∀ p m, (p, m) ∈ saved (run' t).2 → reads_back json_loads json_dumps m) →
  ∃ us,
    files (run' t).2 !! manifest_path_of d =
      Some (File (list_byte_of_string
                    (json_dumps (JDict ([("$schema", JStr schema_url); ("name", JStr d);
                                         ("chip", JStr "esp32")] ++ us)) +:+ newline))) ∧
    load_manifest json_loads (files (run' t).2) (manifest_path_of d) =
      Ok (JDict ([("$schema", JStr schema_url); ("name", JStr d);
                  ("chip", JStr "esp32")] ++ us)) ∧
    us.*1 `sublist_of` ["version"; "firmware"; "spiffs"; "config"].
Proof.
  intros Hd Hin Hok Hex Hrb.
  destruct (run_device json_loads json_dumps t devices d Hd Hin Hok)
    as (m & found & m' & H1 & H2 & Hfile & _ & _ & Hsaved).
  pose proof (load_saved _ _ _ Hfile (Hrb _ _ Hsaved)) as Hback.
  destruct (stages_merge json_loads t d m found m' H1 H2)
    as (m0 & us1 & us2 & Hload & Hfw & Hrest & -> & -> & Hnd).
  unfold load_manifest in Hload. rewrite Hex in Hload. injection Hload as <-.
  pose proof (updates_keys_order t d us1 found us2 Hfw Hrest) as Hsub.
  exists (us1 ++ us2).
  assert (apply_updates us2 (apply_updates us1 (defaults d [])) =
          [("$schema", JStr schema_url); ("name", JStr d); ("chip", JStr "esp32")] ++
          (us1 ++ us2)) as Heq.
  { rewrite <- apply_updates_app.
    apply (apply_updates_fresh (us1 ++ us2) (defaults d [])); [done|].
    intros k Hk%(sublist_elem _ _ _ Hsub)%list_elem_of_In
      Hk'%list_elem_of_In. cbn in Hk, Hk'.
    destruct Hk as [<-|[<-|[<-|[<-|[]]]]]; destruct Hk' as [?|[?|[?|[]]]]; done. }
  rewrite Heq in Hfile, Hback. done.
Qed.

(** *** The note *)

Lemma stage1_not_found t d m :
  stage1 json_loads t d = Ok (m, false) → no_firmware_binary t d.
Proof.
  unfold stage1.
  destruct (load_manifest json_loads t (manifest_path_of d)) as [j|e];
    rewrite ?bind_Ok, ?bind_Raise; [|done].
  destruct (as_dict j) as [m0|e]; rewrite ?bind_Ok, ?bind_Raise; [|done].
  unfold fw_part, no_firmware_binary.
  destruct (path_exists t (child firmware_root d)) eqn:Hex; [|by left].
  intros H. right. unfold process_firmware in H.
  destruct (latest_version_dir t (child firmware_root d))
    as [[[version vdir]|]|e] eqn:Hl; rewrite ?bind_Ok, ?bind_Raise in H; [| |done].
  - right. exists version, vdir. split; [done|].
    destruct (path_exists t (child vdir "firmware.bin")); [|done].
    cbn [negb] in H.
    destruct (sha256_of t (child vdir "firmware.bin"));
      rewrite ?bind_Ok, ?bind_Raise in H; [|done].
    by destruct (st_size t (child vdir "firmware.bin"));
      rewrite ?bind_Ok, ?bind_Raise in H.
  - left. destruct (iterdir t (child firmware_root d)) as [names|e] eqn:Hit.
    + exists names. split; [done|]. intros n Hn Hdir.
      pose proof (latest_version_dir_spec _ _ _ Hit) as Hs. rewrite Hl in Hs.
      specialize (Hs n Hn). unfold candidate in Hs. rewrite Hdir in Hs.
      by destruct (VERSION_RE_match n).
    + unfold latest_version_dir in Hl. by rewrite Hit in Hl.
Qed.

Lemma loop_stdout devs :
  NoDup devs →
  ∀ upd w updated wf,
    for_devices' devs upd w = (Ok updated, wf) →
    ∀ line, line ∈ stdout wf →
      line ∈ stdout w ∨
      ∃ d, d ∈ devs ∧
           (line = "Updated " +:+ manifest_name d ∨
            (line = note_line d ∧ ∃ m, stage1 json_loads (files w) d = Ok (m, false))).
Proof.
  induction devs as [|d devs IH]; intros Hnd upd w updated wf Hrun line Hline.
  - injection Hrun as <- <-. by left.
  - apply NoDup_cons in Hnd as [Hnin Hnd]. rewrite for_devices_cons in Hrun.
    destruct (device_body' d w) as [[name|e] w1] eqn:Hb; [|done].
    pose proof (device_body_outcome _ _ _ _ _ _ Hb) as Hout.
    destruct (IH Hnd _ _ _ _ Hrun line Hline) as [Hl|(d' & Hd' & Hl)].
    + inversion Hout as [|m found m' w1' H1 _ _ Ho _]; subst.
      rewrite Ho in Hl. apply elem_of_app in Hl as [Hl|Hl%list_elem_of_singleton].
      * destruct found; cbn [noted] in Hl; [by left|].
        apply elem_of_app in Hl as [Hl|Hl%list_elem_of_singleton]; [by left|].
        right. exists d. split; [by left|]. right. split; [done|]. by exists m.
      * right. exists d. split; [by left|]. by left.
    + right. exists d'. split; [by right|].
      destruct Hl as [Hl|[Hl [m Hs]]]; [by left|right]. split; [done|].
      exists m. rewrite <- Hs. apply stage1_tight. intros q Hq. unfold tight.
      symmetry. eapply body_outcome_other; [exact Hout| |].
      * destruct Hq as [->|(r & rest & ->)]; done.
      * intros ->. destruct Hq as [Heq%manifest_path_inj|(r & rest & [= <- <- <-])].
        -- by subst.
        -- destruct (loop_reaches json_loads json_dumps devs Hnd _ _ _ _ Hrun _ Hd')
             as (wd & wd' & Hbd & Ht & _).
           inversion Hout as [|m1 found m' w1' _ _ Hw _ _]; subst.
           apply write_manifest_ok in Hw as (Hmp & _).
           apply (body_ok_fw_dir _ _ _ _ _ _ (manifest_bytes json_dumps m') Hbd).
           rewrite <- Hmp. symmetry. apply Ht. right. by exists "firmware", [].
Qed.

(** X22. In a run that completes, the note about the firmware is printed
    for a device exactly when the program finds no firmware binary for
    it: no firmware directory, no matching version directory in it, or no
    [firmware.bin] in the latest one. *)
Theorem note_iff_no_binary t devices d :
  discover_devices t = Ok devices → d ∈ devices → (run' t).1 = Ok () →
  note_line d ∈ stdout (run' t).2 ↔ no_firmware_binary t d.
Proof.
  intros Hd Hin Hok. split.
  - destruct (run_ok_loop t devices Hd (devices_nonempty _ _ Hin) Hok)
      as (updated & wf & Hloop & ->).
    cbn [snd stdout].
    intros [Hl|Hl%list_elem_of_singleton]%elem_of_app.
    + destruct (loop_stdout _ (sorted_NoDup devices) _ _ _ _ Hloop _ Hl)
        as [Hnil|(d' & _ & [Hu|[Hn [m Hs]]])].
      * by apply elem_of_nil in Hnil.
      * apply (f_equal first_char) in Hu.
        by rewrite first_char_note, first_char_updated in Hu.
      * apply note_line_inj in Hn as <-. by eapply stage1_not_found.
    + apply (f_equal first_char) in Hl.
      by rewrite first_char_note, first_char_done in Hl.
  - intros Hno.
    destruct (run_device json_loads json_dumps t devices d Hd Hin Hok)
      as (m & found & m' & H1 & _ & _ & Hnote & _).
    apply Hnote. unfold stage1 in H1.
    destruct (load_manifest json_loads t (manifest_path_of d)) as [j|e];
      rewrite ?bind_Ok, ?bind_Raise in H1; [|done].
    destruct (as_dict j) as [m0|e]; rewrite ?bind_Ok, ?bind_Raise in H1; [|done].
    rewrite (fw_part_missing _ _ _ Hno) in H1. injection H1 as <- <-.
    cbn. by left.
Qed.

(** X23. A run takes no key away from a manifest.  The entry [config]
    of a device whose [config.yaml] is gone, and the entry [spiffs] of a
    device without a file-system image, stay in the manifest as they
    were. *)
Theorem stale_entries_stay t devices d :
  discover_devices t = Ok devices → d ∈ devices → (run' t).1 = Ok () →
  ∃ m0 m',
    load_manifest json_loads t (manifest_path_of d) = Ok (JDict m0) ∧
    files (run' t).2 !! manifest_path_of d =
      Some (File (manifest_bytes json_dumps m')) ∧
    (∀ k, is_Some (dict_get m0 k) → is_Some (dict_get m' k)) ∧
    (t !! child (child config_root d) "config.yaml" = None →
     dict_get m' "config" = dict_get m0 "config") ∧
    (no_spiffs_binary t d → dict_get m' "spiffs" = dict_get m0 "spiffs").
Proof.
  intros Hd Hin Hok.
  destruct (run_device json_loads json_dumps t devices d Hd Hin Hok)
    as (m & found & m' & H1 & H2 & Hfile & _).
  unfold stage1 in H1.
  destruct (load_manifest json_loads t (manifest_path_of d)) as [j|e] eqn:Hload;
    rewrite ?bind_Ok, ?bind_Raise in H1; [|done].
  destruct j as [| | | | | |m0]; rewrite ?bind_Raise in H1; try done.
  cbn [as_dict] in H1. rewrite bind_Ok in H1.
  exists m0, m'. split; [done|]. split; [done|].
  assert (∀ k, k = "config" ∨ k = "spiffs" → dict_get m k = dict_get m0 k) as Hm.
  { intros k Hk. rewrite (fw_part_frame _ _ _ _ _ k H1).
    - apply defaults_get_other; destruct Hk as [-> | ->]; done.
    - destruct Hk as [-> | ->]; done.
    - destruct Hk as [-> | ->]; done. }
  destruct (rest_part_stale t d m m' H2) as [Hc Hs].
  split; [|split].
  - intros k Hk. rewrite rest_part_updates in H2.
    destruct (rest_part t d []) as [us2|e]; rewrite ?bind_Ok, ?bind_Raise in H2; [|done].
    injection H2 as <-. apply apply_updates_keeps.
    rewrite fw_part_updates in H1.
    destruct (fw_part t d []) as [[us1 f]|e]; rewrite ?bind_Ok, ?bind_Raise in H1; [|done].
    injection H1 as <- <-. apply apply_updates_keeps.
    apply dict_get_keys. apply dict_get_keys in Hk.
    destruct (defaults_keys d m0) as (added & -> & _).
    apply elem_of_app. by left.
  - intros Hnone. rewrite (Hc Hnone). apply Hm. by left.
  - intros Hno. rewrite (Hs Hno). apply Hm. by right.
Qed.

End Further.

(** * The further properties on concrete trees *)

Lemma root_not_a_directory_witness :
  tree_rootfile !! spiffs_root = Some (File (bytes_of "image")) ∧
  run_c tree_rootfile = (Raise NotADirectoryError, World tree_rootfile [] []).
Proof.
  assert (tree_rootfile !! spiffs_root = Some (File (bytes_of "image"))) as H
    by (vm_compute; reflexivity).
  split; [exact H|].
  destruct (root_not_a_directory JSONText.loads JSONText.dumps tree_rootfile)
    as [Hrun Hiff].
  apply (Hrun NotADirectoryError). apply Hiff.
  exists spiffs_root, (bytes_of "image"). split; [|exact H].
  apply list_elem_of_further, list_elem_of_here.
Defined.

Lemma one_manifest_per_device_witness :
  discover_devices tree_lamp = Ok {["lamp"; "ghost"]} ∧
  ({["lamp"; "ghost"]} : gset string) ≠ ∅ ∧
  (run_c tree_lamp).1 = Ok () ∧
  (saved (run_c tree_lamp).2).*1 =
    manifest_path_of <$> sorted {["lamp"; "ghost"]} ∧
  sorted {["lamp"; "ghost"]} = ["ghost"; "lamp"].
Proof.
  assert (discover_devices tree_lamp = Ok {["lamp"; "ghost"]}) as H1
    by (vm_compute; reflexivity).
  assert (({["lamp"; "ghost"]} : gset string) ≠ ∅) as H2.
  { intros H. apply (f_equal (λ s : gset string, bool_decide ("lamp" ∈ s))) in H.
    vm_compute in H. discriminate H. }
  assert ((run_c tree_lamp).1 = Ok ()) as H3 by (vm_compute; reflexivity).
  assert (sorted {["lamp"; "ghost"]} = ["ghost"; "lamp"]) as H4
    by (vm_compute; reflexivity).
  destruct (one_manifest_per_device JSONText.loads JSONText.dumps tree_lamp _ H1 H2 H3)
    as (Hs & _).
  split; [exact H1|]. split; [exact H2|]. split; [exact H3|].
  split; [exact Hs|exact H4].
Defined.

Lemma run_leaves_other_files_witness :
  discover_devices tree_lamp = Ok {["lamp"; "ghost"]} ∧
  files (run_c tree_lamp).2 !! ["firmware"; "lamp"; "v10.0.0"; "firmware.bin"] =
    tree_lamp !! ["firmware"; "lamp"; "v10.0.0"; "firmware.bin"] ∧
  is_dir (files (run_c tree_lamp).2) ["firmware"; "ghost.manifest.json"] = false.
Proof.
  assert (discover_devices tree_lamp = Ok {["lamp"; "ghost"]}) as H1
    by (vm_compute; reflexivity).
  destruct (run_leaves_other_files JSONText.loads JSONText.dumps tree_lamp _ H1)
    as (Hother & Hdir & _).
  split; [exact H1|]. split.
  - apply Hother; [discriminate|]. intros d _. discriminate.
  - rewrite Hdir. vm_compute; reflexivity.
Defined.

Lemma manifest_named_device_witness :
  discover_devices tree_clash = Ok {["x"; "x.manifest.json"]} ∧
  "x" ∈ ({["x"; "x.manifest.json"]} : gset string) ∧
  manifest_name "x" ∈ ({["x"; "x.manifest.json"]} : gset string) ∧
  ∃ e, (run_c tree_clash).1 = Raise e.
Proof.
  assert (discover_devices tree_clash = Ok {["x"; "x.manifest.json"]}) as H1
    by (vm_compute; reflexivity).
  assert ("x" ∈ ({["x"; "x.manifest.json"]} : gset string)) as H2.
  { apply elem_of_union. left. by apply elem_of_singleton. }
  assert (manifest_name "x" ∈ ({["x"; "x.manifest.json"]} : gset string)) as H3.
  { apply elem_of_union. right. by apply elem_of_singleton. }
  split; [exact H1|]. split; [exact H2|]. split; [exact H3|].
  exact (manifest_named_device JSONText.loads JSONText.dumps tree_clash _ "x" H1 H2 H3).
Defined.

Lemma manifest_not_an_object_witness :
  discover_devices tree_list = Ok {["lamp"]} ∧
  sorted {["lamp"]} = [] ++ "lamp" :: [] ∧
  JSONText.loads "[1, 2]" = Some (JList [JInt 1; JInt 2]) ∧
  run_c tree_list = (Raise AttributeError, World tree_list [] []).
Proof.
  assert (discover_devices tree_list = Ok {["lamp"]}) as H1 by (vm_compute; reflexivity).
  assert (sorted {["lamp"]} = [] ++ "lamp" :: []) as H2 by (vm_compute; reflexivity).
  assert (tree_list !! manifest_path_of "lamp" = Some (File (bytes_of "[1, 2]"))) as H3
    by (vm_compute; reflexivity).
  assert (JSONText.loads (string_of_list_byte (bytes_of "[1, 2]")) =
            Some (JList [JInt 1; JInt 2])) as H4 by (vm_compute; reflexivity).
  split; [exact H1|]. split; [exact H2|]. split; [exact H4|].
  apply (manifest_not_an_object JSONText.loads JSONText.dumps tree_list _ [] "lamp" []
           [] (World tree_list [] []) _ _ H1 H2 eq_refl H3 H4).
  intros m Hm. discriminate Hm.
Defined.

Lemma save_then_load_witness :
  reads_back JSONText.loads JSONText.dumps [("name", JStr "ghost")] ∧
  path_exists tree_lamp (manifest_path_of "ghost") = false ∧
  load_manifest JSONText.loads
    (files (save_manifest JSONText.dumps (manifest_path_of "ghost")
              [("name", JStr "ghost")] (World tree_lamp [] [])).2)
    (manifest_path_of "ghost") = Ok (JDict [("name", JStr "ghost")]).
Proof.
  assert (reads_back JSONText.loads JSONText.dumps [("name", JStr "ghost")]) as H1
    by (vm_compute; reflexivity).
  assert (path_exists tree_lamp (manifest_path_of "ghost") = false) as H2
    by (vm_compute; reflexivity).
  assert ((save_manifest JSONText.dumps (manifest_path_of "ghost")
             [("name", JStr "ghost")] (World tree_lamp [] [])).1 = Ok ()) as H3
    by (vm_compute; reflexivity).
  split; [exact H1|]. split; [exact H2|].
  apply (save_then_load JSONText.loads JSONText.dumps (manifest_path_of "ghost")
           [("name", JStr "ghost")] (World tree_lamp [] [])); [|exact H1].
  rewrite <- H3. apply surjective_pairing.
Defined.

Lemma manifest_keys_order_witness :
  discover_devices tree_lamp = Ok {["lamp"; "ghost"]} ∧
  "lamp" ∈ ({["lamp"; "ghost"]} : gset string) ∧
  (run_c tree_lamp).1 = Ok () ∧
  (∀ p m, (p, m) ∈ saved (run_c tree_lamp).2 → reads_back loads_c dumps_c m) ∧
  ∃ m' added,
    files (run_c tree_lamp).2 !! manifest_path_of "lamp" =
      Some (File (list_byte_of_string (dumps_c (JDict m') +:+ newline))) ∧
    load_manifest loads_c (files (run_c tree_lamp).2) (manifest_path_of "lamp") =
      Ok (JDict m') ∧
    m'.*1 = ["custom"; "chip"] ++ added ∧
    added `sublist_of` managed_keys.
Proof.
  assert (discover_devices tree_lamp = Ok {["lamp"; "ghost"]}) as H1
    by (vm_compute; reflexivity).
  assert ("lamp" ∈ ({["lamp"; "ghost"]} : gset string)) as H2.
  { apply elem_of_union. left. by apply elem_of_singleton. }
  assert ((run_c tree_lamp).1 = Ok ()) as H3 by (vm_compute; reflexivity).
  destruct (manifest_keys_order loads_c dumps_c tree_lamp _ "lamp" H1 H2 H3
              tree_lamp_reads_back)
    as (m0 & m' & added & Hload & Hfile & Hback & Hkeys & Hsub).
  assert (load_manifest loads_c tree_lamp (manifest_path_of "lamp") =
            Ok (JDict lamp_manifest)) as Hload' by (vm_compute; reflexivity).
  assert (m0 = lamp_manifest) as Hm0.
  { rewrite Hload' in Hload. injection Hload as Hload. symmetry; exact Hload. }
  split; [exact H1|]. split; [exact H2|]. split; [exact H3|].
  split; [exact tree_lamp_reads_back|].
  exists m', added. split; [exact Hfile|]. split; [exact Hback|]. split; [|exact Hsub].
  rewrite Hkeys, Hm0. reflexivity.
Defined.

Lemma fresh_manifest_witness :
  discover_devices tree_lamp = Ok {["lamp"; "ghost"]} ∧
  "ghost" ∈ ({["lamp"; "ghost"]} : gset string) ∧
  (run_c tree_lamp).1 = Ok () ∧
  path_exists tree_lamp (manifest_path_of "ghost") = false ∧
  (∀ p m, (p, m) ∈ saved (run_c tree_lamp).2 → reads_back loads_c dumps_c m) ∧
  ∃ us,
    files (run_c tree_lamp).2 !! manifest_path_of "ghost" =
      Some (File (list_byte_of_string
                    (dumps_c (JDict ([("$schema", JStr schema_url);
                                      ("name", JStr "ghost");
                                      ("chip", JStr "esp32")] ++ us)) +:+ newline))) ∧
    load_manifest loads_c (files (run_c tree_lamp).2) (manifest_path_of "ghost") =
      Ok (JDict ([("$schema", JStr schema_url); ("name", JStr "ghost");
                  ("chip", JStr "esp32")] ++ us)) ∧
    us.*1 `sublist_of` ["version"; "firmware"; "spiffs"; "config"].
Proof.
  assert (discover_devices tree_lamp = Ok {["lamp"; "ghost"]}) as H1
    by (vm_compute; reflexivity).
  assert ("ghost" ∈ ({["lamp"; "ghost"]} : gset string)) as H2.
  { apply elem_of_union. right. by apply elem_of_singleton. }
  assert ((run_c tree_lamp).1 = Ok ()) as H3 by (vm_compute; reflexivity).
  assert (path_exists tree_lamp (manifest_path_of "ghost") = false) as H4
    by (vm_compute; reflexivity).
  split; [exact H1|]. split; [exact H2|]. split; [exact H3|]. split; [exact H4|].
  split; [exact tree_lamp_reads_back|].
  exact (fresh_manifest loads_c dumps_c tree_lamp _ "ghost" H1 H2 H3 H4
           tree_lamp_reads_back).
Defined.

Lemma note_iff_no_binary_witness :
  discover_devices tree_lamp = Ok {["lamp"; "ghost"]} ∧
  "lamp" ∈ ({["lamp"; "ghost"]} : gset string) ∧
  (run_c tree_lamp).1 = Ok () ∧
  note_line "ghost" ∈ stdout (run_c tree_lamp).2 ∧
  ¬ no_firmware_binary tree_lamp "lamp".
Proof.
  assert (discover_devices tree_lamp = Ok {["lamp"; "ghost"]}) as H1
    by (vm_compute; reflexivity).
  assert ("lamp" ∈ ({["lamp"; "ghost"]} : gset string)) as H2.
  { apply elem_of_union. left. by apply elem_of_singleton. }
  assert ("ghost" ∈ ({["lamp"; "ghost"]} : gset string)) as H2'.
  { apply elem_of_union. right. by apply elem_of_singleton. }
  assert ((run_c tree_lamp).1 = Ok ()) as H3 by (vm_compute; reflexivity).
  assert (stdout (run_c tree_lamp).2 =
            [note_line "ghost"; "Updated ghost.manifest.json";
             "Updated lamp.manifest.json"; done_line 2]) as Hout
    by (vm_compute; reflexivity).
  split; [exact H1|]. split; [exact H2|]. split; [exact H3|]. split.
  - apply (note_iff_no_binary JSONText.loads JSONText.dumps tree_lamp _ "ghost" H1 H2' H3).
    left. vm_compute; reflexivity.
  - intros Hno.
    apply (note_iff_no_binary JSONText.loads JSONText.dumps tree_lamp _ "lamp" H1 H2 H3)
      in Hno.
    change (run JSONText.loads JSONText.dumps tree_lamp) with (run_c tree_lamp) in Hno.
    rewrite Hout in Hno. apply list_elem_of_In in Hno.
    destruct Hno as [Hno|[Hno|[Hno|[Hno|[]]]]]; vm_compute in Hno; discriminate Hno.
Defined.

Lemma stale_entries_stay_witness :
  discover_devices tree_lamp = Ok {["lamp"; "ghost"]} ∧
  "lamp" ∈ ({["lamp"; "ghost"]} : gset string) ∧
  (run_c tree_lamp).1 = Ok () ∧
  tree_lamp !! child (child config_root "lamp") "config.yaml" = None ∧
  ∃ m', files (run_c tree_lamp).2 !! manifest_path_of "lamp" =
          Some (File (manifest_bytes JSONText.dumps m')) ∧
        dict_get m' "config" = None ∧
        is_Some (dict_get m' "custom").
Proof.
  assert (discover_devices tree_lamp = Ok {["lamp"; "ghost"]}) as H1
    by (vm_compute; reflexivity).
  assert ("lamp" ∈ ({["lamp"; "ghost"]} : gset string)) as H2.
  { apply elem_of_union. left. by apply elem_of_singleton. }
  assert ((run_c tree_lamp).1 = Ok ()) as H3 by (vm_compute; reflexivity).
  assert (tree_lamp !! child (child config_root "lamp") "config.yaml" = None) as H4
    by (vm_compute; reflexivity).
  destruct (stale_entries_stay JSONText.loads JSONText.dumps tree_lamp _ "lamp" H1 H2 H3)
    as (m0 & m' & Hload & Hfile & Hkeep & Hc & _).
  assert (load_manifest JSONText.loads tree_lamp (manifest_path_of "lamp") =
            Ok (JDict lamp_manifest)) as Hload' by (vm_compute; reflexivity).
  assert (m0 = lamp_manifest) as Hm0.
  { rewrite Hload' in Hload. injection Hload as Hload. symmetry; exact Hload. }
  split; [exact H1|]. split; [exact H2|]. split; [exact H3|]. split; [exact H4|].
  exists m'. split; [exact Hfile|]. split.
  - rewrite (Hc H4), Hm0. reflexivity.
  - apply Hkeep. rewrite Hm0. exists (JInt 7). reflexivity.
Defined.
